(** * Monitor input switcher: platform classification, prerequisite
      validation, DDC/CI command dispatch and discovery.

    A shallow embedding of the TypeScript sources of the extension.  The
    repository keeps two generations of its library side by side:

      - [Legacy]: the first generation of src/lib/platform.ts and
        src/lib/ddc.ts, driven by src/switch-to-hdmi.tsx; its two other
        commands are [SwitchToDisplayPort] and [LegacyDiscoverInputs];
      - [Revised]: the second generation of src/lib/platform.ts and
        src/lib/ddc.ts, with src/lib/toast.ts, src/lib/extension.ts and
        src/common.ts, driven by src/toggle-input-source.tsx; its
        discovery command is [DiscoverInputs].

    The host (operating system name, child processes, file system) is an
    explicit record; effects are threaded through a small state-and-exception
    monad whose state is the trace of observable events. *)

From Stdlib Require Import ZArith String Ascii List Bool Lia.
From stdpp Require Import base option gmap strings pretty.

Open Scope string_scope.
Open Scope Z_scope.

(** ** JavaScript strings and numbers

    A string is the UTF-8 encoding of the JavaScript string.  On such text
    concatenation, equality, [startsWith] and [includes] are those of the
    bytes.  [trim] and [parseInt] strip the white space of ECMAScript (the
    WhiteSpace and LineTerminator code points), each in its UTF-8 encoding.
    [toLowerCase] maps the ASCII letters only.  The program looks in its
    result for [intel] and [apple] alone, and that search cannot tell the
    difference: the lower-case form of a code point outside ASCII has none
    of their letters, except that of U+0130, an [i] followed by a combining
    dot and so never by [n].

    The numbers that the program handles are the results of
    [parseInt(_, 10)]: [NaN], or the double nearest to an integer.  [Num z]
    stands for the double nearest to [z] (ties to even, infinite from
    2^1024 - 2^970 on); [parseInt] keeps the integer it has read, and the
    rounding is applied where the number is looked at: [numberToString] is
    [String(n)] on that double, and [geq] compares with a small constant,
    where rounding changes nothing. *)
Module JS.

(** White space in one byte: TAB, LF, VT, FF, CR and the space. *)
Definition isSpace (c : ascii) : bool :=
  let n := nat_of_ascii c in
  (Nat.eqb n 9 || Nat.eqb n 10 || Nat.eqb n 11 || Nat.eqb n 12
   || Nat.eqb n 13 || Nat.eqb n 32)%bool.

(** White space in two bytes: U+00A0. *)
Definition isSpace2 (c1 c2 : ascii) : bool :=
  (Nat.eqb (nat_of_ascii c1) 194 && Nat.eqb (nat_of_ascii c2) 160)%bool.

(** White space in three bytes: U+1680, U+2000 to U+200A, U+2028, U+2029,
    U+202F, U+205F, U+3000 and U+FEFF. *)
Definition isSpace3 (c1 c2 c3 : ascii) : bool :=
  let n1 := nat_of_ascii c1 in
  let n2 := nat_of_ascii c2 in
  let n3 := nat_of_ascii c3 in
  ((Nat.eqb n1 225 && (Nat.eqb n2 154 && Nat.eqb n3 128))
   || (Nat.eqb n1 226
       && ((Nat.eqb n2 128
            && ((Nat.leb 128 n3 && Nat.leb n3 138)
                || Nat.eqb n3 168 || Nat.eqb n3 169 || Nat.eqb n3 175))
           || (Nat.eqb n2 129 && Nat.eqb n3 159)))
   || (Nat.eqb n1 227 && (Nat.eqb n2 128 && Nat.eqb n3 128))
   || (Nat.eqb n1 239 && (Nat.eqb n2 187 && Nat.eqb n3 191)))%bool.

Definition isDigit (c : ascii) : bool :=
  let n := nat_of_ascii c in (Nat.leb 48 n && Nat.leb n 57)%bool.

Definition digitValue (c : ascii) : Z := Z.of_nat (nat_of_ascii c) - 48.

Definition lowerChar (c : ascii) : ascii :=
  let n := nat_of_ascii c in
  if (Nat.leb 65 n && Nat.leb n 90)%bool then ascii_of_nat (n + 32) else c.

Fixpoint toLowerCase (s : string) : string :=
  match s with
  | EmptyString => EmptyString
  | String c s' => String (lowerChar c) (toLowerCase s')
  end.

Fixpoint trimStart (s : string) : string :=
  match s with
  | EmptyString => EmptyString
  | String c1 r1 =>
      if isSpace c1 then trimStart r1
      else
        match r1 with
        | EmptyString => s
        | String c2 r2 =>
            if isSpace2 c1 c2 then trimStart r2
            else
              match r2 with
              | EmptyString => s
              | String c3 r3 => if isSpace3 c1 c2 c3 then trimStart r3 else s
              end
        end
  end.

(** [trimStart] on the reversed text: the bytes of a code point come last
    byte first. *)
Fixpoint trimStartReversed (s : string) : string :=
  match s with
  | EmptyString => EmptyString
  | String c1 r1 =>
      if isSpace c1 then trimStartReversed r1
      else
        match r1 with
        | EmptyString => s
        | String c2 r2 =>
            if isSpace2 c2 c1 then trimStartReversed r2
            else
              match r2 with
              | EmptyString => s
              | String c3 r3 =>
                  if isSpace3 c3 c2 c1 then trimStartReversed r3 else s
              end
        end
  end.

Definition trimEnd (s : string) : string :=
  String.rev (trimStartReversed (String.rev s)).

Definition trim (s : string) : string := trimEnd (trimStart s).

(** [startsWith s p]: [s.startsWith(p)]. *)
Fixpoint startsWith (s p : string) : bool :=
  match p, s with
  | EmptyString, _ => true
  | String _ _, EmptyString => false
  | String a p', String b s' => if Ascii.eqb a b then startsWith s' p' else false
  end.

(** [includes s needle]: [s.includes(needle)]. *)
Fixpoint includes (s needle : string) : bool :=
  (startsWith s needle
   || match s with
      | EmptyString => false
      | String _ s' => includes s' needle
      end)%bool.

(** [join sep parts]: [parts.join(sep)]. *)
Fixpoint join (sep : string) (parts : list string) : string :=
  match parts with
  | [] => EmptyString
  | [p] => p
  | p :: rest => p +:+ sep +:+ join sep rest
  end.

Inductive number := NaN | Num (z : Z).

#[global] Instance number_eq_dec : EqDecision number.
Proof. solve_decision. Defined.

Definition isNaN (n : number) : bool :=
  match n with NaN => true | Num _ => false end.

(** The double nearest to the integer [z >= 0], ties to even; [None] when
    it is infinite.  Below 2^53 every integer is a double. *)
Definition roundToDouble (z : Z) : option Z :=
  if z <? 9007199254740992 then Some z
  else
    let e := Z.log2 z - 52 in
    let q := Z.shiftr z e in
    let r := z - Z.shiftl q e in
    let half := Z.shiftl 1 (e - 1) in
    let q' := if ((half <? r) || ((r =? half) && Z.odd q))%bool then q + 1 else q in
    let d := Z.shiftl q' e in
    if Z.log2 d <? 1024 then Some d else None.

Definition roundsTo (x m : Z) : bool :=
  match roundToDouble m with Some d => d =? x | None => false end.

(** The multiple of [p] that reads back as the double [x]: of the two
    multiples around [x], the nearer one that rounds to [x], the even one
    on a tie. *)
Definition nearestMultiple (x p : Z) : option Z :=
  let lo := (x / p) * p in
  let hi := lo + p in
  match roundsTo x lo, roundsTo x hi with
  | true, true =>
      if x - lo <? hi - x then Some lo
      else if hi - x <? x - lo then Some hi
      else Some (if Z.even (x / p) then lo else hi)
  | true, false => Some lo
  | false, true => Some hi
  | false, false => None
  end.

(** The decimal with the fewest significant digits that reads back as the
    double [x]: multiples of ever larger powers of ten are tried, starting
    from [best], a multiple of [p]. *)
Fixpoint shortestDecimal (fuel : nat) (x p best : Z) : Z :=
  match fuel with
  | O => best
  | S fuel' =>
      match nearestMultiple x (10 * p) with
      | Some m => shortestDecimal fuel' x (10 * p) m
      | None => best
      end
  end.

Fixpoint stripZeros (fuel : nat) (m : Z) : Z :=
  match fuel with
  | O => m
  | S fuel' =>
      if ((0 <? m) && (m mod 10 =? 0))%bool then stripZeros fuel' (m / 10) else m
  end.

(** Exponent notation, for 10^21 and above: [d.ddde+N]. *)
Definition exponential (m : Z) : string :=
  let digits := pretty (stripZeros 400 m) in
  let e := Z.of_nat (String.length (pretty m)) - 1 in
  match digits with
  | EmptyString => EmptyString
  | String d EmptyString => String d ("e+" +:+ pretty e)
  | String d rest => String d ("." +:+ rest +:+ "e+" +:+ pretty e)
  end.

(** [String(x)] for the double nearest to the integer [a >= 0]. *)
Definition doubleToString (a : Z) : string :=
  match roundToDouble a with
  | None => "Infinity"
  | Some d =>
      if d <? 9007199254740992 then pretty d
      else
        let m := shortestDecimal 400 d 1 d in
        if m <? 1000000000000000000000 then pretty m else exponential m
  end.

(** [String(n)] and the conversion inside a template literal. *)
Definition numberToString (n : number) : string :=
  match n with
  | NaN => "NaN"
  | Num z => if z <? 0 then "-" +:+ doubleToString (- z) else doubleToString z
  end.

(** [n >= k] on numbers, for an integer [k] below 2^53: every comparison
    with [NaN] is false, and rounding to a double is monotone and leaves
    [k] in place. *)
Definition geq (n : number) (k : Z) : bool :=
  match n with NaN => false | Num z => Z.leb k z end.

Fixpoint takeDigits (s : string) : string :=
  match s with
  | EmptyString => EmptyString
  | String c s' => if isDigit c then String c (takeDigits s') else EmptyString
  end.

Fixpoint digitsValue (acc : Z) (s : string) : Z :=
  match s with
  | EmptyString => acc
  | String c s' => digitsValue (10 * acc + digitValue c) s'
  end.

(** [parseInt(s, 10)]: leading white space is skipped, one sign is accepted,
    then the longest run of decimal digits is read; no digit gives [NaN].
    Whatever follows the digits is ignored.  The result stands for the
    double nearest to the integer read. *)
Definition parseInt (s : string) : number :=
  let s1 := trimStart s in
  let '(neg, s2) :=
    match s1 with
    | String "-" r => (true, r)
    | String "+" r => (false, r)
    | _ => (false, s1)
    end in
  match takeDigits s2 with
  | EmptyString => NaN
  | ds => Num (if neg then - digitsValue 0 ds else digitsValue 0 ds)
  end.

(** Values stored in object properties of the records the program builds. *)
Inductive value := VStr (s : string) | VBool (b : bool).

#[global] Instance value_eq_dec : EqDecision value.
Proof. solve_decision. Defined.

(** Objects are finite maps from property names to values; reading an
    absent property gives [None] (JavaScript's [undefined]). *)
Abbreviation object := (gmap string value).

(** One entry of an object literal: a spread [...o] or a property [k: v]. *)
Inductive entry := Spread (o : object) | Field (k : string) (v : value).

(** Object literal [{ e1, e2, ... }]: entries are applied left to right, a
    later entry overwriting the properties set by an earlier one. *)
Definition literal (entries : list entry) : object :=
  fold_left (fun acc e =>
               match e with
               | Spread o => o ∪ acc
               | Field k v => <[k := v]> acc
               end) entries ∅.

(** Conversion of a property read to a string ([`${x}`]). *)
Definition toStr (v : option value) : string :=
  match v with
  | None => "undefined"
  | Some (VStr s) => s
  | Some (VBool true) => "true"
  | Some (VBool false) => "false"
  end.

(** Truthiness of a property read. *)
Definition truthy (v : option value) : bool :=
  match v with
  | None => false
  | Some (VStr s) => negb (String.eqb s EmptyString)
  | Some (VBool b) => b
  end.

End JS.

Import JS.

(** ** The host and the effects of the program *)

(** What one call of [execSync] can observe of the child process: it ran and
    exited with [status], having written [stdout]; or it did not complete
    (it could not be started, or it was killed when the timeout expired).
    [message] is the [message] of the [Error] that [execSync] throws when the
    status is not zero or the process did not complete. *)
Inductive ProcOutcome :=
| Exited (status : Z) (stdout : string) (message : string)
| NotCompleted (message : string).

Inductive ToastStyle := StyleFailure | StyleAnimated | StyleSuccess.

(** Observable events, in the order the program performs them. *)
Inductive event :=
| Spawn (command : string)
| Warn (text : string)
| CloseMainWindow
| ShowToast (style : ToastStyle) (title message : string)
| UpdateToast (style : ToastStyle) (title message : string)
| ShowHUD (text : string)
| Sleep (ms : Z).

#[global] Instance ToastStyle_eq_dec : EqDecision ToastStyle.
Proof. solve_decision. Defined.

#[global] Instance event_eq_dec : EqDecision event.
Proof. solve_decision. Defined.

(** The host: [platform] is the result of [os.platform()], [run] gives the
    outcome of running a command line after a given history, [existsSync]
    is the file-system test. *)
Record Host := {
  platform : string;
  run : list event -> string -> ProcOutcome;
  existsSync : string -> bool;
}.

(** A computation either returns a value or throws an error (carried as its
    message); either way it extends the trace. *)
Inductive completion (A : Type) :=
| Returned (a : A)
| Thrown (message : string).
Arguments Returned {A} a.
Arguments Thrown {A} message.

Definition Eff (A : Type) : Type := list event -> completion A * list event.

Definition ret {A} (a : A) : Eff A := fun tr => (Returned a, tr).

Definition bind {A B} (c : Eff A) (k : A -> Eff B) : Eff B :=
  fun tr =>
    match c tr with
    | (Returned a, tr') => k a tr'
    | (Thrown e, tr') => (Thrown e, tr')
    end.

(** [try { body } catch (error) { handler(error.message) }]. *)
Definition tryCatch {A} (body : Eff A) (handler : string -> Eff A) : Eff A :=
  fun tr =>
    match body tr with
    | (Returned a, tr') => (Returned a, tr')
    | (Thrown e, tr') => handler e tr'
    end.

Definition emit (e : event) : Eff unit := fun tr => (Returned tt, (tr ++ [e])%list).

Declare Scope eff_scope.
Delimit Scope eff_scope with eff.
Notation "'let*' x ':=' c 'in' k" := (bind c (fun x => k))
  (at level 10, x pattern, c at level 100, k at level 200) : eff_scope.
Notation "c ';;' k" := (bind c (fun _ => k))
  (at level 100, k at level 200, right associativity) : eff_scope.
Open Scope eff_scope.

Section Node.
Variable host : Host.

(** [execSync(command, options)]: the command is handed to a child process;
    its standard output is returned when it exits with status 0, and an
    error is thrown otherwise. *)
Definition execSync (command : string) : Eff string :=
  fun tr =>
    match run host tr command with
    | Exited status stdout message =>
        if status =? 0 then (Returned stdout, (tr ++ [Spawn command])%list)
        else (Thrown message, (tr ++ [Spawn command])%list)
    | NotCompleted message => (Thrown message, (tr ++ [Spawn command])%list)
    end.
End Node.

(** The commands spawned in a trace. *)
Definition spawned (tr : list event) : list string :=
  omap (fun e => match e with Spawn c => Some c | _ => None end) tr.

(** ** Shared by the two generations of platform.ts *)

(** The type [AppleSiliconGen]. *)
Inductive AppleSiliconGen := m1 | m2_or_later | intel | unknown.

#[global] Instance AppleSiliconGen_eq_dec : EqDecision AppleSiliconGen.
Proof. solve_decision. Defined.

(** The [os] field of a [PlatformInfo].  It takes these three values only,
    so the last [return] of the validators (the text
    [Unknown platform error.]) is never reached and has no counterpart
    here. *)
Inductive OsName := darwin | win32 | unsupported.

#[global] Instance OsName_eq_dec : EqDecision OsName.
Proof. solve_decision. Defined.

(** [stripPrefixIgnoreCase p s]: what follows in [s] a prefix equal to the
    lower-case pattern [p] up to the case of ASCII letters. *)
Fixpoint stripPrefixIgnoreCase (p s : string) : option string :=
  match p, s with
  | EmptyString, _ => Some s
  | String _ _, EmptyString => None
  | String a p', String b s' =>
      if Ascii.eqb a (lowerChar b) then stripPrefixIgnoreCase p' s' else None
  end.

(** The regular expression [/Apple M(\d+)/i] at the start of [s]: the text
    of the capture group when it matches there. *)
Definition matchAppleMHere (s : string) : option string :=
  match stripPrefixIgnoreCase "apple m" s with
  | Some rest =>
      match takeDigits rest with
      | EmptyString => None
      | ds => Some ds
      end
  | None => None
  end.

(** [s.match(/Apple M(\d+)/i)]: the capture group of the leftmost match. *)
Fixpoint matchAppleM (s : string) : option string :=
  match matchAppleMHere s with
  | Some ds => Some ds
  | None =>
      match s with
      | EmptyString => None
      | String _ s' => matchAppleM s'
      end
  end.

(** The body of [detectAppleSiliconGeneration] after the brand string has
    been read and trimmed (the same text in both generations of
    platform.ts). *)
Definition classifyBrandString (brandString : string) : AppleSiliconGen :=
  if includes (toLowerCase brandString) "intel" then intel
  else
    match matchAppleM brandString with
    | Some digits =>
        let generation := parseInt digits in
        if geq generation 2 then m2_or_later else m1
    | None =>
        if includes (toLowerCase brandString) "apple" then m2_or_later
        else unknown
    end.

(** The line feed and the double quote, as one-character strings. *)
Definition LF : string := String (ascii_of_nat 10) EmptyString.
Definition DQ : string := String (ascii_of_nat 34) EmptyString.

(** ** First generation: src/lib/platform.ts, src/lib/ddc.ts and
       src/switch-to-hdmi.tsx *)
Module Legacy.

(** *** platform.ts (first generation) *)

Record PlatformInfo := {
  os : OsName;
  isAppleSilicon : bool;
  appleChipGen : AppleSiliconGen;
  m1ddcSupportsBuiltinHdmi : bool;
}.

Section WithHost.
Variable host : Host.

Definition detectAppleSiliconGeneration : Eff AppleSiliconGen :=
  tryCatch
    (let* stdout := execSync host "sysctl -n machdep.cpu.brand_string" in
     let brandString := trim stdout in
     ret (classifyBrandString brandString))
    (fun _ => ret unknown).

Definition detectPlatform : Eff PlatformInfo :=
  let os := platform host in
  if String.eqb os "win32" then
    ret {| os := win32; isAppleSilicon := false;
           appleChipGen := unknown; m1ddcSupportsBuiltinHdmi := false |}
  else if String.eqb os "darwin" then
    let* chipGen := detectAppleSiliconGeneration in
    ret {| os := darwin;
           isAppleSilicon := negb (bool_decide (chipGen = intel));
           appleChipGen := chipGen;
           m1ddcSupportsBuiltinHdmi := bool_decide (chipGen = m2_or_later) |}
  else
    ret {| os := unsupported; isAppleSilicon := false;
           appleChipGen := unknown; m1ddcSupportsBuiltinHdmi := false |}.

Definition isM1ddcInstalled : Eff bool :=
  tryCatch (execSync host "which m1ddc" ;; ret true) (fun _ => ret false).

Definition isControlMyMonitorInstalled (path : string) : bool :=
  if (String.eqb path EmptyString || String.eqb (trim path) EmptyString)%bool then false
  else existsSync host path.

(** [validatePrerequisites(controlMyMonitorPath?)]: an error message, or
    [None] for [null] when the prerequisites are met. *)
Definition validatePrerequisites (controlMyMonitorPath : option string)
  : Eff (option string) :=
  let* info := detectPlatform in
  match os info with
  | unsupported => ret (Some "This extension only supports macOS and Windows.")
  | darwin =>
      if bool_decide (appleChipGen info = intel) then
        ret (Some "m1ddc requires Apple Silicon (M1 or later). Intel Macs are not supported.")
      else
        let* installed := isM1ddcInstalled in
        if negb installed then
          ret (Some "m1ddc is not installed. Install via: brew install m1ddc")
        else
          (if bool_decide (appleChipGen info = m1) then
             emit (Warn ("Note: m1ddc does not support M1's built-in HDMI port. "
                         +:+ "External displays via USB-C/Thunderbolt adapters should work."))
           else ret tt) ;;
          ret None
  | win32 =>
      match controlMyMonitorPath with
      | None =>
          ret (Some ("ControlMyMonitor path not configured. "
                     +:+ "Download from https://www.nirsoft.net/utils/controlmymonitor.zip "
                     +:+ "and set the path in extension preferences."))
      | Some path =>
          if (String.eqb path EmptyString || String.eqb (trim path) EmptyString)%bool then
            ret (Some ("ControlMyMonitor path not configured. "
                       +:+ "Download from https://www.nirsoft.net/utils/controlmymonitor.zip "
                       +:+ "and set the path in extension preferences."))
          else if negb (isControlMyMonitorInstalled path) then
            ret (Some ("ControlMyMonitor not found at: " +:+ path))
          else ret None
      end
  end.

(** *** ddc.ts (first generation) *)

Definition VCP_INPUT_SOURCE : number := Num 60.

Record SwitchResult := {
  success : bool;
  message : string;
  rawOutput : option string;
}.

Record InputDiscovery := {
  d_success : bool;
  currentValue : option number;
  availableInfo : option string;
  error : option string;
}.

Definition switchInputMacOS (inputValue : number) : Eff SwitchResult :=
  tryCatch
    (let command := "m1ddc set input " +:+ numberToString inputValue in
     let* output := execSync host command in
     ret {| success := true;
            message := "Switched to input " +:+ numberToString inputValue;
            rawOutput := Some (trim output) |})
    (fun errorMessage =>
       if includes errorMessage "No displays found" then
         ret {| success := false;
                message := "No DDC/CI compatible displays found. Is the monitor connected and awake?";
                rawOutput := None |}
       else if includes errorMessage "DDC communication failed" then
         ret {| success := false;
                message := "DDC/CI communication failed. Try a different cable or check monitor DDC settings.";
                rawOutput := None |}
       else
         ret {| success := false;
                message := "m1ddc error: " +:+ errorMessage;
                rawOutput := None |}).

Definition switchInputWindows (inputValue : number) (exePath monitorId : string)
  : Eff SwitchResult :=
  tryCatch
    (let quotedPath := DQ +:+ exePath +:+ DQ in
     let command :=
       quotedPath +:+ " /SetValue " +:+ DQ +:+ monitorId +:+ DQ +:+ " "
       +:+ numberToString VCP_INPUT_SOURCE +:+ " " +:+ numberToString inputValue in
     let* output := execSync host command in
     ret {| success := true;
            message := "Switched to input " +:+ numberToString inputValue;
            rawOutput := Some (trim output) |})
    (fun errorMessage =>
       ret {| success := false;
              message := "ControlMyMonitor error: " +:+ errorMessage;
              rawOutput := None |}).

(** [switchInput(inputValue, controlMyMonitorPath?, monitorId = "Primary")].
    The non-null assertion on the path is an erased annotation: an absent
    path would be rendered as the text [undefined]. *)
Definition switchInput (inputValue : number)
    (controlMyMonitorPath : option string) (monitorId : string)
  : Eff SwitchResult :=
  let* prereqError := validatePrerequisites controlMyMonitorPath in
  match prereqError with
  | Some msg => ret {| success := false; message := msg; rawOutput := None |}
  | None =>
      let* platform := detectPlatform in
      match os platform with
      | darwin => switchInputMacOS inputValue
      | win32 =>
          switchInputWindows inputValue
            (default "undefined" controlMyMonitorPath) monitorId
      | unsupported =>
          ret {| success := false; message := "Unsupported platform.";
                 rawOutput := None |}
      end
  end.
Definition discoverInputsMacOS : Eff InputDiscovery :=
  tryCatch
    (let* currentInput := execSync host "m1ddc get input" in
     let currentValue := parseInt (trim currentInput) in
     let* displayInfo :=
       tryCatch (execSync host "m1ddc display list")
                (fun _ => ret "(Could not retrieve display list)") in
     let info :=
       join LF
         [ "=== macOS DDC/CI Discovery (m1ddc) ===";
           EmptyString;
           "Current Input Value (VCP 0x60): " +:+ numberToString currentValue;
           EmptyString;
           "Common Input Values:";
           "  15 (0x0F) = DisplayPort";
           "  17 (0x11) = HDMI-1";
           "  18 (0x12) = HDMI-2";
           "  (Values vary by monitor model)";
           EmptyString;
           "Detected Displays:";
           displayInfo;
           EmptyString;
           "Tip: Switch to each input manually and run this command to discover the value:";
           "  m1ddc get input" ] in
     ret {| d_success := true;
            currentValue := if isNaN currentValue then None else Some currentValue;
            availableInfo := Some info;
            error := None |})
    (fun errorMessage =>
       ret {| d_success := false; currentValue := None; availableInfo := None;
              error := Some ("m1ddc error: " +:+ errorMessage) |}).

Definition discoverInputsWindows (exePath monitorId : string)
  : Eff InputDiscovery :=
  tryCatch
    (let quotedPath := DQ +:+ exePath +:+ DQ in
     let* monitorInfo := execSync host (quotedPath +:+ " /smonitors") in
     let* currentValue :=
       tryCatch
         (let* inputInfo :=
            execSync host (quotedPath +:+ " /GetValue " +:+ DQ +:+ monitorId
                           +:+ DQ +:+ " " +:+ numberToString VCP_INPUT_SOURCE) in
          let parsed := parseInt (trim inputInfo) in
          ret (if isNaN parsed then None else Some parsed))
         (fun _ => ret None) in
     let info :=
       join LF
         [ "=== Windows DDC/CI Discovery (ControlMyMonitor) ===";
           EmptyString;
           match currentValue with
           | Some v => "Current Input Value (VCP 0x60): " +:+ numberToString v
           | None => "Current Input Value: (Could not read)"
           end;
           EmptyString;
           "Common Input Values:";
           "  15 (0x0F) = DisplayPort";
           "  17 (0x11) = HDMI-1";
           "  18 (0x12) = HDMI-2";
           "  (Values vary by monitor model)";
           EmptyString;
           "Detected Monitors:";
           monitorInfo;
           EmptyString;
           "Tip: Use the ControlMyMonitor GUI to explore all VCP values." ] in
     ret {| d_success := true; currentValue := currentValue;
            availableInfo := Some info; error := None |})
    (fun errorMessage =>
       ret {| d_success := false; currentValue := None; availableInfo := None;
              error := Some ("ControlMyMonitor error: " +:+ errorMessage) |}).

Definition discoverInputs (controlMyMonitorPath : option string)
    (monitorId : string) : Eff InputDiscovery :=
  let* prereqError := validatePrerequisites controlMyMonitorPath in
  match prereqError with
  | Some msg =>
      ret {| d_success := false; currentValue := None; availableInfo := None;
             error := Some msg |}
  | None =>
      let* platform := detectPlatform in
      match os platform with
      | darwin => discoverInputsMacOS
      | win32 =>
          discoverInputsWindows (default "undefined" controlMyMonitorPath) monitorId
      | unsupported =>
          ret {| d_success := false; currentValue := None; availableInfo := None;
                 error := Some "Unsupported platform." |}
      end
  end.

(** *** switch-to-hdmi.tsx *)

Record Preferences := {
  displayportValue : string;
  hdmiValue : string;
  controlMyMonitorPath : string;
  monitorId : string;
}.

(** [x || undefined] and [x || "Primary"] on a string. *)
Definition orUndefined (x : string) : option string :=
  if String.eqb x EmptyString then None else Some x.
Definition orElse (x fallback : string) : string :=
  if String.eqb x EmptyString then fallback else x.

(** The command of switch-to-hdmi.tsx; [prefs] is what
    [getPreferenceValues()] returns. *)
Definition Command (prefs : Preferences) : Eff unit :=
  let inputValue := parseInt (hdmiValue prefs) in
  if isNaN inputValue then
    emit (ShowToast StyleFailure "Invalid HDMI value"
            (DQ +:+ hdmiValue prefs +:+ DQ +:+ " is not a valid number"))
  else
    emit CloseMainWindow ;;
    let* result :=
      switchInput inputValue (orUndefined (controlMyMonitorPath prefs))
                  (orElse (monitorId prefs) "Primary") in
    if success result then
      emit (ShowHUD ("✓ Switched to HDMI (" +:+ numberToString inputValue +:+ ")"))
    else
      emit (ShowToast StyleFailure "Switch Failed" (message result)).
End WithHost.
End Legacy.

(** ** Second generation: src/lib/platform.ts, src/lib/toast.ts,
       src/lib/extension.ts, src/common.ts, src/lib/ddc.ts and
       src/toggle-input-source.tsx *)
Module Revised.

Record PlatformInfo := {
  os : OsName;
  appleChipGen : AppleSiliconGen;
  isWin32 : bool;
  isAppleSilicon : bool;
  m1ddcSupportsBuiltinHdmi : bool;
}.

Definition osText (o : OsName) : string :=
  match o with darwin => "darwin" | win32 => "win32" | unsupported => "unsupported" end.

Definition genText (g : AppleSiliconGen) : string :=
  match g with
  | m1 => "m1" | m2_or_later => "m2_or_later" | intel => "intel" | unknown => "unknown"
  end.

(** A [PlatformInfo] as the object it is at run time. *)
Definition infoObject (info : PlatformInfo) : object :=
  literal [ Field "os" (VStr (osText (os info)));
            Field "isWin32" (VBool (isWin32 info));
            Field "appleChipGen" (VStr (genText (appleChipGen info)));
            Field "isAppleSilicon" (VBool (isAppleSilicon info));
            Field "m1ddcSupportsBuiltinHdmi" (VBool (m1ddcSupportsBuiltinHdmi info)) ].

(** *** toast.ts *)

Definition GenericSuccess : object :=
  literal [ Field "status" (VStr "success");
            Field "title" (VStr EmptyString);
            Field "message" (VStr EmptyString) ].

(** *** extension.ts *)

(** The preferences that the extension's manifest declares (its generated
    types are the [ExtensionPreferences] of src/common.ts): what
    [getPreferenceValues()] returns has these five properties.  The
    [Preferences] interface of extension.ts names the second one
    [hdmiPortValue]; that is a type annotation, erased at run time, and the
    object has no property of that name. *)
Record Preferences := {
  displayPortValue : string;
  hdmiValue : string;
  controlMyMonitorPath : string;
  m1ddcPath : string;
  monitorId : string;
}.

Definition prefsObject (prefs : Preferences) : object :=
  literal [ Field "displayPortValue" (VStr (displayPortValue prefs));
            Field "hdmiValue" (VStr (hdmiValue prefs));
            Field "controlMyMonitorPath" (VStr (controlMyMonitorPath prefs));
            Field "m1ddcPath" (VStr (m1ddcPath prefs));
            Field "monitorId" (VStr (monitorId prefs)) ].

(** [array.forEach(callback)]: the callback runs on each element in turn
    and whatever it returns is dropped. *)
Fixpoint forEach {A B} (array : list A) (callback : A -> Eff B) : Eff unit :=
  match array with
  | [] => ret tt
  | x :: rest => callback x ;; forEach rest callback
  end.

Section WithHost.
Variable host : Host.

(** *** platform.ts (second generation) *)

Definition detectAppleSiliconGeneration : Eff AppleSiliconGen :=
  tryCatch
    (let quotedPath := DQ +:+ "/usr/sbin/sysctl" +:+ DQ in
     let* stdout := execSync host (quotedPath +:+ " -n machdep.cpu.brand_string") in
     let brandString := trim stdout in
     ret (classifyBrandString brandString))
    (fun _ => ret unknown).

Definition detectPlatform : Eff PlatformInfo :=
  let os := platform host in
  if String.eqb os "win32" then
    ret {| os := win32; isWin32 := true; appleChipGen := unknown;
           isAppleSilicon := false; m1ddcSupportsBuiltinHdmi := false |}
  else if String.eqb os "darwin" then
    let* chipGen := detectAppleSiliconGeneration in
    ret {| os := darwin; isWin32 := false; appleChipGen := chipGen;
           isAppleSilicon := negb (bool_decide (chipGen = intel));
           m1ddcSupportsBuiltinHdmi := bool_decide (chipGen = m2_or_later) |}
  else
    ret {| os := unsupported; isWin32 := false; appleChipGen := unknown;
           isAppleSilicon := false; m1ddcSupportsBuiltinHdmi := false |}.

Definition validateHostPlatform : Eff object :=
  let* info := detectPlatform in
  match os info with
  | unsupported =>
      ret (literal [ Spread (infoObject info);
                     Field "status" (VStr "failure");
                     Field "title" (VStr "This extension only supports macOS and Windows.");
                     Field "message" (VStr EmptyString) ])
  | darwin =>
      if bool_decide (appleChipGen info = intel) then
        ret (literal [ Spread (infoObject info);
                       Field "status" (VStr "failure");
                       Field "title" (VStr "m1ddc requires Apple Silicon (M1 or later)");
                       Field "message"
                         (VStr "M1 is partially supported, Intel Macs are not supported.") ])
      else if bool_decide (appleChipGen info = m1) then
        ret (literal [ Spread (infoObject info);
                       Field "status" (VStr "soft-fail");
                       Field "title" (VStr "m1ddc does not support M1's built-in HDMI port!");
                       Field "message"
                         (VStr "External displays via USB-C/Thunderbolt adapters should work.") ])
      else ret (literal [ Spread (infoObject info); Spread GenericSuccess ])
  | win32 => ret (literal [ Spread (infoObject info); Spread GenericSuccess ])
  end.

(** *** extension.ts; [prefs] is what [getPreferenceValues()] returns,
    [platform] the object the caller passes.  The two input codes are read
    as properties of the preferences object: [hdmiPortValue] is not one of
    its properties, so that read gives [undefined], which [parseInt] turns
    into text first. *)
Definition validatePreferences (prefs : Preferences) (platform : object)
  : Eff object :=
  forEach [ ("HDMI port", prefsObject prefs !! "hdmiPortValue");
            ("DisplayPort", prefsObject prefs !! "displayPortValue") ]
    (fun deviceConfig =>
       let inputValue := parseInt (toStr (snd deviceConfig)) in
       if isNaN inputValue then
         ret (Some (literal [ Spread (prefsObject prefs);
                              Field "status" (VStr "failure");
                              Field "title"
                                (VStr ("Invalid " +:+ fst deviceConfig +:+ " value"));
                              Field "message"
                                (VStr (DQ +:+ numberToString inputValue +:+ DQ
                                       +:+ " is not a valid number")) ]))
       else ret None) ;;
  let onDarwin := bool_decide (platform !! "os" = Some (VStr "darwin")) in
  let runnableName := if onDarwin then "m1ddc" else "ControlMyMonitor.exe" in
  let runnablePath := if onDarwin then m1ddcPath prefs else controlMyMonitorPath prefs in
  let errorMessage :=
    if onDarwin then
      "Path to " +:+ runnableName +:+ " is empty/unset. "
      +:+ "Install via: brew install m1ddc and set the path in extension preferences."
    else
      "Path to " +:+ runnableName +:+ " is empty/unset. "
      +:+ "Download from https://www.nirsoft.net/utils/controlmymonitor.zip and set the path in extension preferences." in
  if (String.eqb runnablePath EmptyString
      || String.eqb (trim runnablePath) EmptyString)%bool then
    ret (literal [ Spread (prefsObject prefs);
                   Field "status" (VStr "failure");
                   Field "title" (VStr (runnableName +:+ " path not configured"));
                   Field "message" (VStr errorMessage) ])
  else if negb (existsSync host runnablePath) then
    ret (literal [ Spread (prefsObject prefs);
                   Field "status" (VStr "failure");
                   Field "title" (VStr (runnableName +:+ " not found"));
                   Field "message" (VStr ("Path: " +:+ runnablePath)) ])
  else ret (literal [ Spread (prefsObject prefs); Spread GenericSuccess ]).

(** *** common.ts *)
Definition validatePrerequisites (prefs : Preferences) : Eff object :=
  let* platformValidation := validateHostPlatform in
  if negb (bool_decide (platformValidation !! "status" = Some (VStr "failure"))) then
    let* preferenceValidation := validatePreferences prefs platformValidation in
    ret (literal [ Spread platformValidation; Spread preferenceValidation ])
  else ret platformValidation.
(** *** ddc.ts (second generation) *)

Definition VCP_INPUT_SOURCE : number := Num 60.

Record SwitchResult := {
  success : bool;
  message : string;
  rawOutput : option string;
}.

Record InputDiscovery := {
  d_success : bool;
  currentValue : option number;
  availableInfo : option string;
  error : option string;
}.

Definition switchInputMacToWindows (inputValue : number) (exePath : string)
  : Eff SwitchResult :=
  tryCatch
    (let quotedPath := DQ +:+ exePath +:+ DQ in
     let command := quotedPath +:+ " set input " +:+ numberToString inputValue in
     let* output := execSync host command in
     ret {| success := true;
            message := "Switched to input " +:+ numberToString inputValue;
            rawOutput := Some (trim output) |})
    (fun errorMessage =>
       if includes errorMessage "No displays found" then
         ret {| success := false;
                message := "No DDC/CI compatible displays found. Is the monitor connected and awake?";
                rawOutput := None |}
       else if includes errorMessage "DDC communication failed" then
         ret {| success := false;
                message := "DDC/CI communication failed. Try a different cable or check monitor DDC settings.";
                rawOutput := None |}
       else
         ret {| success := false;
                message := "m1ddc error: " +:+ errorMessage;
                rawOutput := None |}).

Definition switchInputWindowsToMac (inputValue : number) (monitorId exePath : string)
  : Eff SwitchResult :=
  tryCatch
    (let quotedPath := DQ +:+ exePath +:+ DQ in
     let command :=
       quotedPath +:+ " /SetValue " +:+ DQ +:+ monitorId +:+ DQ +:+ " "
       +:+ numberToString VCP_INPUT_SOURCE +:+ " " +:+ numberToString inputValue in
     let* output := execSync host command in
     ret {| success := true;
            message := "Switched to input " +:+ numberToString inputValue;
            rawOutput := Some (trim output) |})
    (fun errorMessage =>
       ret {| success := false;
              message := "ControlMyMonitor error: " +:+ errorMessage;
              rawOutput := None |}).

(** [switchInput(platformOs, inputValue, monitorId, exePath)]; the result
    is a [ToastResult] object. *)
Definition switchInput (platformOs : option value) (inputValue : number)
    (monitorId exePath : string) : Eff object :=
  let* switchResult :=
    if bool_decide (platformOs = Some (VStr "darwin"))
    then switchInputMacToWindows inputValue exePath
    else switchInputWindowsToMac inputValue monitorId exePath in
  if negb (success switchResult) then
    ret (literal
           [ Field "status" (VStr "failure");
             Field "title"
               (VStr ("Failed to switch to input " +:+ numberToString inputValue
                      +:+ " via " +:+ exePath));
             Field "message"
               (VStr (message switchResult +:+ " :: "
                      +:+ default EmptyString (rawOutput switchResult))) ])
  else ret GenericSuccess.

Definition discoverInputsMacOS (exePath : string) : Eff InputDiscovery :=
  tryCatch
    (let quotedPath := DQ +:+ exePath +:+ DQ in
     let* currentInput := execSync host (quotedPath +:+ " get input") in
     let currentValue := parseInt (trim currentInput) in
     let* displayInfo :=
       tryCatch (execSync host (quotedPath +:+ " display list"))
                (fun _ => ret "(Could not retrieve display list)") in
     let info :=
       join LF
         [ "=== macOS DDC/CI Discovery (m1ddc) ===";
           EmptyString;
           "Current Input Value (VCP 0x60): " +:+ numberToString currentValue;
           EmptyString;
           "Common Input Values:";
           "  15 (0x0F) = DisplayPort";
           "  17 (0x11) = HDMI-1";
           "  18 (0x12) = HDMI-2";
           "  (Values vary by monitor model)";
           EmptyString;
           "Detected Displays:";
           displayInfo;
           EmptyString;
           "Tip: Switch to each input manually and run this command to discover the value:";
           "  m1ddc get input" ] in
     ret {| d_success := true;
            currentValue := if isNaN currentValue then None else Some currentValue;
            availableInfo := Some info;
            error := None |})
    (fun errorMessage =>
       ret {| d_success := false; currentValue := None; availableInfo := None;
              error := Some ("m1ddc error: " +:+ errorMessage) |}).

Definition discoverInputsWindows (exePath monitorId : string)
  : Eff InputDiscovery :=
  tryCatch
    (let quotedPath := DQ +:+ exePath +:+ DQ in
     let* monitorInfo := execSync host (quotedPath +:+ " /smonitors") in
     let* currentValue :=
       tryCatch
         (let* inputInfo :=
            execSync host (quotedPath +:+ " /GetValue " +:+ DQ +:+ monitorId
                           +:+ DQ +:+ " " +:+ numberToString VCP_INPUT_SOURCE) in
          let parsed := parseInt (trim inputInfo) in
          ret (if isNaN parsed then None else Some parsed))
         (fun _ => ret None) in
     let info :=
       join LF
         [ "=== Windows DDC/CI Discovery (ControlMyMonitor) ===";
           EmptyString;
           match currentValue with
           | None => "Current Input Value: (Could not read)"
           | Some v => "Current Input Value (VCP 0x60): " +:+ numberToString v
           end;
           EmptyString;
           "Common Input Values:";
           "  15 (0x0F) = DisplayPort";
           "  17 (0x11) = HDMI-1";
           "  18 (0x12) = HDMI-2";
           "  (Values vary by monitor model)";
           EmptyString;
           "Detected Monitors:";
           monitorInfo;
           EmptyString;
           "Tip: Use the ControlMyMonitor GUI to explore all VCP values." ] in
     ret {| d_success := true; currentValue := currentValue;
            availableInfo := Some info; error := None |})
    (fun errorMessage =>
       ret {| d_success := false; currentValue := None; availableInfo := None;
              error := Some ("ControlMyMonitor error: " +:+ errorMessage) |}).

Definition discoverInputs (platformOs : option value) (monitorId exePath : string)
  : Eff InputDiscovery :=
  if bool_decide (platformOs = Some (VStr "darwin"))
  then discoverInputsMacOS exePath
  else discoverInputsWindows exePath monitorId.

(** *** toggle-input-source.tsx *)

(** The command, from the test of [completeValidation.status] on: what
    it does with the validation object it has obtained. *)
Definition afterValidation (completeValidation : object) : Eff unit :=
  if bool_decide (completeValidation !! "status" = Some (VStr "failure")) then
    emit (ShowToast StyleFailure (toStr (completeValidation !! "title"))
            (toStr (completeValidation !! "message")))
  else
    let onDarwin := bool_decide (completeValidation !! "os" = Some (VStr "darwin")) in
    let resolvedExePath :=
      if onDarwin then completeValidation !! "m1ddcPath"
      else completeValidation !! "controlMyMonitorPath" in
    let resolvedInput :=
      if onDarwin then parseInt (toStr (completeValidation !! "displayPortValue"))
      else parseInt (toStr (completeValidation !! "hdmiPortValue")) in
    emit CloseMainWindow ;;
    emit (ShowToast StyleAnimated "Switching!"
            ("To input " +:+ numberToString resolvedInput +:+ " via "
             +:+ toStr resolvedExePath)) ;;
    emit (Sleep 3000) ;;
    let* result :=
      switchInput (completeValidation !! "os") resolvedInput
        (if truthy (completeValidation !! "monitorId")
         then toStr (completeValidation !! "monitorId") else "Primary")
        (toStr resolvedExePath) in
    if bool_decide (result !! "status" = Some (VStr "success")) then
      emit (UpdateToast StyleSuccess
              ("✓ Switched to input (" +:+ numberToString resolvedInput +:+ ")")
              EmptyString)
    else
      emit (UpdateToast StyleFailure (toStr (result !! "title"))
              (toStr (result !! "message"))).

Definition Command (prefs : Preferences) : Eff unit :=
  let* completeValidation := validatePrerequisites prefs in
  afterValidation completeValidation.
End WithHost.
End Revised.


(** ** The DisplayPort twin of switch-to-hdmi.tsx (first generation) *)
Module SwitchToDisplayPort.
Section WithHost.
Variable host : Host.

Definition Command (prefs : Legacy.Preferences) : Eff unit :=
  let inputValue := parseInt (Legacy.displayportValue prefs) in
  if isNaN inputValue then
    emit (ShowToast StyleFailure "Invalid DisplayPort value"
            (DQ +:+ Legacy.displayportValue prefs +:+ DQ +:+ " is not a valid number"))
  else
    emit CloseMainWindow ;;
    let* result :=
      Legacy.switchInput host inputValue
        (Legacy.orUndefined (Legacy.controlMyMonitorPath prefs))
        (Legacy.orElse (Legacy.monitorId prefs) "Primary") in
    if Legacy.success result then
      emit (ShowHUD ("✓ Switched to DisplayPort (" +:+ numberToString inputValue +:+ ")"))
    else
      emit (ShowToast StyleFailure "Switch Failed" (Legacy.message result)).
End WithHost.
End SwitchToDisplayPort.

(** ** The discovery command of the second generation *)
Module DiscoverInputs.

(** What the command returns and logs: the [Detail] element with its
    markdown and, when given, its navigation title; [logged] is the text
    passed to [console.log], when the command logs. *)
Record Detail := {
  markdown : string;
  navigationTitle : option string;
  logged : option string;
}.

(** [array.filter(Boolean)] on strings: the empty strings are dropped. *)
Definition filterBoolean (array : list string) : list string :=
  filter (fun s => negb (String.eqb s EmptyString)) array.

(** [x || fallback] on a property read, rendered as text. *)
Definition orText (x : option value) (fallback : string) : string :=
  if truthy x then toStr x else fallback.

Section WithHost.
Variable host : Host.

Definition Command (prefs : Revised.Preferences) : Eff Detail :=
  let* platformValidation := Revised.validatePrerequisites host prefs in
  if bool_decide (platformValidation !! "os" = Some (VStr "unsupported")) then
    let markdown := "### Nothing could be retrieved!" in
    ret {| markdown := markdown;
           navigationTitle := Some "# DDC/CI Input Discovery";
           logged := Some markdown |}
  else
    let onDarwin := bool_decide (platformValidation !! "os" = Some (VStr "darwin")) in
    let onWin32 := bool_decide (platformValidation !! "os" = Some (VStr "win32")) in
    let platformInfo :=
      join LF
        [ EmptyString;
          "## Platform Information";
          EmptyString;
          "- **OS**: " +:+ toStr (platformValidation !! "os");
          if onDarwin
          then "- **Apple Silicon**: "
               +:+ (if truthy (platformValidation !! "isAppleSilicon") then "Yes" else "No")
          else EmptyString;
          if onDarwin
          then "- **Chip Generation**: " +:+ toStr (platformValidation !! "appleChipGen")
          else EmptyString;
          if onDarwin
          then "- **Built-in HDMI Supported**: "
               +:+ (if truthy (platformValidation !! "m1ddcSupportsBuiltinHdmi")
                    then "Yes (M2+)" else "No (M1 or Intel)")
          else EmptyString;
          EmptyString ] in
    if negb (bool_decide (is_Some (platformValidation !! "displayPortValue"))) then
      let markdown := LF +:+ "      " +:+ platformInfo +:+ LF +:+ "      " in
      ret {| markdown := markdown;
             navigationTitle := Some "# DDC/CI Input Discovery";
             logged := Some markdown |}
    else
      let completeValidation := platformValidation in
      let settingsInfo :=
        join LF
          (filterBoolean
             [ "## Current Configuration";
               EmptyString;
               "- **DisplayPort Value**: " +:+ toStr (completeValidation !! "displayPortValue");
               "- **HDMI Value**: " +:+ toStr (completeValidation !! "hdmiPortValue");
               if onWin32
               then "- **ControlMyMonitor Path**: "
                    +:+ orText (completeValidation !! "controlMyMonitorPath") "(not set)"
               else EmptyString;
               if onWin32
               then "- **Monitor ID**: "
                    +:+ orText (completeValidation !! "monitorId") "Primary"
               else EmptyString;
               EmptyString ]) in
      let exePath :=
        if truthy (completeValidation !! "isAppleSilicon")
        then completeValidation !! "m1ddcPath"
        else completeValidation !! "controlMyMonitorPath" in
      let* discovery :=
        Revised.discoverInputs host (completeValidation !! "os")
          (orText (completeValidation !! "monitorId") "Primary") (toStr exePath) in
      let discoverySection :=
        if Revised.d_success discovery then
          join LF
            [ "## Discovery Results";
              EmptyString;
              "```";
              match Revised.availableInfo discovery with
              | Some info => if String.eqb info EmptyString
                             then "(No additional information)" else info
              | None => "(No additional information)"
              end;
              "```" ]
        else
          join LF
            [ "## Discovery Failed";
              EmptyString;
              "**Error**: " +:+ default "undefined" (Revised.error discovery);
              EmptyString;
              "### Troubleshooting";
              EmptyString;
              if onDarwin then
                join LF
                  [ "1. Ensure m1ddc is installed: `brew install m1ddc`";
                    "2. Check the monitor is connected and awake";
                    "3. Try running manually: `m1ddc display list`";
                    "4. Some monitors need DDC/CI enabled in OSD settings" ]
              else
                join LF
                  [ "1. Download ControlMyMonitor from https://www.nirsoft.net/utils/controlmymonitor.zip";
                    "2. Extract and set the path in extension preferences";
                    "3. Check the monitor is connected and awake";
                    "4. Try running the GUI version to verify DDC/CI works" ] ] in
      let manualInstructions :=
        join LF
          [ "## Manual Discovery";
            EmptyString;
            "To find the correct input values for your monitor:";
            EmptyString;
            "1. **Switch to each input manually** using your monitor's OSD";
            "2. **Read the current value** from the active machine:";
            EmptyString;
            if onDarwin
            then "   ```bash" +:+ LF +:+ "   m1ddc get input" +:+ LF +:+ "   ```"
            else "   ```powershell" +:+ LF
                 +:+ "   .\ControlMyMonitor.exe /GetValue Primary 60" +:+ LF +:+ "   ```";
            EmptyString;
            "3. **Record the value** for each input (DP, HDMI1, HDMI2, etc.)";
            "4. **Update extension preferences** with your discovered values" ] in
      let markdown :=
        join LF
          [ EmptyString;
            "# DDC/CI Input Discovery";
            platformInfo;
            settingsInfo;
            discoverySection;
            EmptyString;
            EmptyString;
            manualInstructions ] in
      ret {| markdown := markdown; navigationTitle := None; logged := None |}.
End WithHost.
End DiscoverInputs.

(** ** The discovery command of the first generation *)
Module LegacyDiscoverInputs.
Section WithHost.
Variable host : Host.

(** The command; [prefs] is what [getPreferenceValues()] returns, the
    result is the markdown of the [Detail] element. *)
Definition Command (prefs : Legacy.Preferences) : Eff string :=
  let* platform := Legacy.detectPlatform host in
  let onDarwin := bool_decide (Legacy.os platform = darwin) in
  let onWin32 := bool_decide (Legacy.os platform = win32) in
  let platformInfo :=
    join LF
      (DiscoverInputs.filterBoolean
         [ "## Platform Information";
           EmptyString;
           "- **OS**: " +:+ Revised.osText (Legacy.os platform);
           if onDarwin
           then "- **Apple Silicon**: "
                +:+ (if Legacy.isAppleSilicon platform then "Yes" else "No")
           else EmptyString;
           if onDarwin
           then "- **Chip Generation**: " +:+ Revised.genText (Legacy.appleChipGen platform)
           else EmptyString;
           if onDarwin
           then "- **Built-in HDMI Supported**: "
                +:+ (if Legacy.m1ddcSupportsBuiltinHdmi platform
                     then "Yes (M2+)" else "No (M1 or Intel)")
           else EmptyString;
           EmptyString ]) in
  let configInfo :=
    join LF
      (DiscoverInputs.filterBoolean
         [ "## Current Configuration";
           EmptyString;
           "- **DisplayPort Value**: " +:+ Legacy.displayportValue prefs;
           "- **HDMI Value**: " +:+ Legacy.hdmiValue prefs;
           if onWin32
           then "- **ControlMyMonitor Path**: "
                +:+ Legacy.orElse (Legacy.controlMyMonitorPath prefs) "(not set)"
           else EmptyString;
           if onWin32
           then "- **Monitor ID**: " +:+ Legacy.orElse (Legacy.monitorId prefs) "Primary"
           else EmptyString;
           EmptyString ]) in
  let* discovery :=
    Legacy.discoverInputs host
      (Legacy.orUndefined (Legacy.controlMyMonitorPath prefs))
      (Legacy.orElse (Legacy.monitorId prefs) "Primary") in
  let discoverySection :=
    if Legacy.d_success discovery then
      join LF
        (DiscoverInputs.filterBoolean
           [ "## Discovery Results";
             EmptyString;
             match Legacy.currentValue discovery with
             | Some v => "**Current Input Value**: `" +:+ numberToString v +:+ "`"
             | None => EmptyString
             end;
             EmptyString;
             "```";
             match Legacy.availableInfo discovery with
             | Some info => if String.eqb info EmptyString
                            then "(No additional information)" else info
             | None => "(No additional information)"
             end;
             "```" ])
    else
      join LF
        [ "## Discovery Failed";
          EmptyString;
          "**Error**: " +:+ default "undefined" (Legacy.error discovery);
          EmptyString;
          "### Troubleshooting";
          EmptyString;
          if onDarwin then
            join LF
              [ "1. Ensure m1ddc is installed: `brew install m1ddc`";
                "2. Check the monitor is connected and awake";
                "3. Try running manually: `m1ddc display list`";
                "4. Some monitors need DDC/CI enabled in OSD settings" ]
          else
            join LF
              [ "1. Download ControlMyMonitor from https://www.nirsoft.net/utils/controlmymonitor.zip";
                "2. Extract and set the path in extension preferences";
                "3. Check the monitor is connected and awake";
                "4. Try running the GUI version to verify DDC/CI works" ] ] in
  let manualInstructions :=
    join LF
      [ "## Manual Discovery";
        EmptyString;
        "To find the correct input values for your monitor:";
        EmptyString;
        "1. **Switch to each input manually** using your monitor's OSD";
        "2. **Read the current value** from the active machine:";
        EmptyString;
        if onDarwin
        then "   ```bash" +:+ LF +:+ "   m1ddc get input" +:+ LF +:+ "   ```"
        else "   ```powershell" +:+ LF
             +:+ "   .\ControlMyMonitor.exe /GetValue Primary 60" +:+ LF +:+ "   ```";
        EmptyString;
        "3. **Record the value** for each input (DP, HDMI1, HDMI2, etc.)";
        "4. **Update extension preferences** with your discovered values" ] in
  ret (join LF
         [ "# DDC/CI Input Discovery";
           EmptyString;
           platformInfo;
           configInfo;
           discoverySection;
           EmptyString;
           "---";
           EmptyString;
           manualInstructions ]).
End WithHost.
End LegacyDiscoverInputs.

(** ** Concrete hosts, used to run the program on explicit inputs *)

(** A host whose child processes follow a script: the outcome of a command
    is that of the first entry whose key occurs in the command line, and
    [fallback] when there is none.  Every path exists on the file system
    except the ones listed in [missing]. *)
Definition scriptedHost (osName : string) (script : list (string * ProcOutcome))
    (fallback : ProcOutcome) (missing : list string) : Host :=
  {| platform := osName;
     run := fun _ command =>
              match find (fun entry => includes command (fst entry)) script with
              | Some entry => snd entry
              | None => fallback
              end;
     existsSync := fun path => negb (existsb (String.eqb path) missing) |}.

(** The command line that the Windows dispatch hands to [execSync]. *)
Definition windowsSetValue (exePath monitorId : string) (inputValue : number) : string :=
  (DQ +:+ exePath +:+ DQ) +:+ " /SetValue " +:+ DQ +:+ monitorId +:+ DQ +:+ " 60 "
  +:+ numberToString inputValue.

(** ** Vocabulary of the statements *)

(** The child process started for [command] after the trace [tr] ran to
    completion and exited with status 0. *)
Definition exitedZero (host : Host) (tr : list event) (command : string) : Prop :=
  exists stdout msg, run host tr command = Exited 0 stdout msg.

(** [execSync] throws for [command] after [tr], with an error of message
    [msg]: the child exited with a status other than 0, or did not complete. *)
Definition execFails (host : Host) (tr : list event) (command msg : string) : Prop :=
  (exists status stdout, status <> 0 /\ run host tr command = Exited status stdout msg)
  \/ run host tr command = NotCompleted msg.

(** Every character of [s] is a decimal digit. *)
Fixpoint allDigits (s : string) : bool :=
  match s with
  | EmptyString => true
  | String c s' => (isDigit c && allDigits s')%bool
  end.

(** The sysctl command lines of the two generations of platform.ts. *)
Definition sysctlV1 : string := "sysctl -n machdep.cpu.brand_string".
Definition sysctlV2 : string :=
  (DQ +:+ "/usr/sbin/sysctl" +:+ DQ) +:+ " -n machdep.cpu.brand_string".

(** The generation that an outcome of the sysctl call leads to. *)
Definition chipGenOf (outcome : ProcOutcome) : AppleSiliconGen :=
  match outcome with
  | Exited status stdout _ =>
      if status =? 0 then classifyBrandString (trim stdout) else unknown
  | NotCompleted _ => unknown
  end.

(** A Mac whose sysctl call prints [brand] and whose other commands exit
    with status 0 and no output; every path exists. *)
Definition macHost (brand : string) : Host :=
  scriptedHost "darwin"
    [ ("sysctl", Exited 0 (brand +:+ LF) EmptyString) ]
    (Exited 0 EmptyString EmptyString) [].

(** A Mac whose sysctl call times out. *)
Definition macHostNoSysctl : Host :=
  scriptedHost "darwin"
    [ ("sysctl", NotCompleted "spawnSync /bin/sh ETIMEDOUT") ]
    (Exited 0 EmptyString EmptyString) [].

(** Preferences with the given input codes and the usual Homebrew path. *)
Definition macPrefs (displayPort hdmi : string) : Revised.Preferences :=
  {| Revised.displayPortValue := displayPort;
     Revised.hdmiValue := hdmi;
     Revised.controlMyMonitorPath := EmptyString;
     Revised.m1ddcPath := "/opt/homebrew/bin/m1ddc";
     Revised.monitorId := EmptyString |}.

(** [AppleMAt s ds]: the regular expression [/Apple M(\d+)/i] matches at
    the start of [s] and its group captures [ds]: [s] starts with the
    letters of [Apple M] in any case, then come the digits [ds], as many as
    there are. *)
Definition AppleMAt (s ds : string) : Prop :=
  exists w rest,
    s = w +:+ ds +:+ rest /\ toLowerCase w = "apple m"
    /\ ds <> EmptyString /\ allDigits ds = true /\ takeDigits rest = EmptyString.

(** [LeftmostAppleM s ds]: the leftmost match of the regular expression in
    [s] captures [ds]. *)
Definition LeftmostAppleM (s ds : string) : Prop :=
  exists pre tail,
    s = pre +:+ tail /\ AppleMAt tail ds
    /\ forall p1 p2, pre = p1 +:+ p2 -> p2 <> EmptyString ->
        forall d, ~ AppleMAt (p2 +:+ tail) d.

(** The current value that discovery reads off the outcome of a query: the
    integer its output parses to, when the query exited with status 0 and
    the output parses. *)
Definition parsedValue (outcome : ProcOutcome) : option number :=
  match outcome with
  | Exited status stdout _ =>
      if status =? 0
      then (if isNaN (parseInt (trim stdout)) then None else Some (parseInt (trim stdout)))
      else None
  | NotCompleted _ => None
  end.

(** The text that discovery shows for the display list, given the outcome of
    the [display list] query. *)
Definition displayListText (outcome : ProcOutcome) : string :=
  match outcome with
  | Exited status stdout _ =>
      if status =? 0 then stdout else "(Could not retrieve display list)"
  | NotCompleted _ => "(Could not retrieve display list)"
  end.

(** The shape of a discovery report and of the trace it leaves, for a
    discovery that starts after [tr] and whose two queries are [primary]
    and [secondary]. *)
Definition reportShape (host : Host) (tr tr' : list event) (primary secondary : string)
    (success : bool) (value : option number) (info error : option string) : Prop :=
  (success = true <-> exitedZero host tr primary)
  /\ (success = true ->
      error = None /\ is_Some info
      /\ tr' = ((tr ++ [Spawn primary]) ++ [Spawn secondary])%list)
  /\ (success = false ->
      value = None /\ info = None /\ is_Some error
      /\ tr' = (tr ++ [Spawn primary])%list)
  /\ value <> Some NaN.

(** The message of the [SwitchResult] of a failed dispatch of the second
    generation, from the error text [e] of the child process. *)
Definition dispatchFailureText (onDarwin : bool) (e : string) : string :=
  if onDarwin then
    if includes e "No displays found"
    then "No DDC/CI compatible displays found. Is the monitor connected and awake?"
    else if includes e "DDC communication failed"
    then "DDC/CI communication failed. Try a different cable or check monitor DDC settings."
    else "m1ddc error: " +:+ e
  else "ControlMyMonitor error: " +:+ e.

(** The last notification of a switch command of the first generation for
    the input named [label] and the preference text [x]: the invalid-value
    toast when there is no dispatch, the HUD or the [Switch Failed] toast
    after one. *)
Definition switchNotice (label x : string) (outcome : option Legacy.SwitchResult)
  : event :=
  match outcome with
  | None =>
      ShowToast StyleFailure ("Invalid " +:+ label +:+ " value")
        (DQ +:+ x +:+ DQ +:+ " is not a valid number")
  | Some r =>
      if Legacy.success r
      then ShowHUD ("✓ Switched to " +:+ label +:+ " ("
                    +:+ numberToString (parseInt x) +:+ ")")
      else ShowToast StyleFailure "Switch Failed" (Legacy.message r)
  end.

(** * Properties *)

(** ** Strings *)

Lemma startsWith_nil (s : string) : startsWith s EmptyString = true.
Proof. destruct s; reflexivity. Qed.

Lemma startsWith_app_l (s p t : string) :
  startsWith s p = true -> startsWith (s +:+ t) p = true.
Proof.
  revert s; induction p as [|a p IH]; intros s H.
  - apply startsWith_nil.
  - destruct s as [|b s]; simpl in *; [discriminate|].
    destruct (Ascii.eqb a b); [apply IH; exact H | discriminate].
Qed.

Lemma startsWith_self_app (p t : string) : startsWith (p +:+ t) p = true.
Proof.
  induction p as [|a p IH]; simpl.
  - apply startsWith_nil.
  - rewrite Ascii.eqb_refl. exact IH.
Qed.

Lemma includes_startsWith (s n : string) :
  startsWith s n = true -> includes s n = true.
Proof. intros H. destruct s; simpl in *; rewrite H; reflexivity. Qed.

Lemma includes_app_r (a b n : string) :
  includes b n = true -> includes (a +:+ b) n = true.
Proof.
  intros H. induction a as [|c a IH]; simpl; [exact H|].
  rewrite IH. apply orb_true_r.
Qed.

Lemma includes_app_l (a b n : string) :
  includes a n = true -> includes (a +:+ b) n = true.
Proof.
  induction a as [|c a IH]; intros H.
  - simpl in H. rewrite orb_false_r in H.
    destruct n; [|discriminate]. apply includes_startsWith, startsWith_nil.
  - change (includes (String c a +:+ b) n)
      with (startsWith (String c a +:+ b) n || includes (a +:+ b) n)%bool.
    change (includes (String c a) n)
      with (startsWith (String c a) n || includes a n)%bool in H.
    apply orb_true_iff in H. apply orb_true_iff. destruct H as [H|H].
    + left. apply startsWith_app_l. exact H.
    + right. apply IH. exact H.
Qed.

Lemma includes_self_app (n t : string) : includes (n +:+ t) n = true.
Proof. apply includes_startsWith, startsWith_self_app. Qed.

Lemma includes_refl (n : string) : includes n n = true.
Proof.
  apply includes_startsWith. induction n as [|a n IH]; simpl; [reflexivity|].
  rewrite Ascii.eqb_refl. exact IH.
Qed.

(** [a +:+ n] ends with [n], so it contains it. *)
Lemma includes_app_self (a n : string) : includes (a +:+ n) n = true.
Proof. apply includes_app_r, includes_refl. Qed.

(** ** The effect monad *)

Lemma spawned_app (tr1 tr2 : list event) :
  spawned (tr1 ++ tr2)%list = (spawned tr1 ++ spawned tr2)%list.
Proof. unfold spawned. apply omap_app. Qed.

(** [execSync] appends exactly one [Spawn] event, whatever the outcome. *)
Lemma execSync_trace (host : Host) (command : string) (tr : list event) :
  snd (execSync host command tr) = (tr ++ [Spawn command])%list.
Proof.
  unfold execSync. destruct (run host tr command) as [status out msg|msg];
    [destruct (status =? 0)|]; reflexivity.
Qed.

(** [execSync] returns exactly when the child exited with status 0. *)
Lemma execSync_returned (host : Host) (command : string) (tr : list event) (out : string) :
  fst (execSync host command tr) = Returned out
  <-> exists msg, run host tr command = Exited 0 out msg.
Proof.
  unfold execSync. split.
  - destruct (run host tr command) as [status o msg|msg]; simpl.
    + destruct (Z.eqb_spec status 0) as [->|]; simpl; [|discriminate].
      intros [= ->]. exists msg. reflexivity.
    + discriminate.
  - intros [msg ->]. reflexivity.
Qed.

(** ** Command lines of the dispatch *)

(** Running a [try]/[catch] around one [execSync]: a tactic that unfolds the
    monad and splits on the outcome of the child process. *)
Ltac run_exec host tr :=
  unfold tryCatch, bind, ret, execSync, exitedZero in *;
  match goal with
  | |- context [run host tr ?c] =>
      let st := fresh "status" in
      let out := fresh "stdout" in
      let msg := fresh "msg" in
      destruct (run host tr c) as [st out msg|msg];
      [destruct (Z.eqb_spec st 0); [subst st|]|]
  end.

Lemma Legacy_switchInputWindows_trace host v exePath m tr :
  snd (Legacy.switchInputWindows host v exePath m tr)
  = (tr ++ [Spawn (windowsSetValue exePath m v)])%list.
Proof.
  unfold Legacy.switchInputWindows.
  run_exec host tr; reflexivity.
Qed.

Lemma Revised_switchInputWindowsToMac_trace host v exePath m tr :
  snd (Revised.switchInputWindowsToMac host v m exePath tr)
  = (tr ++ [Spawn (windowsSetValue exePath m v)])%list.
Proof.
  unfold Revised.switchInputWindowsToMac.
  run_exec host tr; reflexivity.
Qed.

Lemma Legacy_switchInputMacOS_trace host v tr :
  snd (Legacy.switchInputMacOS host v tr)
  = (tr ++ [Spawn ("m1ddc set input " +:+ numberToString v)])%list.
Proof.
  unfold Legacy.switchInputMacOS.
  run_exec host tr; try reflexivity;
    repeat match goal with |- context [if ?b then _ else _] => destruct b end;
    reflexivity.
Qed.

Lemma Revised_switchInputMacToWindows_trace host v exePath tr :
  snd (Revised.switchInputMacToWindows host v exePath tr)
  = (tr ++ [Spawn ((DQ +:+ exePath +:+ DQ) +:+ " set input " +:+ numberToString v)])%list.
Proof.
  unfold Revised.switchInputMacToWindows.
  run_exec host tr; try reflexivity;
    repeat match goal with |- context [if ?b then _ else _] => destruct b end;
    reflexivity.
Qed.

(** C1 (as amended).  For every Windows dispatch with monitor identifier [m]
    and input value [v], in both generations of ddc.ts, exactly one command
    line is handed to [execSync] and it contains [/SetValue "m" 60 v]: the
    VCP code is written as the text [60], the digits of hexadecimal 0x60.
    For every macOS dispatch the one command line contains [set input v]; in
    particular [set input 15] when [v] is 15. *)
Theorem dispatch_command_lines (host : Host) (v : number) (m exePath : string)
    (tr : list event) :
  let args := "/SetValue " +:+ DQ +:+ m +:+ DQ +:+ " 60 " +:+ numberToString v in
  (snd (Legacy.switchInputWindows host v exePath m tr)
     = (tr ++ [Spawn (windowsSetValue exePath m v)])%list
   /\ snd (Revised.switchInputWindowsToMac host v m exePath tr)
     = (tr ++ [Spawn (windowsSetValue exePath m v)])%list
   /\ includes (windowsSetValue exePath m v) args = true)
  /\ (snd (Legacy.switchInputMacOS host v tr)
        = (tr ++ [Spawn ("m1ddc set input " +:+ numberToString v)])%list
      /\ snd (Revised.switchInputMacToWindows host v exePath tr)
        = (tr ++ [Spawn ((DQ +:+ exePath +:+ DQ) +:+ " set input " +:+ numberToString v)])%list
      /\ includes ("m1ddc set input " +:+ numberToString v)
           ("set input " +:+ numberToString v) = true
      /\ includes ((DQ +:+ exePath +:+ DQ) +:+ " set input " +:+ numberToString v)
           ("set input " +:+ numberToString v) = true)
  /\ (includes ("m1ddc set input " +:+ numberToString (Num 15)) "set input 15" = true
      /\ includes ((DQ +:+ exePath +:+ DQ) +:+ " set input " +:+ numberToString (Num 15))
           "set input 15" = true
      /\ includes (windowsSetValue exePath "Primary" (Num 17))
           ("/SetValue " +:+ DQ +:+ "Primary" +:+ DQ +:+ " 60 17") = true).
Proof.
  intros args. split; [|split].
  - split; [apply Legacy_switchInputWindows_trace|].
    split; [apply Revised_switchInputWindowsToMac_trace|].
    unfold windowsSetValue, args. apply includes_app_r.
    apply (includes_app_r " "). apply includes_refl.
  - split; [apply Legacy_switchInputMacOS_trace|].
    split; [apply Revised_switchInputMacToWindows_trace|].
    split.
    + apply (includes_app_r "m1ddc "). apply includes_refl.
    + apply includes_app_r. apply (includes_app_r " "). apply includes_refl.
  - split; [vm_compute; reflexivity|].
    split; apply includes_app_r; vm_compute; reflexivity.
Qed.

(** C1, counterexample to the claim as stated: the Windows dispatch with
    input value 17 and monitor identifier [Primary] hands over one command
    line, and [/SetValue "Primary" 96 17] does not occur in it. *)
Lemma windows_dispatch_not_96 :
  let host := scriptedHost "win32" [] (Exited 0 EmptyString EmptyString) [] in
  let exe := "C:/Tools/ControlMyMonitor.exe" in
  spawned (snd (Legacy.switchInputWindows host (Num 17) exe "Primary" []))
    = [ (DQ +:+ exe +:+ DQ) +:+ " /SetValue " +:+ DQ +:+ "Primary" +:+ DQ +:+ " 60 17" ]
  /\ spawned (snd (Revised.switchInputWindowsToMac host (Num 17) "Primary" exe []))
    = [ (DQ +:+ exe +:+ DQ) +:+ " /SetValue " +:+ DQ +:+ "Primary" +:+ DQ +:+ " 60 17" ]
  /\ includes ((DQ +:+ exe +:+ DQ) +:+ " /SetValue " +:+ DQ +:+ "Primary" +:+ DQ +:+ " 60 17")
       ("/SetValue " +:+ DQ +:+ "Primary" +:+ DQ +:+ " 96 17") = false.
Proof. vm_compute. repeat split. Qed.

(** ** Success of a dispatch *)

Lemma exitedZero_or_fails host tr command :
  exitedZero host tr command \/ exists msg, execFails host tr command msg.
Proof.
  unfold exitedZero, execFails.
  destruct (run host tr command) as [status out msg|msg].
  - destruct (Z.eq_dec status 0) as [->|Hne]; [left; eauto|].
    right. exists msg. left. eauto.
  - right. exists msg. right. reflexivity.
Qed.

Lemma exitedZero_not_fails host tr command msg :
  exitedZero host tr command -> execFails host tr command msg -> False.
Proof.
  intros (out & m & H) [(status & out' & Hne & H')|H']; rewrite H in H'.
  - injection H' as <- _ _. apply Hne. reflexivity.
  - discriminate.
Qed.

(** Closes a goal [exists r, f ... = (Returned r, _) /\ (success r = true <-> exitedZero ...)]
    once the outcome of the child process has been split. *)
Ltac success_iff :=
  unfold exitedZero;
  repeat match goal with |- context [if ?b then _ else _] => destruct b end;
  eexists; (split; [reflexivity|]); simpl;
  (split;
   [ let H := fresh in intros H; first [discriminate H | eauto]
   | let H := fresh in intros (? & ? & H); first [reflexivity | congruence] ]).

Lemma Legacy_mac_success host v tr :
  let c := "m1ddc set input " +:+ numberToString v in
  exists r, Legacy.switchInputMacOS host v tr = (Returned r, (tr ++ [Spawn c])%list)
            /\ (Legacy.success r = true <-> exitedZero host tr c).
Proof.
  intros c. unfold Legacy.switchInputMacOS. fold c. run_exec host tr; success_iff.
Qed.

Lemma Legacy_win_success host v m exePath tr :
  let c := windowsSetValue exePath m v in
  exists r, Legacy.switchInputWindows host v exePath m tr
            = (Returned r, (tr ++ [Spawn c])%list)
            /\ (Legacy.success r = true <-> exitedZero host tr c).
Proof.
  intros c. unfold Legacy.switchInputWindows.
  change (_ +:+ " /SetValue " +:+ _) with c. run_exec host tr; success_iff.
Qed.

Lemma Revised_mac_success host v exePath tr :
  let c := (DQ +:+ exePath +:+ DQ) +:+ " set input " +:+ numberToString v in
  exists r, Revised.switchInputMacToWindows host v exePath tr
            = (Returned r, (tr ++ [Spawn c])%list)
            /\ (Revised.success r = true <-> exitedZero host tr c).
Proof.
  intros c. unfold Revised.switchInputMacToWindows. fold c.
  run_exec host tr; success_iff.
Qed.

Lemma Revised_win_success host v m exePath tr :
  let c := windowsSetValue exePath m v in
  exists r, Revised.switchInputWindowsToMac host v m exePath tr
            = (Returned r, (tr ++ [Spawn c])%list)
            /\ (Revised.success r = true <-> exitedZero host tr c).
Proof.
  intros c. unfold Revised.switchInputWindowsToMac.
  change (_ +:+ " /SetValue " +:+ _) with c. run_exec host tr; success_iff.
Qed.

(** The [ToastResult] of the second generation's [switchInput]: its status
    is [success] or [failure], according to the [SwitchResult]. *)
Lemma Revised_switchInput_status host platformOs v m exePath tr :
  let c := if bool_decide (platformOs = Some (VStr "darwin"))
           then (DQ +:+ exePath +:+ DQ) +:+ " set input " +:+ numberToString v
           else windowsSetValue exePath m v in
  exists o, Revised.switchInput host platformOs v m exePath tr
            = (Returned o, (tr ++ [Spawn c])%list)
            /\ (o !! "status" = Some (VStr "success") <-> exitedZero host tr c)
            /\ (o !! "status" = Some (VStr "failure") <-> ~ exitedZero host tr c).
Proof.
  intros c. unfold Revised.switchInput, bind.
  assert (exists r, (if bool_decide (platformOs = Some (VStr "darwin"))
                     then Revised.switchInputMacToWindows host v exePath
                     else Revised.switchInputWindowsToMac host v m exePath) tr
                    = (Returned r, (tr ++ [Spawn c])%list)
                    /\ (Revised.success r = true <-> exitedZero host tr c))
    as (r & -> & Hr).
  { subst c. destruct (bool_decide (platformOs = Some (VStr "darwin"))).
    - apply Revised_mac_success.
    - apply Revised_win_success. }
  destruct (Revised.success r) eqn:Hs; simpl; eexists; (split; [reflexivity|]).
  - split; split; intros H.
    + apply Hr. reflexivity.
    + vm_compute. reflexivity.
    + vm_compute in H. discriminate H.
    + exfalso. apply H, Hr. reflexivity.
  - assert (Hno : ~ exitedZero host tr c) by (intros H; apply Hr in H; discriminate H).
    split; split; intros H.
    + vm_compute in H. discriminate H.
    + contradiction.
    + exact Hno.
    + vm_compute. reflexivity.
Qed.

(** C4.  In both generations of ddc.ts every dispatch returns a result (it
    never throws), after handing exactly one command line to [execSync]; the
    result is a success exactly when the child process exited with status 0.
    Hence a non-zero exit status, a failure to start and a timeout all give
    a failure result.  The same holds for the [ToastResult] that the second
    generation's [switchInput] derives from it. *)
Theorem dispatch_success_iff_exit_zero (host : Host) (v : number)
    (m exePath : string) (tr : list event) :
  let macV1 := "m1ddc set input " +:+ numberToString v in
  let macV2 := (DQ +:+ exePath +:+ DQ) +:+ " set input " +:+ numberToString v in
  let win := windowsSetValue exePath m v in
  (exists r, Legacy.switchInputMacOS host v tr = (Returned r, (tr ++ [Spawn macV1])%list)
             /\ (Legacy.success r = true <-> exitedZero host tr macV1))
  /\ (exists r, Legacy.switchInputWindows host v exePath m tr
                = (Returned r, (tr ++ [Spawn win])%list)
                /\ (Legacy.success r = true <-> exitedZero host tr win))
  /\ (exists r, Revised.switchInputMacToWindows host v exePath tr
                = (Returned r, (tr ++ [Spawn macV2])%list)
                /\ (Revised.success r = true <-> exitedZero host tr macV2))
  /\ (exists r, Revised.switchInputWindowsToMac host v m exePath tr
                = (Returned r, (tr ++ [Spawn win])%list)
                /\ (Revised.success r = true <-> exitedZero host tr win))
  /\ (forall platformOs,
        let c := if bool_decide (platformOs = Some (VStr "darwin")) then macV2 else win in
        exists o, Revised.switchInput host platformOs v m exePath tr
                  = (Returned o, (tr ++ [Spawn c])%list)
                  /\ (o !! "status" = Some (VStr "success") <-> exitedZero host tr c)
                  /\ (o !! "status" = Some (VStr "failure") <-> ~ exitedZero host tr c)).
Proof.
  intros macV1 macV2 win. split; [|split; [|split; [|split]]].
  - apply Legacy_mac_success.
  - apply Legacy_win_success.
  - apply Revised_mac_success.
  - apply Revised_win_success.
  - intros platformOs. apply Revised_switchInput_status.
Qed.

(** ** Messages of a failed dispatch *)

Lemma execSync_fails host tr command msg :
  execFails host tr command msg ->
  execSync host command tr = (Thrown msg, (tr ++ [Spawn command])%list).
Proof.
  unfold execSync. intros [(status & out & Hne & ->)| ->]; [|reflexivity].
  destruct (Z.eqb_spec status 0); [contradiction|reflexivity].
Qed.

Lemma execSync_exitedZero host tr command out msg :
  run host tr command = Exited 0 out msg ->
  execSync host command tr = (Returned out, (tr ++ [Spawn command])%list).
Proof. unfold execSync. intros ->. reflexivity. Qed.

(** Proves [execFails] on a concrete host by running the host. *)
Ltac exec_fails :=
  first
    [ right; reflexivity
    | left; do 2 eexists; (split; [|reflexivity]); discriminate ].

(** C5 (as amended).  When the child process of a macOS dispatch fails with
    error text [msg], the result is a failure whose message is: the
    connectivity hint if [msg] contains [No displays found]; otherwise the
    cable/DDC-setting hint if [msg] contains [DDC communication failed];
    otherwise [msg] itself after the prefix [m1ddc error: ].  When the child
    process of a Windows dispatch fails, the message is always [msg] itself
    after the prefix [ControlMyMonitor error: ]: no text is matched there. *)
Theorem dispatch_error_messages (host : Host) (v : number) (m exePath : string)
    (tr : list event) (msg : string) :
  let macV1 := "m1ddc set input " +:+ numberToString v in
  let macV2 := (DQ +:+ exePath +:+ DQ) +:+ " set input " +:+ numberToString v in
  let win := windowsSetValue exePath m v in
  let connectivity :=
    "No DDC/CI compatible displays found. Is the monitor connected and awake?" in
  let cable :=
    "DDC/CI communication failed. Try a different cable or check monitor DDC settings." in
  (execFails host tr macV1 msg ->
   exists r, fst (Legacy.switchInputMacOS host v tr) = Returned r
     /\ Legacy.success r = false
     /\ (includes msg "No displays found" = true -> Legacy.message r = connectivity)
     /\ (includes msg "No displays found" = false ->
         includes msg "DDC communication failed" = true -> Legacy.message r = cable)
     /\ (includes msg "No displays found" = false ->
         includes msg "DDC communication failed" = false ->
         Legacy.message r = "m1ddc error: " +:+ msg))
  /\ (execFails host tr macV2 msg ->
      exists r, fst (Revised.switchInputMacToWindows host v exePath tr) = Returned r
        /\ Revised.success r = false
        /\ (includes msg "No displays found" = true -> Revised.message r = connectivity)
        /\ (includes msg "No displays found" = false ->
            includes msg "DDC communication failed" = true -> Revised.message r = cable)
        /\ (includes msg "No displays found" = false ->
            includes msg "DDC communication failed" = false ->
            Revised.message r = "m1ddc error: " +:+ msg))
  /\ (execFails host tr win msg ->
      (exists r, fst (Legacy.switchInputWindows host v exePath m tr) = Returned r
         /\ Legacy.success r = false
         /\ Legacy.message r = "ControlMyMonitor error: " +:+ msg)
      /\ (exists r, fst (Revised.switchInputWindowsToMac host v m exePath tr) = Returned r
            /\ Revised.success r = false
            /\ Revised.message r = "ControlMyMonitor error: " +:+ msg)).
Proof.
  intros macV1 macV2 win connectivity cable. split; [|split].
  - intros Hf. unfold Legacy.switchInputMacOS, tryCatch, bind. fold macV1.
    rewrite (execSync_fails _ _ _ _ Hf).
    destruct (includes msg "No displays found") eqn:H1;
      [|destruct (includes msg "DDC communication failed") eqn:H2];
      eexists; (split; [reflexivity|]); simpl;
      repeat split; intros; congruence.
  - intros Hf. unfold Revised.switchInputMacToWindows, tryCatch, bind. fold macV2.
    rewrite (execSync_fails _ _ _ _ Hf).
    destruct (includes msg "No displays found") eqn:H1;
      [|destruct (includes msg "DDC communication failed") eqn:H2];
      eexists; (split; [reflexivity|]); simpl;
      repeat split; intros; congruence.
  - intros Hf. split.
    + unfold Legacy.switchInputWindows, tryCatch, bind.
      change (_ +:+ " /SetValue " +:+ _) with win.
      rewrite (execSync_fails _ _ _ _ Hf). eexists. repeat split.
    + unfold Revised.switchInputWindowsToMac, tryCatch, bind.
      change (_ +:+ " /SetValue " +:+ _) with win.
      rewrite (execSync_fails _ _ _ _ Hf). eexists. repeat split.
Qed.

Lemma dispatch_error_messages_witness :
  let failing msg := scriptedHost "darwin" [] (Exited 1 EmptyString msg) [] in
  let timedOut := scriptedHost "darwin" [] (NotCompleted "spawnSync /bin/sh ETIMEDOUT") [] in
  let windows := scriptedHost "win32" [] (Exited 2 EmptyString "Access is denied.") [] in
  let exe := "C:/Tools/ControlMyMonitor.exe" in
  let macV1 := "m1ddc set input " +:+ numberToString (Num 15) in
  let macV2 := (DQ +:+ "m1ddc" +:+ DQ) +:+ " set input " +:+ numberToString (Num 15) in
  (execFails (failing "DDC communication failed: timeout") [] macV1
     "DDC communication failed: timeout"
   /\ exists r, fst (Legacy.switchInputMacOS (failing "DDC communication failed: timeout")
                       (Num 15) []) = Returned r
        /\ Legacy.success r = false
        /\ Legacy.message r
           = "DDC/CI communication failed. Try a different cable or check monitor DDC settings.")
  /\ (execFails (failing "Error: No displays found") [] macV1 "Error: No displays found"
      /\ exists r, fst (Legacy.switchInputMacOS (failing "Error: No displays found")
                          (Num 15) []) = Returned r
           /\ Legacy.message r
              = "No DDC/CI compatible displays found. Is the monitor connected and awake?")
  /\ (execFails timedOut [] macV1 "spawnSync /bin/sh ETIMEDOUT"
      /\ exists r, fst (Legacy.switchInputMacOS timedOut (Num 15) []) = Returned r
           /\ Legacy.message r = "m1ddc error: spawnSync /bin/sh ETIMEDOUT")
  /\ (execFails (failing "DDC communication failed: timeout") [] macV2
        "DDC communication failed: timeout"
      /\ exists r, fst (Revised.switchInputMacToWindows
                          (failing "DDC communication failed: timeout") (Num 15) "m1ddc" [])
                   = Returned r
           /\ Revised.message r
              = "DDC/CI communication failed. Try a different cable or check monitor DDC settings.")
  /\ (execFails windows [] (windowsSetValue exe "Primary" (Num 17)) "Access is denied."
      /\ (exists r, fst (Legacy.switchInputWindows windows (Num 17) exe "Primary" [])
                    = Returned r
            /\ Legacy.message r = "ControlMyMonitor error: Access is denied.")
      /\ (exists r, fst (Revised.switchInputWindowsToMac windows (Num 17) "Primary" exe [])
                    = Returned r
            /\ Revised.message r = "ControlMyMonitor error: Access is denied.")).
Proof.
  intros failing timedOut windows exe macV1 macV2.
  assert (H1 : execFails (failing "DDC communication failed: timeout") [] macV1
                 "DDC communication failed: timeout") by exec_fails.
  assert (H2 : execFails (failing "Error: No displays found") [] macV1
                 "Error: No displays found") by exec_fails.
  assert (H3 : execFails timedOut [] macV1 "spawnSync /bin/sh ETIMEDOUT") by exec_fails.
  assert (H4 : execFails (failing "DDC communication failed: timeout") [] macV2
                 "DDC communication failed: timeout") by exec_fails.
  assert (H5 : execFails windows [] (windowsSetValue exe "Primary" (Num 17))
                 "Access is denied.") by exec_fails.
  split; [split; [exact H1|]|split; [split; [exact H2|]|split; [split; [exact H3|]|
    split; [split; [exact H4|]|split; [exact H5|]]]]].
  - destruct (dispatch_error_messages (failing "DDC communication failed: timeout")
                (Num 15) "Primary" "m1ddc" [] "DDC communication failed: timeout")
      as [Hmac _].
    destruct (Hmac H1) as (r & Hr & Hs & _ & Hcable & _).
    exists r. split; [exact Hr|]. split; [exact Hs|]. apply Hcable; reflexivity.
  - destruct (dispatch_error_messages (failing "Error: No displays found")
                (Num 15) "Primary" "m1ddc" [] "Error: No displays found") as [Hmac _].
    destruct (Hmac H2) as (r & Hr & _ & Hconn & _).
    exists r. split; [exact Hr|]. apply Hconn; reflexivity.
  - destruct (dispatch_error_messages timedOut (Num 15) "Primary" "m1ddc" []
                "spawnSync /bin/sh ETIMEDOUT") as [Hmac _].
    destruct (Hmac H3) as (r & Hr & _ & _ & _ & Hraw).
    exists r. split; [exact Hr|]. apply Hraw; reflexivity.
  - destruct (dispatch_error_messages (failing "DDC communication failed: timeout")
                (Num 15) "Primary" "m1ddc" [] "DDC communication failed: timeout")
      as (_ & Hmac & _).
    destruct (Hmac H4) as (r & Hr & _ & _ & Hcable & _).
    exists r. split; [exact Hr|]. apply Hcable; reflexivity.
  - destruct (dispatch_error_messages windows (Num 17) "Primary" exe []
                "Access is denied.") as (_ & _ & Hwin).
    destruct (Hwin H5) as [(r1 & Hr1 & _ & Hm1) (r2 & Hr2 & _ & Hm2)].
    split; [exists r1 | exists r2]; split; assumption.
Defined.

(** C5, counterexample to the claim as stated: a Windows dispatch whose child
    process exits with status 1 and the error text
    [DDC communication failed: timeout] returns the raw text after a prefix;
    the message carries no cable or DDC-setting guidance.  And on macOS an
    error text with both known substrings gives the connectivity hint, not
    the cable hint. *)
Lemma windows_failure_has_no_hint :
  let host :=
    scriptedHost "win32" [] (Exited 1 EmptyString "DDC communication failed: timeout") [] in
  let mac :=
    scriptedHost "darwin" []
      (Exited 1 EmptyString "No displays found (DDC communication failed)") [] in
  fst (Legacy.switchInputWindows host (Num 17) "C:/Tools/ControlMyMonitor.exe" "Primary" [])
    = Returned {| Legacy.success := false;
                  Legacy.message :=
                    "ControlMyMonitor error: DDC communication failed: timeout";
                  Legacy.rawOutput := None |}
  /\ includes "ControlMyMonitor error: DDC communication failed: timeout" "cable" = false
  /\ includes "ControlMyMonitor error: DDC communication failed: timeout" "DDC settings" = false
  /\ fst (Legacy.switchInputMacOS mac (Num 15) [])
    = Returned {| Legacy.success := false;
                  Legacy.message :=
                    "No DDC/CI compatible displays found. Is the monitor connected and awake?";
                  Legacy.rawOutput := None |}.
Proof. vm_compute. repeat split. Qed.

(** ** Discovery *)

(** Finds [needle] in a concatenation whose pieces are known: tries the
    pieces from left to right. *)
Ltac find_piece :=
  first
    [ apply includes_self_app
    | apply includes_refl
    | apply includes_app_r; find_piece ].

(** C6 (as amended).  First generation of ddc.ts, primary query exiting with
    status 0 and output [out].
    Windows: when the [/GetValue] call fails, or when its output does not
    parse as an integer, the report is a success with no current value and
    no error.
    macOS: when the [display list] call fails, the report is a success that
    carries the placeholder text in place of the display list, and its
    current value is still the one parsed from [out] (absent only if [out]
    does not parse); when [out] does not parse as an integer the report is a
    success with no current value, whatever the [display list] call does. *)
Theorem discovery_tolerates_secondary_failure (host : Host) (exePath m : string)
    (tr : list event) (out msg1 : string) :
  let smonitors := (DQ +:+ exePath +:+ DQ) +:+ " /smonitors" in
  let getValue :=
    (DQ +:+ exePath +:+ DQ) +:+ " /GetValue " +:+ DQ +:+ m +:+ DQ +:+ " 60" in
  (run host tr smonitors = Exited 0 out msg1 ->
   (forall e, execFails host (tr ++ [Spawn smonitors])%list getValue e ->
      exists r, fst (Legacy.discoverInputsWindows host exePath m tr) = Returned r
        /\ Legacy.d_success r = true /\ Legacy.currentValue r = None
        /\ Legacy.error r = None)
   /\ (forall out2 msg2,
         run host (tr ++ [Spawn smonitors])%list getValue = Exited 0 out2 msg2 ->
         parseInt (trim out2) = NaN ->
         exists r, fst (Legacy.discoverInputsWindows host exePath m tr) = Returned r
           /\ Legacy.d_success r = true /\ Legacy.currentValue r = None
           /\ Legacy.error r = None))
  /\ (run host tr "m1ddc get input" = Exited 0 out msg1 ->
      (forall e,
         execFails host (tr ++ [Spawn "m1ddc get input"])%list "m1ddc display list" e ->
         exists r info, fst (Legacy.discoverInputsMacOS host tr) = Returned r
           /\ Legacy.d_success r = true /\ Legacy.error r = None
           /\ Legacy.currentValue r
              = (if isNaN (parseInt (trim out)) then None else Some (parseInt (trim out)))
           /\ Legacy.availableInfo r = Some info
           /\ includes info "(Could not retrieve display list)" = true)
      /\ (parseInt (trim out) = NaN ->
          exists r, fst (Legacy.discoverInputsMacOS host tr) = Returned r
            /\ Legacy.d_success r = true /\ Legacy.currentValue r = None
            /\ Legacy.error r = None)).
Proof.
  intros smonitors getValue. split.
  - intros H1. split.
    + intros e H2. unfold Legacy.discoverInputsWindows, tryCatch, bind.
      fold smonitors. rewrite (execSync_exitedZero _ _ _ _ _ H1).
      change (_ +:+ " /GetValue " +:+ _) with getValue.
      rewrite (execSync_fails _ _ _ _ H2). simpl.
      eexists. repeat split.
    + intros out2 msg2 H2 Hnan. unfold Legacy.discoverInputsWindows, tryCatch, bind.
      fold smonitors. rewrite (execSync_exitedZero _ _ _ _ _ H1).
      change (_ +:+ " /GetValue " +:+ _) with getValue.
      rewrite (execSync_exitedZero _ _ _ _ _ H2). simpl. rewrite Hnan. simpl.
      eexists. repeat split.
  - intros H1. split.
    + intros e H2. unfold Legacy.discoverInputsMacOS, tryCatch, bind.
      rewrite (execSync_exitedZero _ _ _ _ _ H1).
      rewrite (execSync_fails _ _ _ _ H2). simpl.
      eexists. eexists. split; [reflexivity|]. simpl.
      split; [reflexivity|]. split; [reflexivity|]. split; [reflexivity|].
      split; [reflexivity|].
      find_piece.
    + intros Hnan. unfold Legacy.discoverInputsMacOS, tryCatch, bind.
      rewrite (execSync_exitedZero _ _ _ _ _ H1).
      destruct (execSync host "m1ddc display list" _) as [[info|e] tr'];
        simpl; rewrite Hnan; eexists; repeat split.
Qed.

Lemma discovery_tolerates_secondary_failure_witness :
  let exe := "C:/Tools/ControlMyMonitor.exe" in
  let smonitors := (DQ +:+ exe +:+ DQ) +:+ " /smonitors" in
  let getValue := (DQ +:+ exe +:+ DQ) +:+ " /GetValue " +:+ DQ +:+ "Primary" +:+ DQ +:+ " 60" in
  let oldTool :=
    scriptedHost "win32"
      [ ("/smonitors", Exited 0 "Monitor 1: Primary" EmptyString);
        ("/GetValue", Exited 1 EmptyString "Command failed: unknown option") ]
      (NotCompleted "not scripted") [] in
  let oddTool :=
    scriptedHost "win32"
      [ ("/smonitors", Exited 0 "Monitor 1: Primary" EmptyString);
        ("/GetValue", Exited 0 "n/a" EmptyString) ]
      (NotCompleted "not scripted") [] in
  let noList :=
    scriptedHost "darwin"
      [ ("get input", Exited 0 ("17" +:+ LF) EmptyString);
        ("display list", Exited 1 EmptyString "Command failed: m1ddc display list") ]
      (NotCompleted "not scripted") [] in
  let oddInput :=
    scriptedHost "darwin"
      [ ("get input", Exited 0 "unknown" EmptyString) ]
      (Exited 0 "DELL U2720Q" EmptyString) [] in
  (run oldTool [] smonitors = Exited 0 "Monitor 1: Primary" EmptyString
   /\ execFails oldTool [Spawn smonitors] getValue "Command failed: unknown option"
   /\ exists r, fst (Legacy.discoverInputsWindows oldTool exe "Primary" []) = Returned r
        /\ Legacy.d_success r = true /\ Legacy.currentValue r = None
        /\ Legacy.error r = None)
  /\ (run oddTool [Spawn smonitors] getValue = Exited 0 "n/a" EmptyString
      /\ parseInt (trim "n/a") = NaN
      /\ exists r, fst (Legacy.discoverInputsWindows oddTool exe "Primary" []) = Returned r
           /\ Legacy.d_success r = true /\ Legacy.currentValue r = None
           /\ Legacy.error r = None)
  /\ (run noList [] "m1ddc get input" = Exited 0 ("17" +:+ LF) EmptyString
      /\ execFails noList [Spawn "m1ddc get input"] "m1ddc display list"
           "Command failed: m1ddc display list"
      /\ exists r info, fst (Legacy.discoverInputsMacOS noList []) = Returned r
           /\ Legacy.d_success r = true
           /\ Legacy.currentValue r = Some (Num 17)
           /\ Legacy.availableInfo r = Some info
           /\ includes info "(Could not retrieve display list)" = true)
  /\ (run oddInput [] "m1ddc get input" = Exited 0 "unknown" EmptyString
      /\ parseInt (trim "unknown") = NaN
      /\ exists r, fst (Legacy.discoverInputsMacOS oddInput []) = Returned r
           /\ Legacy.d_success r = true /\ Legacy.currentValue r = None
           /\ Legacy.error r = None).
Proof.
  intros exe smonitors getValue oldTool oddTool noList oddInput.
  assert (H2 : execFails oldTool [Spawn smonitors] getValue "Command failed: unknown option")
    by exec_fails.
  assert (H3 : execFails noList [Spawn "m1ddc get input"] "m1ddc display list"
                 "Command failed: m1ddc display list") by exec_fails.
  split; [|split; [|split]].
  - split; [reflexivity|]. split; [exact H2|].
    destruct (discovery_tolerates_secondary_failure oldTool exe "Primary" []
                "Monitor 1: Primary" EmptyString) as [Hwin _].
    destruct (Hwin eq_refl) as [Hfail _]. exact (Hfail _ H2).
  - split; [reflexivity|]. split; [reflexivity|].
    destruct (discovery_tolerates_secondary_failure oddTool exe "Primary" []
                "Monitor 1: Primary" EmptyString) as [Hwin _].
    destruct (Hwin eq_refl) as [_ Hnan]. exact (Hnan "n/a" EmptyString eq_refl eq_refl).
  - split; [reflexivity|]. split; [exact H3|].
    destruct (discovery_tolerates_secondary_failure noList exe "Primary" []
                ("17" +:+ LF) EmptyString) as [_ Hmac].
    destruct (Hmac eq_refl) as [Hfail _].
    destruct (Hfail _ H3) as (r & info & Hr & Hs & _ & Hv & Hinfo & Hin).
    exists r, info. split; [exact Hr|]. split; [exact Hs|]. split; [exact Hv|].
    split; [exact Hinfo | exact Hin].
  - split; [reflexivity|]. split; [reflexivity|].
    destruct (discovery_tolerates_secondary_failure oddInput exe "Primary" []
                "unknown" EmptyString) as [_ Hmac].
    destruct (Hmac eq_refl) as [_ Hnan]. exact (Hnan eq_refl).
Defined.

(** C6, counterexample to the claim as stated: on macOS the [get input] call
    prints 15 and only the [display list] call fails (it times out).  The
    report is a success, but its current value is 15: it is not unset. *)
Lemma macos_discovery_keeps_current_value :
  let host :=
    scriptedHost "darwin"
      [ ("get input", Exited 0 ("15" +:+ LF) EmptyString);
        ("display list", NotCompleted "spawnSync /bin/sh ETIMEDOUT") ]
      (NotCompleted "not scripted") [] in
  spawned (snd (Legacy.discoverInputsMacOS host []))
    = [ "m1ddc get input"; "m1ddc display list" ]
  /\ match fst (Legacy.discoverInputsMacOS host []) with
     | Returned r =>
         Legacy.d_success r = true
         /\ Legacy.currentValue r = Some (Num 15)
         /\ Legacy.currentValue r <> None
     | Thrown _ => False
     end.
Proof. vm_compute. repeat split. discriminate. Qed.

(** ** Classification of the brand string *)

Lemma takeDigits_allDigits (s : string) : allDigits (takeDigits s) = true.
Proof.
  induction s as [|c s IH]; simpl; [reflexivity|].
  destruct (isDigit c) eqn:Hc; simpl; [rewrite Hc; exact IH | reflexivity].
Qed.

Lemma takeDigits_id (ds : string) : allDigits ds = true -> takeDigits ds = ds.
Proof.
  induction ds as [|c ds IH]; simpl; [reflexivity|].
  intros H. apply andb_true_iff in H as [Hc Hds]. rewrite Hc, IH; auto.
Qed.

Lemma digitValue_bounds (c : ascii) : isDigit c = true -> 0 <= digitValue c <= 9.
Proof.
  unfold isDigit, digitValue. intros H. apply andb_true_iff in H as [H1 H2].
  apply Nat.leb_le in H1, H2. lia.
Qed.

Lemma digitsValue_nonneg (ds : string) (acc : Z) :
  allDigits ds = true -> 0 <= acc -> 0 <= digitsValue acc ds.
Proof.
  revert acc; induction ds as [|c ds IH]; simpl; intros acc H Hacc; [exact Hacc|].
  apply andb_true_iff in H as [Hc Hds]. apply IH; [exact Hds|].
  pose proof (digitValue_bounds c Hc). lia.
Qed.

(** A digit is no white space and starts no white space. *)
Lemma trimStart_digit (c : ascii) (r : string) :
  isDigit c = true -> trimStart (String c r) = String c r.
Proof.
  intros Hc.
  destruct c as [[] [] [] [] [] [] [] []];
    (vm_compute in Hc; first [discriminate Hc | clear Hc]);
    destruct r as [|c2 [|c3 r3]]; reflexivity.
Qed.

(** On a non-empty run of digits [parseInt] reads the whole run. *)
Lemma parseInt_digits (ds : string) :
  ds <> EmptyString -> allDigits ds = true ->
  parseInt ds = Num (digitsValue 0 ds) /\ 0 <= digitsValue 0 ds.
Proof.
  intros Hne Hall. split; [|apply digitsValue_nonneg; [exact Hall | lia]].
  destruct ds as [|c ds]; [contradiction|].
  simpl in Hall. apply andb_true_iff in Hall as [Hc Hds].
  unfold parseInt. rewrite (trimStart_digit c ds Hc).
  destruct c as [[] [] [] [] [] [] [] []];
    (vm_compute in Hc; first [discriminate Hc | clear Hc]);
    cbv beta iota zeta;
    simpl takeDigits; rewrite (takeDigits_id ds Hds); reflexivity.
Qed.

Lemma matchAppleMHere_digits (s ds : string) :
  matchAppleMHere s = Some ds -> ds <> EmptyString /\ allDigits ds = true.
Proof.
  unfold matchAppleMHere.
  destruct (stripPrefixIgnoreCase "apple m" s) as [rest|]; [|discriminate].
  pose proof (takeDigits_allDigits rest) as Hall.
  destruct (takeDigits rest) as [|c r]; [discriminate|].
  intros [= <-]. split; [discriminate | exact Hall].
Qed.

Lemma matchAppleM_digits (s ds : string) :
  matchAppleM s = Some ds -> ds <> EmptyString /\ allDigits ds = true.
Proof.
  induction s as [|c s IH].
  - vm_compute. discriminate.
  - change (matchAppleM (String c s))
      with (match matchAppleMHere (String c s) with
            | Some d => Some d
            | None => matchAppleM s
            end).
    destruct (matchAppleMHere (String c s)) eqn:E; [|exact IH].
    intros [= <-]. eapply matchAppleMHere_digits; eassumption.
Qed.

Lemma startsWith_toLowerCase (s n : string) :
  startsWith s n = true -> startsWith (toLowerCase s) (toLowerCase n) = true.
Proof.
  revert s; induction n as [|a n IH]; intros s H; simpl.
  - apply startsWith_nil.
  - destruct s as [|b s]; simpl in *; [discriminate|].
    destruct (Ascii.eqb_spec a b) as [->|]; [|discriminate].
    rewrite Ascii.eqb_refl. apply IH. exact H.
Qed.

(** Containment is preserved by lower-casing both strings. *)
Lemma includes_toLowerCase (s n : string) :
  includes s n = true -> includes (toLowerCase s) (toLowerCase n) = true.
Proof.
  induction s as [|c s IH]; intros H.
  - simpl in H. rewrite orb_false_r in H. apply includes_startsWith.
    apply (startsWith_toLowerCase EmptyString). exact H.
  - change (includes (String c s) n)
      with (startsWith (String c s) n || includes s n)%bool in H.
    change (includes (toLowerCase (String c s)) (toLowerCase n))
      with (startsWith (toLowerCase (String c s)) (toLowerCase n)
            || includes (toLowerCase s) (toLowerCase n))%bool.
    apply orb_true_iff in H. apply orb_true_iff. destruct H as [H|H].
    + left. apply startsWith_toLowerCase. exact H.
    + right. apply IH. exact H.
Qed.

(** The four cases of [classifyBrandString], in the order of the source. *)
Lemma classifyBrandString_cases (b : string) :
  let lower := toLowerCase b in
  (includes lower "intel" = true -> classifyBrandString b = intel)
  /\ (includes lower "intel" = false ->
      (forall ds, matchAppleM b = Some ds ->
         exists n, parseInt ds = Num n /\ 0 <= n
           /\ (n = 1 -> classifyBrandString b = m1)
           /\ (2 <= n -> classifyBrandString b = m2_or_later))
      /\ (matchAppleM b = None -> includes lower "apple" = true ->
          classifyBrandString b = m2_or_later)
      /\ (matchAppleM b = None -> includes lower "apple" = false ->
          classifyBrandString b = unknown)).
Proof.
  intros lower. unfold classifyBrandString. fold lower. split.
  - intros ->. reflexivity.
  - intros ->. split; [|split].
    + intros ds Hm. rewrite Hm.
      destruct (matchAppleM_digits _ _ Hm) as [Hne Hall].
      destruct (parseInt_digits ds Hne Hall) as [Hp Hpos].
      exists (digitsValue 0 ds). rewrite Hp. simpl.
      split; [reflexivity|]. split; [exact Hpos|]. split.
      * intros ->. reflexivity.
      * intros H2. apply Z.leb_le in H2. rewrite H2. reflexivity.
    + intros -> ->. reflexivity.
    + intros -> ->. reflexivity.
Qed.

(** ** Meaning of the regular expression *)

Lemma takeDigits_split (s : string) :
  exists rest, s = takeDigits s +:+ rest /\ takeDigits rest = EmptyString.
Proof.
  induction s as [|c s (rest & Hs & Hrest)].
  - exists EmptyString. split; reflexivity.
  - simpl. destruct (isDigit c) eqn:Hc.
    + exists rest. split; [|exact Hrest].
      change (String c (takeDigits s) +:+ rest) with (String c (takeDigits s +:+ rest)).
      rewrite <- Hs. reflexivity.
    + exists (String c s). split; [reflexivity|]. simpl. rewrite Hc. reflexivity.
Qed.

Lemma takeDigits_app (ds rest : string) :
  allDigits ds = true -> takeDigits rest = EmptyString ->
  takeDigits (ds +:+ rest) = ds.
Proof.
  intros Hall Hrest. induction ds as [|c ds IH]; simpl; [exact Hrest|].
  simpl in Hall. apply andb_true_iff in Hall as [Hc Hds].
  rewrite Hc, IH; auto.
Qed.

Lemma stripPrefixIgnoreCase_split (p s rest : string) :
  stripPrefixIgnoreCase p s = Some rest ->
  exists w, s = w +:+ rest /\ toLowerCase w = p.
Proof.
  revert s; induction p as [|a p IH]; intros s H.
  - destruct s; injection H as <-; exists EmptyString; split; reflexivity.
  - destruct s as [|b s]; simpl in H; [discriminate|].
    destruct (Ascii.eqb_spec a (lowerChar b)) as [->|]; [|discriminate].
    destruct (IH _ H) as (w & -> & <-).
    exists (String b w). split; reflexivity.
Qed.

Lemma stripPrefixIgnoreCase_app (w t : string) :
  stripPrefixIgnoreCase (toLowerCase w) (w +:+ t) = Some t.
Proof.
  induction w as [|b w IH]; simpl.
  - destruct t; reflexivity.
  - rewrite Ascii.eqb_refl. exact IH.
Qed.

Lemma matchAppleMHere_spec (s ds : string) :
  matchAppleMHere s = Some ds <-> AppleMAt s ds.
Proof.
  unfold matchAppleMHere, AppleMAt. split.
  - destruct (stripPrefixIgnoreCase "apple m" s) as [r|] eqn:Hp; [|discriminate].
    destruct (stripPrefixIgnoreCase_split _ _ _ Hp) as (w & -> & Hw).
    destruct (takeDigits_split r) as (rest & Hr & Hrest).
    pose proof (takeDigits_allDigits r) as Hall.
    destruct (takeDigits r) as [|c d] eqn:Hd; [discriminate|].
    intros [= <-]. exists w, rest.
    split; [rewrite Hr at 1; reflexivity|].
    split; [exact Hw|]. split; [discriminate|]. split; [exact Hall | exact Hrest].
  - intros (w & rest & -> & Hw & Hne & Hall & Hrest).
    rewrite <- Hw, stripPrefixIgnoreCase_app, (takeDigits_app _ _ Hall Hrest).
    destruct ds; [contradiction | reflexivity].
Qed.

Lemma matchAppleM_unfold (s : string) :
  matchAppleM s
  = match matchAppleMHere s with
    | Some ds => Some ds
    | None => match s with
              | EmptyString => None
              | String _ s' => matchAppleM s'
              end
    end.
Proof. destruct s; reflexivity. Qed.

(** [matchAppleM] computes the capture group of the leftmost match. *)
Lemma matchAppleM_spec (s ds : string) :
  matchAppleM s = Some ds <-> LeftmostAppleM s ds.
Proof.
  unfold LeftmostAppleM. split.
  - induction s as [|c s IH]; rewrite matchAppleM_unfold.
    + vm_compute. discriminate.
    + destruct (matchAppleMHere (String c s)) as [d|] eqn:E.
      * intros [= ->]. exists EmptyString, (String c s).
        split; [reflexivity|]. split; [apply matchAppleMHere_spec; exact E|].
        intros p1 p2 Hp Hne. destruct p1;
          [exfalso; apply Hne; symmetry; exact Hp | discriminate Hp].
      * intros H. destruct (IH H) as (pre & tail & -> & Hat & Hleft).
        exists (String c pre), tail. split; [reflexivity|]. split; [exact Hat|].
        intros p1 p2 Hp Hne d Hd. destruct p1 as [|b p1].
        -- change (String c pre = p2) in Hp. subst p2.
           apply matchAppleMHere_spec in Hd.
           change (String c pre +:+ tail) with (String c (pre +:+ tail)) in Hd.
           congruence.
        -- change (String c pre = String b (p1 +:+ p2)) in Hp.
           injection Hp as _ Hp. exact (Hleft p1 p2 Hp Hne d Hd).
  - intros (pre & tail & -> & Hat & Hleft).
    induction pre as [|c pre IH].
    + change (EmptyString +:+ tail) with tail. rewrite matchAppleM_unfold.
      apply matchAppleMHere_spec in Hat. rewrite Hat. reflexivity.
    + rewrite matchAppleM_unfold.
      destruct (matchAppleMHere (String c pre +:+ tail)) as [d|] eqn:E.
      * exfalso. apply matchAppleMHere_spec in E.
        apply (Hleft EmptyString (String c pre) eq_refl ltac:(discriminate) d E).
      * change (String c pre +:+ tail) with (String c (pre +:+ tail)).
        apply IH. intros p1 p2 Hp Hne d Hd.
        apply (Hleft (String c p1) p2) with (d := d); [|exact Hne | exact Hd].
        change (String c p1 +:+ p2) with (String c (p1 +:+ p2)). f_equal. exact Hp.
Qed.

(** ** Platform classification *)

Lemma Legacy_detectGen host tr :
  Legacy.detectAppleSiliconGeneration host tr
  = (Returned (chipGenOf (run host tr sysctlV1)), (tr ++ [Spawn sysctlV1])%list).
Proof.
  unfold Legacy.detectAppleSiliconGeneration, chipGenOf.
  change "sysctl -n machdep.cpu.brand_string" with sysctlV1.
  unfold tryCatch, bind, ret, execSync.
  destruct (run host tr sysctlV1) as [status out msg|msg];
    [destruct (status =? 0)|]; reflexivity.
Qed.

Lemma Revised_detectGen host tr :
  Revised.detectAppleSiliconGeneration host tr
  = (Returned (chipGenOf (run host tr sysctlV2)), (tr ++ [Spawn sysctlV2])%list).
Proof.
  unfold Revised.detectAppleSiliconGeneration, chipGenOf.
  change (_ +:+ " -n machdep.cpu.brand_string") with sysctlV2.
  unfold tryCatch, bind, ret, execSync.
  destruct (run host tr sysctlV2) as [status out msg|msg];
    [destruct (status =? 0)|]; reflexivity.
Qed.

Lemma Legacy_detectPlatform_darwin host tr :
  platform host = "darwin" ->
  let g := chipGenOf (run host tr sysctlV1) in
  Legacy.detectPlatform host tr
  = (Returned {| Legacy.os := darwin;
                 Legacy.isAppleSilicon := negb (bool_decide (g = intel));
                 Legacy.appleChipGen := g;
                 Legacy.m1ddcSupportsBuiltinHdmi := bool_decide (g = m2_or_later) |},
     (tr ++ [Spawn sysctlV1])%list).
Proof.
  intros Hos g. unfold Legacy.detectPlatform. rewrite Hos. simpl.
  unfold bind. rewrite Legacy_detectGen. reflexivity.
Qed.

Lemma Legacy_detectPlatform_other host tr :
  platform host <> "darwin" ->
  exists o, o <> darwin
    /\ Legacy.detectPlatform host tr
       = (Returned {| Legacy.os := o; Legacy.isAppleSilicon := false;
                      Legacy.appleChipGen := unknown;
                      Legacy.m1ddcSupportsBuiltinHdmi := false |}, tr).
Proof.
  intros Hos. unfold Legacy.detectPlatform.
  destruct (String.eqb (platform host) "win32").
  - exists win32. split; [discriminate | reflexivity].
  - destruct (String.eqb_spec (platform host) "darwin"); [contradiction|].
    exists unsupported. split; [discriminate | reflexivity].
Qed.

Lemma Revised_detectPlatform_darwin host tr :
  platform host = "darwin" ->
  let g := chipGenOf (run host tr sysctlV2) in
  Revised.detectPlatform host tr
  = (Returned {| Revised.os := darwin; Revised.isWin32 := false;
                 Revised.appleChipGen := g;
                 Revised.isAppleSilicon := negb (bool_decide (g = intel));
                 Revised.m1ddcSupportsBuiltinHdmi := bool_decide (g = m2_or_later) |},
     (tr ++ [Spawn sysctlV2])%list).
Proof.
  intros Hos g. unfold Revised.detectPlatform. rewrite Hos. simpl.
  unfold bind. rewrite Revised_detectGen. reflexivity.
Qed.

Lemma Revised_detectPlatform_other host tr :
  platform host <> "darwin" ->
  exists o, o <> darwin
    /\ Revised.detectPlatform host tr
       = (Returned {| Revised.os := o; Revised.isWin32 := bool_decide (o = win32);
                      Revised.appleChipGen := unknown;
                      Revised.isAppleSilicon := false;
                      Revised.m1ddcSupportsBuiltinHdmi := false |}, tr).
Proof.
  intros Hos. unfold Revised.detectPlatform.
  destruct (String.eqb (platform host) "win32").
  - exists win32. split; [discriminate | reflexivity].
  - destruct (String.eqb_spec (platform host) "darwin"); [contradiction|].
    exists unsupported. split; [discriminate | reflexivity].
Qed.

Lemma chipGenOf_fails host tr command e :
  execFails host tr command e -> chipGenOf (run host tr command) = unknown.
Proof.
  unfold chipGenOf. intros [(status & out & Hne & ->)| ->]; [|reflexivity].
  destruct (Z.eqb_spec status 0); [contradiction | reflexivity].
Qed.

Lemma stripPrefixIgnoreCase_startsWith (p s rest : string) :
  stripPrefixIgnoreCase p s = Some rest -> startsWith (toLowerCase s) p = true.
Proof.
  revert s; induction p as [|a p IH]; intros s H.
  - apply startsWith_nil.
  - destruct s as [|b s]; simpl in *; [discriminate|].
    destruct (Ascii.eqb a (lowerChar b)); [apply (IH _ H) | discriminate].
Qed.

Lemma startsWith_app_inv (s p q : string) :
  startsWith s (p +:+ q) = true -> startsWith s p = true.
Proof.
  revert s; induction p as [|a p IH]; intros s H.
  - apply startsWith_nil.
  - destruct s as [|b s]; simpl in *; [discriminate|].
    destruct (Ascii.eqb a b); [apply (IH _ H) | discriminate].
Qed.

(** Where the regular expression matches, the text contains [apple] up to
    case. *)
Lemma matchAppleM_includes_apple (s ds : string) :
  matchAppleM s = Some ds -> includes (toLowerCase s) "apple" = true.
Proof.
  induction s as [|c s IH].
  - vm_compute. discriminate.
  - change (matchAppleM (String c s))
      with (match matchAppleMHere (String c s) with
            | Some d => Some d
            | None => matchAppleM s
            end).
    change (includes (toLowerCase (String c s)) "apple")
      with (startsWith (toLowerCase (String c s)) "apple"
            || includes (toLowerCase s) "apple")%bool.
    destruct (matchAppleMHere (String c s)) eqn:E.
    + intros _. apply orb_true_iff. left.
      unfold matchAppleMHere in E.
      destruct (stripPrefixIgnoreCase "apple m" (String c s)) as [rest|] eqn:Hp;
        [|discriminate].
      apply stripPrefixIgnoreCase_startsWith in Hp.
      apply (startsWith_app_inv _ "apple" " m"). exact Hp.
    + intros H. apply orb_true_iff. right. apply IH. exact H.
Qed.

(** Text with neither [intel] nor [apple] in it (up to case) is classified
    as [unknown]. *)
Lemma classifyBrandString_unparseable (b : string) :
  includes (toLowerCase b) "intel" = false ->
  includes (toLowerCase b) "apple" = false ->
  classifyBrandString b = unknown.
Proof.
  intros Hi Ha. apply classifyBrandString_cases; [exact Hi | | exact Ha].
  destruct (matchAppleM b) as [ds|] eqn:E; [|reflexivity].
  apply matchAppleM_includes_apple in E. congruence.
Qed.

Example classify_documented_brand_strings :
  classifyBrandString "Apple M1" = m1
  /\ classifyBrandString "Apple M1 Pro" = m1
  /\ classifyBrandString "Apple M2" = m2_or_later
  /\ classifyBrandString "Apple M3 Max" = m2_or_later
  /\ classifyBrandString "Apple M10" = m2_or_later
  /\ classifyBrandString "Intel(R) Core(TM) i7-9750H CPU @ 2.60GHz" = intel
  /\ classifyBrandString "Apple processor" = m2_or_later
  /\ classifyBrandString "AMD Ryzen 7" = unknown
  /\ classifyBrandString EmptyString = unknown.
Proof. vm_compute. repeat split. Qed.

(** C7.  Platform classification always returns a [PlatformInfo]; it never
    throws, in either generation of platform.ts.  When the sysctl call
    fails (non-zero exit status, failure to start, timeout), and when it
    succeeds with text in which neither [intel] nor [apple] occurs, the
    generation is [unknown]. *)
Theorem classification_never_fails (host : Host) (tr : list event) :
  (exists info tr', Legacy.detectPlatform host tr = (Returned info, tr')
     /\ (forall e, execFails host tr sysctlV1 e -> Legacy.appleChipGen info = unknown)
     /\ (forall out msg, run host tr sysctlV1 = Exited 0 out msg ->
           includes (toLowerCase (trim out)) "intel" = false ->
           includes (toLowerCase (trim out)) "apple" = false ->
           Legacy.appleChipGen info = unknown))
  /\ (exists info tr', Revised.detectPlatform host tr = (Returned info, tr')
        /\ (forall e, execFails host tr sysctlV2 e -> Revised.appleChipGen info = unknown)
        /\ (forall out msg, run host tr sysctlV2 = Exited 0 out msg ->
              includes (toLowerCase (trim out)) "intel" = false ->
              includes (toLowerCase (trim out)) "apple" = false ->
              Revised.appleChipGen info = unknown)).
Proof.
  destruct (String.eqb_spec (platform host) "darwin") as [Hos|Hos]; split.
  - rewrite (Legacy_detectPlatform_darwin host tr Hos).
    eexists. eexists. split; [reflexivity|]. simpl. split.
    + intros e He. eapply chipGenOf_fails. exact He.
    + intros out msg -> Hi Ha. simpl. apply classifyBrandString_unparseable; assumption.
  - rewrite (Revised_detectPlatform_darwin host tr Hos).
    eexists. eexists. split; [reflexivity|]. simpl. split.
    + intros e He. eapply chipGenOf_fails. exact He.
    + intros out msg -> Hi Ha. simpl. apply classifyBrandString_unparseable; assumption.
  - destruct (Legacy_detectPlatform_other host tr Hos) as (o & _ & ->).
    eexists. eexists. split; [reflexivity|]. simpl. split; intros; reflexivity.
  - destruct (Revised_detectPlatform_other host tr Hos) as (o & _ & ->).
    eexists. eexists. split; [reflexivity|]. simpl. split; intros; reflexivity.
Qed.

Lemma classification_never_fails_witness :
  let timedOut := macHostNoSysctl in
  let exitOne :=
    scriptedHost "darwin" [] (Exited 1 EmptyString "Command failed: sysctl") [] in
  let odd := macHost "VirtualApl,1" in
  (execFails timedOut [] sysctlV1 "spawnSync /bin/sh ETIMEDOUT"
   /\ exists info tr', Legacy.detectPlatform timedOut [] = (Returned info, tr')
        /\ Legacy.appleChipGen info = unknown)
  /\ (execFails exitOne [] sysctlV2 "Command failed: sysctl"
      /\ exists info tr', Revised.detectPlatform exitOne [] = (Returned info, tr')
           /\ Revised.appleChipGen info = unknown)
  /\ (run odd [] sysctlV1 = Exited 0 ("VirtualApl,1" +:+ LF) EmptyString
      /\ includes (toLowerCase (trim ("VirtualApl,1" +:+ LF))) "intel" = false
      /\ includes (toLowerCase (trim ("VirtualApl,1" +:+ LF))) "apple" = false
      /\ exists info tr', Legacy.detectPlatform odd [] = (Returned info, tr')
           /\ Legacy.appleChipGen info = unknown)
  /\ (run odd [] sysctlV2 = Exited 0 ("VirtualApl,1" +:+ LF) EmptyString
      /\ exists info tr', Revised.detectPlatform odd [] = (Returned info, tr')
           /\ Revised.appleChipGen info = unknown).
Proof.
  intros timedOut exitOne odd.
  assert (H1 : execFails timedOut [] sysctlV1 "spawnSync /bin/sh ETIMEDOUT") by exec_fails.
  assert (H2 : execFails exitOne [] sysctlV2 "Command failed: sysctl") by exec_fails.
  split; [|split; [|split]].
  - split; [exact H1|].
    destruct (classification_never_fails timedOut []) as [(info & tr' & Hrun & Hfail & _) _].
    exists info, tr'. split; [exact Hrun | exact (Hfail _ H1)].
  - split; [exact H2|].
    destruct (classification_never_fails exitOne []) as [_ (info & tr' & Hrun & Hfail & _)].
    exists info, tr'. split; [exact Hrun | exact (Hfail _ H2)].
  - split; [reflexivity|]. split; [reflexivity|]. split; [reflexivity|].
    destruct (classification_never_fails odd []) as [(info & tr' & Hrun & _ & Hodd) _].
    exists info, tr'. split; [exact Hrun|].
    exact (Hodd _ _ eq_refl eq_refl eq_refl).
  - split; [reflexivity|].
    destruct (classification_never_fails odd []) as [_ (info & tr' & Hrun & _ & Hodd)].
    exists info, tr'. split; [exact Hrun|].
    exact (Hodd _ _ eq_refl eq_refl eq_refl).
Defined.

(** C8.  For every brand string (the trimmed output of the sysctl call):
    if it contains [Intel] (in any letter case) the generation is [intel];
    otherwise, if the pattern [Apple M<N>] occurs in it (in any letter
    case), [N] being the number read at its leftmost occurrence, the
    generation is [m1] when [N] is 1 and [m2_or_later] when [N >= 2];
    otherwise, if it contains [Apple] (in any letter case) the generation is
    [m2_or_later]; otherwise it is [unknown].  On macOS that generation is
    the one of the returned [PlatformInfo], and on every host
    [m1ddcSupportsBuiltinHdmi] is true exactly when the generation is
    [m2_or_later]. *)
Theorem brand_string_generation (brandString : string) :
  let lower := toLowerCase brandString in
  let g := classifyBrandString brandString in
  ((includes brandString "Intel" = true -> g = intel)
   /\ (includes lower "intel" = true -> g = intel)
   /\ (includes lower "intel" = false ->
       (forall ds, LeftmostAppleM brandString ds ->
          exists n, parseInt ds = Num n /\ 0 <= n
            /\ (n = 1 -> g = m1) /\ (2 <= n -> g = m2_or_later))
       /\ ((forall ds, ~ LeftmostAppleM brandString ds) ->
           includes lower "apple" = true -> g = m2_or_later)
       /\ ((forall ds, ~ LeftmostAppleM brandString ds) ->
           includes lower "apple" = false -> g = unknown)))
  /\ (forall host tr out msg,
        platform host = "darwin" -> trim out = brandString ->
        (run host tr sysctlV1 = Exited 0 out msg ->
         exists info tr', Legacy.detectPlatform host tr = (Returned info, tr')
           /\ Legacy.appleChipGen info = g)
        /\ (run host tr sysctlV2 = Exited 0 out msg ->
            exists info tr', Revised.detectPlatform host tr = (Returned info, tr')
              /\ Revised.appleChipGen info = g))
  /\ (forall host tr,
        (exists info tr', Legacy.detectPlatform host tr = (Returned info, tr')
           /\ (Legacy.m1ddcSupportsBuiltinHdmi info = true
               <-> Legacy.appleChipGen info = m2_or_later))
        /\ (exists info tr', Revised.detectPlatform host tr = (Returned info, tr')
              /\ (Revised.m1ddcSupportsBuiltinHdmi info = true
                  <-> Revised.appleChipGen info = m2_or_later))).
Proof.
  intros lower g. split; [|split].
  - destruct (classifyBrandString_cases brandString) as [Hintel Hrest].
    split; [|split; [exact Hintel|]].
    { intros H. apply Hintel. apply (includes_toLowerCase _ "Intel"). exact H. }
    intros Hno. destruct (Hrest Hno) as (Hmatch & Happle & Hunknown).
    assert (Hnone : (forall ds, ~ LeftmostAppleM brandString ds) ->
                    matchAppleM brandString = None).
    { intros Hall. destruct (matchAppleM brandString) as [ds|] eqn:E; [|reflexivity].
      exfalso. apply (Hall ds). apply matchAppleM_spec. exact E. }
    split; [|split].
    + intros ds Hds. apply Hmatch. apply matchAppleM_spec. exact Hds.
    + intros Hall. apply Happle, Hnone, Hall.
    + intros Hall. apply Hunknown, Hnone, Hall.
  - intros host tr out msg Hos Htrim. split; intros Hrun.
    + rewrite (Legacy_detectPlatform_darwin host tr Hos), Hrun.
      eexists. eexists. split; [reflexivity|]. simpl. rewrite Htrim. reflexivity.
    + rewrite (Revised_detectPlatform_darwin host tr Hos), Hrun.
      eexists. eexists. split; [reflexivity|]. simpl. rewrite Htrim. reflexivity.
  - intros host tr.
    destruct (String.eqb_spec (platform host) "darwin") as [Hos|Hos]; split.
    + rewrite (Legacy_detectPlatform_darwin host tr Hos).
      eexists. eexists. split; [reflexivity|]. simpl. apply bool_decide_eq_true.
    + rewrite (Revised_detectPlatform_darwin host tr Hos).
      eexists. eexists. split; [reflexivity|]. simpl. apply bool_decide_eq_true.
    + destruct (Legacy_detectPlatform_other host tr Hos) as (o & _ & ->).
      eexists. eexists. split; [reflexivity|]. simpl. split; discriminate.
    + destruct (Revised_detectPlatform_other host tr Hos) as (o & _ & ->).
      eexists. eexists. split; [reflexivity|]. simpl. split; discriminate.
Qed.

Lemma brand_string_generation_witness :
  (includes "Intel(R) Core(TM) i7-9750H CPU @ 2.60GHz" "Intel" = true
   /\ classifyBrandString "Intel(R) Core(TM) i7-9750H CPU @ 2.60GHz" = intel)
  /\ (includes (toLowerCase "Apple M1 Pro") "intel" = false
      /\ LeftmostAppleM "Apple M1 Pro" "1"
      /\ classifyBrandString "Apple M1 Pro" = m1)
  /\ (includes (toLowerCase "Apple M3 Max") "intel" = false
      /\ LeftmostAppleM "Apple M3 Max" "3"
      /\ classifyBrandString "Apple M3 Max" = m2_or_later)
  /\ (includes (toLowerCase "Apple processor") "intel" = false
      /\ (forall ds, ~ LeftmostAppleM "Apple processor" ds)
      /\ includes (toLowerCase "Apple processor") "apple" = true
      /\ classifyBrandString "Apple processor" = m2_or_later)
  /\ (includes (toLowerCase "AMD Ryzen 7") "intel" = false
      /\ (forall ds, ~ LeftmostAppleM "AMD Ryzen 7" ds)
      /\ includes (toLowerCase "AMD Ryzen 7") "apple" = false
      /\ classifyBrandString "AMD Ryzen 7" = unknown)
  /\ (platform (macHost "Apple M3 Max") = "darwin"
      /\ trim ("Apple M3 Max" +:+ LF) = "Apple M3 Max"
      /\ run (macHost "Apple M3 Max") [] sysctlV2
         = Exited 0 ("Apple M3 Max" +:+ LF) EmptyString
      /\ exists info tr',
           Revised.detectPlatform (macHost "Apple M3 Max") [] = (Returned info, tr')
           /\ Revised.appleChipGen info = m2_or_later).
Proof.
  assert (Hm1 : LeftmostAppleM "Apple M1 Pro" "1")
    by (apply matchAppleM_spec; reflexivity).
  assert (Hm3 : LeftmostAppleM "Apple M3 Max" "3")
    by (apply matchAppleM_spec; reflexivity).
  assert (Hno1 : forall ds, ~ LeftmostAppleM "Apple processor" ds)
    by (intros ds H; apply matchAppleM_spec in H; discriminate H).
  assert (Hno2 : forall ds, ~ LeftmostAppleM "AMD Ryzen 7" ds)
    by (intros ds H; apply matchAppleM_spec in H; discriminate H).
  split; [|split; [|split; [|split; [|split]]]].
  - split; [reflexivity|].
    destruct (brand_string_generation "Intel(R) Core(TM) i7-9750H CPU @ 2.60GHz")
      as [(Hintel & _) _].
    apply Hintel. reflexivity.
  - split; [reflexivity|]. split; [exact Hm1|].
    destruct (brand_string_generation "Apple M1 Pro") as [(_ & _ & Hcases) _].
    destruct (Hcases eq_refl) as [Hmatch _].
    destruct (Hmatch "1" Hm1) as (n & Hn & _ & Hone & _).
    apply Hone. vm_compute in Hn. injection Hn as <-. reflexivity.
  - split; [reflexivity|]. split; [exact Hm3|].
    destruct (brand_string_generation "Apple M3 Max") as [(_ & _ & Hcases) _].
    destruct (Hcases eq_refl) as [Hmatch _].
    destruct (Hmatch "3" Hm3) as (n & Hn & _ & _ & Hlater).
    apply Hlater. vm_compute in Hn. injection Hn as <-. lia.
  - split; [reflexivity|]. split; [exact Hno1|]. split; [reflexivity|].
    destruct (brand_string_generation "Apple processor") as [(_ & _ & Hcases) _].
    destruct (Hcases eq_refl) as (_ & Happle & _).
    apply Happle; [exact Hno1 | reflexivity].
  - split; [reflexivity|]. split; [exact Hno2|]. split; [reflexivity|].
    destruct (brand_string_generation "AMD Ryzen 7") as [(_ & _ & Hcases) _].
    destruct (Hcases eq_refl) as (_ & _ & Hunknown).
    apply Hunknown; [exact Hno2 | reflexivity].
  - split; [reflexivity|]. split; [reflexivity|]. split; [reflexivity|].
    destruct (brand_string_generation "Apple M3 Max") as (_ & Hhost & _).
    destruct (Hhost (macHost "Apple M3 Max") [] ("Apple M3 Max" +:+ LF) EmptyString
                eq_refl eq_refl) as [_ Hv2].
    exact (Hv2 eq_refl).
Defined.

(** ** Prerequisite validation (second generation) *)

(** A [forEach] whose callback only computes a value leaves no trace, and
    the values are dropped. *)
Lemma forEach_pure {A B} (array : list A) (callback : A -> Eff B) (tr : list event) :
  (forall x tr0, exists b, callback x tr0 = (Returned b, tr0)) ->
  Revised.forEach array callback tr = (Returned tt, tr).
Proof.
  intros Hpure. induction array as [|x rest IH]; simpl; [reflexivity|].
  unfold bind. destruct (Hpure x tr) as [b ->]. exact IH.
Qed.

(** [validatePreferences] never looks at the input codes: its result is
    decided by the path of the tool alone. *)
Lemma validatePreferences_result host prefs (platform : object) tr :
  let onDarwin := bool_decide (platform !! "os" = Some (VStr "darwin")) in
  let runnablePath :=
    if onDarwin then Revised.m1ddcPath prefs else Revised.controlMyMonitorPath prefs in
  let pathOk :=
    (negb (String.eqb runnablePath EmptyString
           || String.eqb (trim runnablePath) EmptyString)
     && existsSync host runnablePath)%bool in
  exists o, Revised.validatePreferences host prefs platform tr = (Returned o, tr)
    /\ o !! "status" = Some (VStr (if pathOk then "success" else "failure"))
    /\ (pathOk = true ->
        o = literal [Spread (Revised.prefsObject prefs); Spread Revised.GenericSuccess]).
Proof.
  intros onDarwin runnablePath pathOk.
  unfold Revised.validatePreferences.
  unfold bind at 1. rewrite forEach_pure.
  2:{ intros x tr0. destruct (isNaN (parseInt (toStr x.2))); eexists; reflexivity. }
  fold onDarwin. fold runnablePath. subst pathOk.
  destruct (String.eqb runnablePath EmptyString
            || String.eqb (trim runnablePath) EmptyString)%bool; simpl.
  - eexists. split; [reflexivity|]. split; [vm_compute; reflexivity | discriminate].
  - destruct (existsSync host runnablePath); simpl.
    + eexists. split; [reflexivity|]. split; [vm_compute; reflexivity | reflexivity].
    + eexists. split; [reflexivity|]. split; [vm_compute; reflexivity | discriminate].
Qed.

(** Reading a property of [{ ...a, ...b }]: the one of [b] if [b] has it,
    the one of [a] otherwise. *)
Lemma lookup_spread_spread (a b : object) (k : string) :
  literal [Spread a; Spread b] !! k
  = match b !! k with Some v => Some v | None => a !! k end.
Proof.
  unfold literal. simpl. rewrite (right_id_L ∅ (∪) a).
  rewrite lookup_union. destruct (b !! k), (a !! k); reflexivity.
Qed.

Lemma validateHostPlatform_darwin host tr :
  platform host = "darwin" ->
  let g := chipGenOf (run host tr sysctlV2) in
  exists pv, Revised.validateHostPlatform host tr
             = (Returned pv, (tr ++ [Spawn sysctlV2])%list)
    /\ pv !! "status"
       = Some (VStr match g with
                    | intel => "failure" | m1 => "soft-fail" | _ => "success"
                    end)
    /\ pv !! "os" = Some (VStr "darwin")
    /\ pv !! "appleChipGen" = Some (VStr (Revised.genText g))
    /\ pv !! "isAppleSilicon" = Some (VBool (negb (bool_decide (g = intel)))).
Proof.
  intros Hos g. unfold Revised.validateHostPlatform, bind.
  rewrite (Revised_detectPlatform_darwin host tr Hos). fold g. simpl.
  destruct g; simpl; eexists; (split; [reflexivity|]); vm_compute; repeat split.
Qed.

Lemma validateHostPlatform_other host tr :
  platform host <> "darwin" ->
  exists pv, Revised.validateHostPlatform host tr = (Returned pv, tr)
    /\ pv !! "status"
       = Some (VStr (if String.eqb (platform host) "win32" then "success" else "failure"))
    /\ pv !! "os"
       = Some (VStr (if String.eqb (platform host) "win32" then "win32" else "unsupported")).
Proof.
  intros Hos. unfold Revised.validateHostPlatform, Revised.detectPlatform, bind.
  destruct (String.eqb (platform host) "win32").
  - eexists. split; [reflexivity|]. vm_compute. repeat split.
  - destruct (String.eqb_spec (platform host) "darwin"); [contradiction|].
    eexists. split; [reflexivity|]. vm_compute. repeat split.
Qed.

(** C9.  On macOS with an M1 chip, platform validation returns the status
    [soft-fail]; but whenever preference validation then returns the status
    [success], the combined validation of common.ts returns [success] with
    the empty title and message of the preference validation: the
    soft-warning status, title and message have been overwritten by the
    later spread, while the platform fields are kept. *)
Theorem soft_warning_is_overwritten (host : Host) (prefs : Revised.Preferences)
    (tr : list event) (out msg : string) :
  platform host = "darwin" ->
  run host tr sysctlV2 = Exited 0 out msg ->
  classifyBrandString (trim out) = m1 ->
  exists pv tr1,
    Revised.validateHostPlatform host tr = (Returned pv, tr1)
    /\ pv !! "status" = Some (VStr "soft-fail")
    /\ pv !! "os" = Some (VStr "darwin")
    /\ forall o tr2,
         Revised.validatePreferences host prefs pv tr1 = (Returned o, tr2) ->
         o !! "status" = Some (VStr "success") ->
         exists cv, Revised.validatePrerequisites host prefs tr = (Returned cv, tr2)
           /\ cv !! "status" = Some (VStr "success")
           /\ cv !! "title" = Some (VStr EmptyString)
           /\ cv !! "message" = Some (VStr EmptyString)
           /\ cv !! "appleChipGen" = Some (VStr "m1")
           /\ cv !! "os" = Some (VStr "darwin").
Proof.
  intros Hos Hrun Hm1.
  destruct (validateHostPlatform_darwin host tr Hos) as (pv & Hpv & Hst & Hpos & Hgen & _).
  unfold chipGenOf in Hst, Hgen. rewrite Hrun in Hst, Hgen. simpl in Hst, Hgen.
  rewrite Hm1 in Hst, Hgen. simpl in Hgen.
  exists pv, (tr ++ [Spawn sysctlV2])%list.
  split; [exact Hpv|]. split; [exact Hst|]. split; [exact Hpos|].
  intros o tr2 Ho Hsucc.
  destruct (validatePreferences_result host prefs pv (tr ++ [Spawn sysctlV2])%list)
    as (o' & Ho' & Hst' & Hshape).
  rewrite Ho in Ho'. injection Ho' as <- Htr.
  assert (Hok : o = literal [Spread (Revised.prefsObject prefs);
                             Spread Revised.GenericSuccess]).
  { apply Hshape. destruct (negb _ && _)%bool; [reflexivity|].
    rewrite Hsucc in Hst'. discriminate Hst'. }
  unfold Revised.validatePrerequisites, bind. rewrite Hpv, Hst. simpl. rewrite Ho.
  eexists. split; [reflexivity|].
  rewrite !lookup_spread_spread, Hsucc, Hgen, Hpos. subst o.
  vm_compute. repeat split.
Qed.

Lemma soft_warning_is_overwritten_witness :
  let host := macHost "Apple M1" in
  let prefs := macPrefs "15" "17" in
  platform host = "darwin"
  /\ run host [] sysctlV2 = Exited 0 ("Apple M1" +:+ LF) EmptyString
  /\ classifyBrandString (trim ("Apple M1" +:+ LF)) = m1
  /\ exists cv tr2, Revised.validatePrerequisites host prefs [] = (Returned cv, tr2)
       /\ cv !! "status" = Some (VStr "success").
Proof.
  intros host prefs.
  split; [reflexivity|]. split; [reflexivity|]. split; [reflexivity|].
  destruct (soft_warning_is_overwritten host prefs [] ("Apple M1" +:+ LF) EmptyString
              eq_refl eq_refl eq_refl) as (pv & tr1 & Hpv & Hst & Hos & Hmerge).
  destruct (validatePreferences_result host prefs pv tr1) as (o & Ho & Hsucc & _).
  rewrite Hos in Hsucc. simpl in Hsucc.
  destruct (Hmerge o tr1 Ho Hsucc) as (cv & Hcv & Hs & _).
  exists cv, tr1. split; [exact Hcv | exact Hs].
Defined.

(** ** The toggle command *)

(** On macOS, with a chip that is not classified as Intel and an existing,
    non-blank tool path, the combined validation succeeds, whatever the
    input codes are, and carries the platform and preference fields. *)
Lemma validatePrerequisites_darwin_ready host prefs tr :
  platform host = "darwin" ->
  chipGenOf (run host tr sysctlV2) <> intel ->
  (String.eqb (Revised.m1ddcPath prefs) EmptyString
   || String.eqb (trim (Revised.m1ddcPath prefs)) EmptyString)%bool = false ->
  existsSync host (Revised.m1ddcPath prefs) = true ->
  exists cv, Revised.validatePrerequisites host prefs tr
             = (Returned cv, (tr ++ [Spawn sysctlV2])%list)
    /\ cv !! "status" = Some (VStr "success")
    /\ cv !! "os" = Some (VStr "darwin")
    /\ cv !! "m1ddcPath" = Some (VStr (Revised.m1ddcPath prefs))
    /\ cv !! "displayPortValue" = Some (VStr (Revised.displayPortValue prefs))
    /\ cv !! "monitorId" = Some (VStr (Revised.monitorId prefs)).
Proof.
  intros Hos Hgen Hblank Hexists.
  destruct (validateHostPlatform_darwin host tr Hos) as (pv & Hpv & Hst & Hpos & _).
  destruct (validatePreferences_result host prefs pv (tr ++ [Spawn sysctlV2])%list)
    as (o & Ho & _ & Hshape).
  rewrite Hpos in Hshape. simpl in Hshape. rewrite Hblank, Hexists in Hshape.
  specialize (Hshape eq_refl). subst o.
  unfold Revised.validatePrerequisites, bind. rewrite Hpv, Hst.
  assert (Hnf : bool_decide
                  (Some (VStr match chipGenOf (run host tr sysctlV2) with
                              | intel => "failure" | m1 => "soft-fail" | _ => "success"
                              end) = Some (VStr "failure")) = false).
  { destruct (chipGenOf (run host tr sysctlV2)); first [reflexivity | contradiction]. }
  rewrite Hnf. simpl. rewrite Ho.
  eexists. split; [reflexivity|].
  rewrite !lookup_spread_spread, Hpos. vm_compute. repeat split.
Qed.

(** The command line that the toggle command dispatches, read off the
    validation object. *)
Lemma afterValidation_proceeds host (cv : object) tr :
  cv !! "status" <> Some (VStr "failure") ->
  let onDarwin := bool_decide (cv !! "os" = Some (VStr "darwin")) in
  let exePath :=
    toStr (if onDarwin then cv !! "m1ddcPath" else cv !! "controlMyMonitorPath") in
  let input :=
    parseInt (toStr (if onDarwin then cv !! "displayPortValue"
                     else cv !! "hdmiPortValue")) in
  let monitor :=
    if truthy (cv !! "monitorId") then toStr (cv !! "monitorId") else "Primary" in
  let c := if onDarwin
           then (DQ +:+ exePath +:+ DQ) +:+ " set input " +:+ numberToString input
           else windowsSetValue exePath monitor input in
  exists tr', Revised.afterValidation host cv tr = (Returned tt, tr')
    /\ spawned tr' = (spawned tr ++ [c])%list.
Proof.
  intros Hst onDarwin exePath input monitor c.
  unfold Revised.afterValidation.
  rewrite (bool_decide_eq_false_2 _ Hst).
  fold onDarwin.
  replace (toStr (if onDarwin then cv !! "m1ddcPath" else cv !! "controlMyMonitorPath"))
    with exePath by reflexivity.
  replace (if onDarwin
           then parseInt (toStr (cv !! "displayPortValue"))
           else parseInt (toStr (cv !! "hdmiPortValue")))
    with input by (unfold input; destruct onDarwin; reflexivity).
  fold monitor.
  unfold bind, emit.
  destruct (Revised_switchInput_status host (cv !! "os") input monitor exePath
              (((tr ++ [CloseMainWindow]) ++
                [ShowToast StyleAnimated "Switching!"
                   ("To input " +:+ numberToString input +:+ " via " +:+ exePath)]) ++
               [Sleep 3000])%list) as (o & -> & _).
  fold onDarwin. fold c.
  destruct (bool_decide (o !! "status" = Some (VStr "success")));
    eexists; (split; [reflexivity|]);
    rewrite !spawned_app; simpl; rewrite !app_nil_r; reflexivity.
Qed.

(** With the status [failure] the command shows the failure and stops:
    nothing is spawned. *)
Lemma afterValidation_blocks host (cv : object) tr :
  cv !! "status" = Some (VStr "failure") ->
  Revised.afterValidation host cv tr
  = (Returned tt,
     (tr ++ [ShowToast StyleFailure (toStr (cv !! "title")) (toStr (cv !! "message"))])%list).
Proof.
  intros Hst. unfold Revised.afterValidation.
  rewrite (bool_decide_eq_true_2 _ Hst). reflexivity.
Qed.

Lemma Command_dispatches_on_darwin host prefs tr :
  platform host = "darwin" ->
  chipGenOf (run host tr sysctlV2) <> intel ->
  (String.eqb (Revised.m1ddcPath prefs) EmptyString
   || String.eqb (trim (Revised.m1ddcPath prefs)) EmptyString)%bool = false ->
  existsSync host (Revised.m1ddcPath prefs) = true ->
  exists tr', Revised.Command host prefs tr = (Returned tt, tr')
    /\ spawned tr'
       = (spawned tr
          ++ [ sysctlV2;
               (DQ +:+ Revised.m1ddcPath prefs +:+ DQ) +:+ " set input "
               +:+ numberToString (parseInt (Revised.displayPortValue prefs)) ])%list.
Proof.
  intros Hos Hgen Hblank Hexists.
  destruct (validatePrerequisites_darwin_ready host prefs tr Hos Hgen Hblank Hexists)
    as (cv & Hcv & Hst & Hcos & Hpath & Hdp & _).
  unfold Revised.Command, bind. rewrite Hcv.
  assert (Hnf : cv !! "status" <> Some (VStr "failure")) by (rewrite Hst; discriminate).
  destruct (afterValidation_proceeds host cv (tr ++ [Spawn sysctlV2])%list Hnf)
    as (tr' & Hrun & Hsp).
  exists tr'. split; [exact Hrun|].
  rewrite Hsp, spawned_app, Hcos, Hpath, Hdp. simpl.
  rewrite <- app_assoc. reflexivity.
Qed.






(** ** Unknown generation *)

(** The first generation's [validatePrerequisites] on macOS: it blocks on a
    chip classified as Intel; otherwise it is ready exactly when the
    [which m1ddc] call exits with status 0. *)
Lemma Legacy_validatePrerequisites_darwin host path tr :
  platform host = "darwin" ->
  let g := chipGenOf (run host tr sysctlV1) in
  let tr1 := (tr ++ [Spawn sysctlV1])%list in
  exists r tr', Legacy.validatePrerequisites host path tr = (Returned r, tr')
    /\ (g = intel -> r <> None /\ tr' = tr1)
    /\ (g <> intel ->
        (r = None <-> exitedZero host tr1 "which m1ddc")
        /\ spawned tr' = (spawned tr ++ [sysctlV1; "which m1ddc"])%list).
Proof.
  intros Hos g tr1. unfold Legacy.validatePrerequisites, bind.
  rewrite (Legacy_detectPlatform_darwin host tr Hos). fold g. fold tr1. simpl.
  destruct (bool_decide_reflect (g = intel)) as [Hg|Hg].
  - eexists. eexists. split; [reflexivity|]. split; [|contradiction].
    intros _. split; [discriminate | reflexivity].
  - unfold Legacy.isM1ddcInstalled, bind.
    run_exec host tr1; simpl;
      repeat match goal with |- context [bool_decide ?P] => destruct (bool_decide P) end;
      simpl; eexists; eexists; (split; [reflexivity|]);
      (split; [intros; contradiction|]); intros _;
      (split;
       [ split;
         [ let H := fresh in intros H; first [discriminate H | eauto]
         | let H := fresh in intros (? & ? & H); first [reflexivity | congruence] ]
       | unfold tr1; rewrite !spawned_app; simpl; rewrite ?app_nil_r, <- ?app_assoc;
         reflexivity ]).
Qed.

(** With the generation not Intel and [which m1ddc] succeeding, the first
    generation's [switchInput] reaches the dispatch. *)
Lemma Legacy_switchInput_dispatches host v path m tr :
  platform host = "darwin" ->
  chipGenOf (run host tr sysctlV1) <> intel ->
  exitedZero host (tr ++ [Spawn sysctlV1])%list "which m1ddc" ->
  exists r tr', Legacy.switchInput host v path m tr = (Returned r, tr')
    /\ spawned tr'
       = (spawned tr ++ [ sysctlV1; "which m1ddc"; sysctlV1;
                          "m1ddc set input " +:+ numberToString v ])%list.
Proof.
  intros Hos Hgen Hwhich.
  destruct (Legacy_validatePrerequisites_darwin host path tr Hos)
    as (r0 & tr0 & Hv & _ & Hready).
  destruct (Hready Hgen) as [Hnone Hsp0].
  apply Hnone in Hwhich. subst r0.
  unfold Legacy.switchInput, bind. rewrite Hv.
  rewrite (Legacy_detectPlatform_darwin host tr0 Hos). simpl.
  destruct (Legacy_mac_success host v (tr0 ++ [Spawn sysctlV1])%list) as (r & Hr & _).
  rewrite Hr. exists r. eexists. split; [reflexivity|].
  rewrite !spawned_app, Hsp0. simpl. rewrite <- !app_assoc. reflexivity.
Qed.

(** C10.  On macOS [isAppleSilicon] is computed as "the generation is not
    Intel", so a generation [unknown] (the sysctl call failed) counts as
    Apple Silicon.  Platform validation blocks exactly when the generation
    is Intel; the first generation's validation blocks on Intel and is
    otherwise ready exactly when [which m1ddc] succeeds.  With the
    generation [unknown] validation is ready and both generations reach the
    dispatch. *)
Theorem unknown_generation_is_apple_silicon (host : Host)
    (prefs : Revised.Preferences) (v : number) (path : option string) (m : string)
    (tr : list event) (e : string) :
  platform host = "darwin" ->
  (exists info tr', Legacy.detectPlatform host tr = (Returned info, tr')
     /\ Legacy.isAppleSilicon info = negb (bool_decide (Legacy.appleChipGen info = intel))
     /\ (execFails host tr sysctlV1 e ->
         Legacy.appleChipGen info = unknown /\ Legacy.isAppleSilicon info = true))
  /\ (exists info tr', Revised.detectPlatform host tr = (Returned info, tr')
        /\ Revised.isAppleSilicon info
           = negb (bool_decide (Revised.appleChipGen info = intel))
        /\ (execFails host tr sysctlV2 e ->
            Revised.appleChipGen info = unknown /\ Revised.isAppleSilicon info = true))
  /\ (exists pv tr', Revised.validateHostPlatform host tr = (Returned pv, tr')
        /\ (pv !! "status" = Some (VStr "failure")
            <-> pv !! "appleChipGen" = Some (VStr "intel"))
        /\ (execFails host tr sysctlV2 e ->
            pv !! "status" = Some (VStr "success")
            /\ pv !! "appleChipGen" = Some (VStr "unknown")
            /\ pv !! "isAppleSilicon" = Some (VBool true)))
  /\ (exists r tr', Legacy.validatePrerequisites host path tr = (Returned r, tr')
        /\ (chipGenOf (run host tr sysctlV1) = intel -> r <> None)
        /\ (chipGenOf (run host tr sysctlV1) <> intel ->
            (r = None <-> exitedZero host (tr ++ [Spawn sysctlV1])%list "which m1ddc")))
  /\ (execFails host tr sysctlV2 e ->
      (String.eqb (Revised.m1ddcPath prefs) EmptyString
       || String.eqb (trim (Revised.m1ddcPath prefs)) EmptyString)%bool = false ->
      existsSync host (Revised.m1ddcPath prefs) = true ->
      (exists cv tr', Revised.validatePrerequisites host prefs tr = (Returned cv, tr')
         /\ cv !! "status" = Some (VStr "success"))
      /\ exists tr', Revised.Command host prefs tr = (Returned tt, tr')
           /\ spawned tr'
              = (spawned tr
                 ++ [ sysctlV2;
                      (DQ +:+ Revised.m1ddcPath prefs +:+ DQ) +:+ " set input "
                      +:+ numberToString (parseInt (Revised.displayPortValue prefs)) ])%list)
  /\ (execFails host tr sysctlV1 e ->
      exitedZero host (tr ++ [Spawn sysctlV1])%list "which m1ddc" ->
      (exists tr', Legacy.validatePrerequisites host path tr = (Returned None, tr'))
      /\ exists r tr', Legacy.switchInput host v path m tr = (Returned r, tr')
           /\ spawned tr'
              = (spawned tr ++ [ sysctlV1; "which m1ddc"; sysctlV1;
                                 "m1ddc set input " +:+ numberToString v ])%list).
Proof.
  intros Hos. split; [|split; [|split; [|split; [|split]]]].
  - rewrite (Legacy_detectPlatform_darwin host tr Hos).
    eexists. eexists. split; [reflexivity|]. simpl. split; [reflexivity|].
    intros He. rewrite (chipGenOf_fails _ _ _ _ He). split; reflexivity.
  - rewrite (Revised_detectPlatform_darwin host tr Hos).
    eexists. eexists. split; [reflexivity|]. simpl. split; [reflexivity|].
    intros He. rewrite (chipGenOf_fails _ _ _ _ He). split; reflexivity.
  - destruct (validateHostPlatform_darwin host tr Hos) as (pv & Hpv & Hst & _ & Hgen & Hsil).
    exists pv. eexists. split; [exact Hpv|]. split.
    + rewrite Hst, Hgen.
      destruct (chipGenOf (run host tr sysctlV2)); simpl; split; congruence.
    + intros He. rewrite (chipGenOf_fails _ _ _ _ He) in Hst, Hgen, Hsil.
      split; [exact Hst|]. split; [exact Hgen | exact Hsil].
  - destruct (Legacy_validatePrerequisites_darwin host path tr Hos)
      as (r & tr' & Hv & Hintel & Hother).
    exists r, tr'. split; [exact Hv|]. split.
    + intros Hg. apply (Hintel Hg).
    + intros Hg. apply (Hother Hg).
  - intros He Hblank Hexists.
    assert (Hgen : chipGenOf (run host tr sysctlV2) <> intel)
      by (rewrite (chipGenOf_fails _ _ _ _ He); discriminate).
    split.
    + destruct (validatePrerequisites_darwin_ready host prefs tr Hos Hgen Hblank Hexists)
        as (cv & Hcv & Hst & _).
      exists cv. eexists. split; [exact Hcv | exact Hst].
    + apply Command_dispatches_on_darwin; assumption.
  - intros He Hwhich.
    assert (Hgen : chipGenOf (run host tr sysctlV1) <> intel)
      by (rewrite (chipGenOf_fails _ _ _ _ He); discriminate).
    split.
    + destruct (Legacy_validatePrerequisites_darwin host path tr Hos)
        as (r & tr' & Hv & _ & Hother).
      destruct (Hother Hgen) as [Hnone _]. apply Hnone in Hwhich. subst r.
      exists tr'. exact Hv.
    + apply Legacy_switchInput_dispatches; assumption.
Qed.

Lemma unknown_generation_is_apple_silicon_witness :
  let host := macHostNoSysctl in
  let intelMac := macHost "Intel(R) Core(TM) i7-9750H CPU @ 2.60GHz" in
  let prefs := macPrefs "15" "17" in
  (platform host = "darwin"
   /\ execFails host [] sysctlV2 "spawnSync /bin/sh ETIMEDOUT"
   /\ existsSync host (Revised.m1ddcPath prefs) = true)
  /\ (exists info tr', Revised.detectPlatform host [] = (Returned info, tr')
        /\ Revised.appleChipGen info = unknown /\ Revised.isAppleSilicon info = true)
  /\ (exists tr', Revised.Command host prefs [] = (Returned tt, tr')
        /\ spawned tr'
           = [ sysctlV2; (DQ +:+ "/opt/homebrew/bin/m1ddc" +:+ DQ) +:+ " set input 15" ])
  /\ (execFails host [] sysctlV1 "spawnSync /bin/sh ETIMEDOUT"
      /\ exitedZero host [Spawn sysctlV1] "which m1ddc"
      /\ (exists tr', Legacy.validatePrerequisites host None [] = (Returned None, tr'))
      /\ exists r tr', Legacy.switchInput host (Num 15) None "Primary" [] = (Returned r, tr')
           /\ spawned tr' = [ sysctlV1; "which m1ddc"; sysctlV1; "m1ddc set input 15" ])
  /\ (platform intelMac = "darwin"
      /\ chipGenOf (run intelMac [] sysctlV1) = intel
      /\ exists r tr', Legacy.validatePrerequisites intelMac None [] = (Returned r, tr')
           /\ r <> None).
Proof.
  intros host intelMac prefs.
  assert (He2 : execFails host [] sysctlV2 "spawnSync /bin/sh ETIMEDOUT") by exec_fails.
  assert (He1 : execFails host [] sysctlV1 "spawnSync /bin/sh ETIMEDOUT") by exec_fails.
  assert (Hwhich : exitedZero host [Spawn sysctlV1] "which m1ddc")
    by (do 2 eexists; reflexivity).
  destruct (unknown_generation_is_apple_silicon host prefs (Num 15) None "Primary" []
              "spawnSync /bin/sh ETIMEDOUT" eq_refl)
    as (_ & (info & tr1 & Hinfo & _ & Hunknown) & _ & _ & Hcommand & Hlegacy).
  split; [split; [reflexivity | split; [exact He2 | reflexivity]]|].
  split; [|split; [|split]].
  - exists info, tr1. split; [exact Hinfo | exact (Hunknown He2)].
  - destruct (Hcommand He2 eq_refl eq_refl) as (_ & tr' & Hrun & Hsp).
    exists tr'. split; [exact Hrun | exact Hsp].
  - split; [exact He1|]. split; [exact Hwhich|]. exact (Hlegacy He1 Hwhich).
  - split; [reflexivity|]. split; [reflexivity|].
    destruct (unknown_generation_is_apple_silicon intelMac prefs (Num 15) None "Primary" []
                EmptyString eq_refl)
      as (_ & _ & _ & (r & tr' & Hv & Hintel & _) & _).
    exists r, tr'. split; [exact Hv | exact (Hintel eq_refl)].
Defined.

(** ** Input codes that do not parse *)

(** The first generation's command does reject an HDMI value that does not
    parse: it shows the failure and spawns nothing. *)
Lemma Legacy_Command_rejects_NaN host (prefs : Legacy.Preferences) tr :
  parseInt (Legacy.hdmiValue prefs) = NaN ->
  Legacy.Command host prefs tr
  = (Returned tt,
     (tr ++ [ShowToast StyleFailure "Invalid HDMI value"
               (DQ +:+ Legacy.hdmiValue prefs +:+ DQ +:+ " is not a valid number")])%list).
Proof. intros H. unfold Legacy.Command. rewrite H. reflexivity. Qed.

(** C2, the code at a failing input.  On a Mac with an M2 chip and the tool
    present, the DisplayPort input code is the text [abc], which [parseInt]
    maps to [NaN].  The callback inside [forEach] builds the failure record
    but its [return] only leaves the callback: [validatePreferences], and so
    the combined validation, still returns the status [success], and the
    toggle command hands [set input NaN] to [execSync]. *)
Theorem unparsable_input_code_is_dispatched :
  let host := macHost "Apple M2" in
  let prefs := macPrefs "abc" "17" in
  parseInt (Revised.displayPortValue prefs) = NaN
  /\ (exists cv tr, Revised.validatePrerequisites host prefs [] = (Returned cv, tr)
        /\ cv !! "status" = Some (VStr "success"))
  /\ (exists tr', Revised.Command host prefs [] = (Returned tt, tr')
        /\ spawned tr'
           = [ sysctlV2; (DQ +:+ "/opt/homebrew/bin/m1ddc" +:+ DQ) +:+ " set input NaN" ]).
Proof.
  intros host prefs.
  assert (Hgen : chipGenOf (run host [] sysctlV2) <> intel) by (vm_compute; discriminate).
  split; [reflexivity|]. split.
  - destruct (validatePrerequisites_darwin_ready host prefs [] eq_refl Hgen eq_refl eq_refl)
      as (cv & Hcv & Hst & _).
    exists cv. eexists. split; [exact Hcv | exact Hst].
  - destruct (Command_dispatches_on_darwin host prefs [] eq_refl Hgen eq_refl eq_refl)
      as (tr' & Hrun & Hsp).
    exists tr'. split; [exact Hrun | exact Hsp].
Qed.

(** ** Discovery, second generation *)

(** The second generation of ddc.ts behaves in the same way; only the
    command lines differ (the tool path is quoted on macOS too). *)
Lemma Revised_discovery_secondary_query_fails (host : Host) (exePath m : string)
    (tr : list event) (out msg1 : string) :
  let quoted := DQ +:+ exePath +:+ DQ in
  let smonitors := quoted +:+ " /smonitors" in
  let getValue := quoted +:+ " /GetValue " +:+ DQ +:+ m +:+ DQ +:+ " 60" in
  let getInput := quoted +:+ " get input" in
  let displayList := quoted +:+ " display list" in
  (run host tr smonitors = Exited 0 out msg1 ->
   forall e, execFails host (tr ++ [Spawn smonitors])%list getValue e ->
     exists r, fst (Revised.discoverInputsWindows host exePath m tr) = Returned r
       /\ Revised.d_success r = true /\ Revised.currentValue r = None
       /\ Revised.error r = None)
  /\ (run host tr getInput = Exited 0 out msg1 ->
      forall e, execFails host (tr ++ [Spawn getInput])%list displayList e ->
        exists r info, fst (Revised.discoverInputsMacOS host exePath tr) = Returned r
          /\ Revised.d_success r = true /\ Revised.error r = None
          /\ Revised.currentValue r
             = (if isNaN (parseInt (trim out)) then None else Some (parseInt (trim out)))
          /\ Revised.availableInfo r = Some info
          /\ includes info "(Could not retrieve display list)" = true).
Proof.
  intros quoted smonitors getValue getInput displayList. split.
  - intros H1 e H2. unfold Revised.discoverInputsWindows, tryCatch, bind.
    fold quoted. fold smonitors. rewrite (execSync_exitedZero _ _ _ _ _ H1).
    change (_ +:+ " /GetValue " +:+ _) with getValue.
    rewrite (execSync_fails _ _ _ _ H2). simpl.
    eexists. repeat split.
  - intros H1 e H2. unfold Revised.discoverInputsMacOS, tryCatch, bind.
    fold quoted. fold getInput. rewrite (execSync_exitedZero _ _ _ _ _ H1).
    fold displayList. rewrite (execSync_fails _ _ _ _ H2). simpl.
    eexists. eexists. split; [reflexivity|]. simpl.
    split; [reflexivity|]. split; [reflexivity|]. split; [reflexivity|].
    split; [reflexivity|].
    find_piece.
Qed.

(** ** The JavaScript helpers on examples *)

Example parseInt_examples :
  parseInt "15" = Num 15
  /\ parseInt " 17abc" = Num 17
  /\ parseInt "-5" = Num (-5)
  /\ parseInt "+7" = Num 7
  /\ parseInt "abc" = NaN
  /\ parseInt EmptyString = NaN
  /\ parseInt "0x1F" = Num 0.
Proof. repeat split. Qed.

Example trim_examples :
  trim ("  Apple M1 Pro" +:+ LF) = "Apple M1 Pro"
  /\ trim "   " = EmptyString
  /\ toLowerCase "Apple M1" = "apple m1".
Proof. repeat split. Qed.

(** White space beyond ASCII: U+00A0, U+FEFF and U+2028 are stripped by
    [trim] and skipped by [parseInt]; U+00A1 is not white space. *)
Example unicode_white_space_examples :
  let nbsp := String (ascii_of_nat 194) (String (ascii_of_nat 160) EmptyString) in
  let bom :=
    String (ascii_of_nat 239) (String (ascii_of_nat 187)
      (String (ascii_of_nat 191) EmptyString)) in
  let lineSeparator :=
    String (ascii_of_nat 226) (String (ascii_of_nat 128)
      (String (ascii_of_nat 168) EmptyString)) in
  let invertedMark := String (ascii_of_nat 194) (String (ascii_of_nat 161) EmptyString) in
  trim nbsp = EmptyString
  /\ trim (nbsp +:+ " C:/Tools/x.exe" +:+ lineSeparator +:+ bom) = "C:/Tools/x.exe"
  /\ trim invertedMark = invertedMark
  /\ parseInt (nbsp +:+ "15") = Num 15
  /\ parseInt (bom +:+ " -17") = Num (-17)
  /\ parseInt (invertedMark +:+ "15") = NaN.
Proof. repeat split. Qed.

(** Numbers are doubles: from 2^53 on an integer is rounded, the text has
    the fewest digits that read back as the same double, and from 10^21 on
    it is in exponent notation. *)
Example numberToString_examples :
  numberToString (Num 17) = "17"
  /\ numberToString (Num (-5)) = "-5"
  /\ numberToString (Num 0) = "0"
  /\ numberToString (Num 9007199254740991) = "9007199254740991"
  /\ numberToString (Num 9007199254740993) = "9007199254740992"
  /\ numberToString (Num 9007199254740995) = "9007199254740996"
  /\ numberToString (Num (2 ^ 60)) = "1152921504606847000"
  /\ numberToString (Num (10 ^ 21)) = "1e+21"
  /\ numberToString (Num (10 ^ 23)) = "1e+23"
  /\ numberToString (Num (- 123456789012345678901234567890)) = "-1.2345678901234568e+29"
  /\ numberToString (Num (2 ^ 1024)) = "Infinity"
  /\ numberToString (parseInt "9007199254740993") = "9007199254740992".
Proof. vm_compute. repeat split. Qed.

Example matchAppleM_examples :
  matchAppleM "Apple M1 Pro" = Some "1"
  /\ matchAppleM "apple m12" = Some "12"
  /\ matchAppleM "Apple Mx Apple M3" = Some "3"
  /\ matchAppleM "Apple Silicon" = None.
Proof. repeat split. Qed.

Example literal_later_entry_wins :
  literal [ Spread (literal [ Field "status" (VStr "soft-fail");
                              Field "os" (VStr "darwin") ]);
            Spread (literal [ Field "status" (VStr "success") ]) ] !! "status"
  = Some (VStr "success")
  /\ literal [ Spread (literal [ Field "status" (VStr "soft-fail");
                                 Field "os" (VStr "darwin") ]);
               Spread (literal [ Field "status" (VStr "success") ]) ] !! "os"
     = Some (VStr "darwin").
Proof. vm_compute. repeat split. Qed.

(** The sign of an input code is checked nowhere: a negative code parses and
    is handed to the tool, here by the first generation's command on
    Windows. *)
Example negative_input_code_is_accepted :
  let host := scriptedHost "win32" [] (Exited 0 EmptyString EmptyString) [] in
  let prefs :=
    {| Legacy.displayportValue := "15"; Legacy.hdmiValue := "-5";
       Legacy.controlMyMonitorPath := "C:/Tools/ControlMyMonitor.exe";
       Legacy.monitorId := EmptyString |} in
  spawned (snd (Legacy.Command host prefs []))
  = [ (DQ +:+ "C:/Tools/ControlMyMonitor.exe" +:+ DQ) +:+ " /SetValue " +:+ DQ
      +:+ "Primary" +:+ DQ +:+ " 60 -5" ].
Proof. vm_compute. reflexivity. Qed.

(** White space beyond ASCII in the preferences, on Windows: a tool path
    that is a non-breaking space is a blank path for both generations, and
    an input code after a non-breaking space is read. *)
Example non_breaking_space_in_preferences :
  let host := scriptedHost "win32" [] (Exited 0 EmptyString EmptyString) [] in
  let nbsp := String (ascii_of_nat 194) (String (ascii_of_nat 160) EmptyString) in
  fst (Legacy.validatePrerequisites host (Some nbsp) [])
  = Returned (Some ("ControlMyMonitor path not configured. "
                    +:+ "Download from https://www.nirsoft.net/utils/controlmymonitor.zip "
                    +:+ "and set the path in extension preferences."))
  /\ Revised.Command host
       {| Revised.displayPortValue := "15"; Revised.hdmiValue := "17";
          Revised.controlMyMonitorPath := nbsp; Revised.m1ddcPath := EmptyString;
          Revised.monitorId := EmptyString |} []
     = (Returned tt,
        [ShowToast StyleFailure "ControlMyMonitor.exe path not configured"
           ("Path to ControlMyMonitor.exe is empty/unset. "
            +:+ "Download from https://www.nirsoft.net/utils/controlmymonitor.zip and set the path in extension preferences.")])
  /\ spawned (snd (SwitchToDisplayPort.Command host
                     {| Legacy.displayportValue := nbsp +:+ "15";
                        Legacy.hdmiValue := "17";
                        Legacy.controlMyMonitorPath := "C:/Tools/ControlMyMonitor.exe";
                        Legacy.monitorId := EmptyString |} []))
     = [ windowsSetValue "C:/Tools/ControlMyMonitor.exe" "Primary" (Num 15) ].
Proof. vm_compute. repeat split. Qed.

(** * Further properties of the code *)

(** ** Platform records *)

Lemma Legacy_detectPlatform_win32 host tr :
  platform host = "win32" ->
  Legacy.detectPlatform host tr
  = (Returned {| Legacy.os := win32; Legacy.isAppleSilicon := false;
                 Legacy.appleChipGen := unknown;
                 Legacy.m1ddcSupportsBuiltinHdmi := false |}, tr).
Proof. intros Hos. unfold Legacy.detectPlatform. rewrite Hos. reflexivity. Qed.

Lemma Legacy_detectPlatform_unsupported host tr :
  platform host <> "win32" -> platform host <> "darwin" ->
  Legacy.detectPlatform host tr
  = (Returned {| Legacy.os := unsupported; Legacy.isAppleSilicon := false;
                 Legacy.appleChipGen := unknown;
                 Legacy.m1ddcSupportsBuiltinHdmi := false |}, tr).
Proof.
  intros Hw Hd. unfold Legacy.detectPlatform.
  destruct (String.eqb_spec (platform host) "win32"); [contradiction|].
  destruct (String.eqb_spec (platform host) "darwin"); [contradiction|].
  reflexivity.
Qed.

Lemma Revised_detectPlatform_win32 host tr :
  platform host = "win32" ->
  Revised.detectPlatform host tr
  = (Returned {| Revised.os := win32; Revised.isWin32 := true;
                 Revised.appleChipGen := unknown; Revised.isAppleSilicon := false;
                 Revised.m1ddcSupportsBuiltinHdmi := false |}, tr).
Proof. intros Hos. unfold Revised.detectPlatform. rewrite Hos. reflexivity. Qed.

Lemma Revised_detectPlatform_unsupported host tr :
  platform host <> "win32" -> platform host <> "darwin" ->
  Revised.detectPlatform host tr
  = (Returned {| Revised.os := unsupported; Revised.isWin32 := false;
                 Revised.appleChipGen := unknown; Revised.isAppleSilicon := false;
                 Revised.m1ddcSupportsBuiltinHdmi := false |}, tr).
Proof.
  intros Hw Hd. unfold Revised.detectPlatform.
  destruct (String.eqb_spec (platform host) "win32"); [contradiction|].
  destruct (String.eqb_spec (platform host) "darwin"); [contradiction|].
  reflexivity.
Qed.

(** Splits on the three kinds of host. *)
Lemma platform_cases host :
  platform host = "darwin"
  \/ platform host = "win32"
  \/ (platform host <> "win32" /\ platform host <> "darwin").
Proof.
  destruct (String.eqb_spec (platform host) "darwin"); [left; assumption|].
  destruct (String.eqb_spec (platform host) "win32"); [right; left; assumption|].
  right. right. split; assumption.
Qed.

(** X1.  Every [PlatformInfo] that [detectPlatform] returns, in either
    generation and on every host, is coherent: built-in HDMI support implies
    Apple Silicon, Apple Silicon implies macOS, a generation other than
    [unknown] implies macOS, and (second generation) [isWin32] is true
    exactly on Windows. *)
Theorem platform_info_is_coherent (host : Host) (tr : list event) :
  (exists info tr', Legacy.detectPlatform host tr = (Returned info, tr')
     /\ (Legacy.m1ddcSupportsBuiltinHdmi info = true -> Legacy.isAppleSilicon info = true)
     /\ (Legacy.isAppleSilicon info = true -> Legacy.os info = darwin)
     /\ (Legacy.appleChipGen info <> unknown -> Legacy.os info = darwin))
  /\ (exists info tr', Revised.detectPlatform host tr = (Returned info, tr')
        /\ (Revised.m1ddcSupportsBuiltinHdmi info = true -> Revised.isAppleSilicon info = true)
        /\ (Revised.isAppleSilicon info = true -> Revised.os info = darwin)
        /\ (Revised.appleChipGen info <> unknown -> Revised.os info = darwin)
        /\ (Revised.isWin32 info = true <-> Revised.os info = win32)).
Proof.
  destruct (platform_cases host) as [Hos|[Hos|[Hw Hd]]]; split.
  - rewrite (Legacy_detectPlatform_darwin host tr Hos).
    eexists. eexists. split; [reflexivity|]. simpl.
    destruct (chipGenOf (run host tr sysctlV1)); repeat split; discriminate.
  - rewrite (Revised_detectPlatform_darwin host tr Hos).
    eexists. eexists. split; [reflexivity|]. simpl.
    destruct (chipGenOf (run host tr sysctlV2)); repeat split; discriminate.
  - rewrite (Legacy_detectPlatform_win32 host tr Hos).
    eexists. eexists. split; [reflexivity|]. simpl.
    repeat split; first [discriminate | contradiction].
  - rewrite (Revised_detectPlatform_win32 host tr Hos).
    eexists. eexists. split; [reflexivity|]. simpl.
    repeat split; first [discriminate | contradiction].
  - rewrite (Legacy_detectPlatform_unsupported host tr Hw Hd).
    eexists. eexists. split; [reflexivity|]. simpl.
    repeat split; first [discriminate | contradiction].
  - rewrite (Revised_detectPlatform_unsupported host tr Hw Hd).
    eexists. eexists. split; [reflexivity|]. simpl.
    repeat split; first [discriminate | contradiction].
Qed.

(** ** Classification, read backwards *)

Lemma chipGenOf_intel (outcome : ProcOutcome) :
  chipGenOf outcome = intel
  <-> exists out msg, outcome = Exited 0 out msg
        /\ includes (toLowerCase (trim out)) "intel" = true.
Proof.
  unfold chipGenOf. split.
  - destruct outcome as [status out msg|msg]; [|discriminate].
    destruct (Z.eqb_spec status 0) as [->|]; [|discriminate].
    intros H. exists out, msg. split; [reflexivity|].
    destruct (includes (toLowerCase (trim out)) "intel") eqn:E; [reflexivity|].
    unfold classifyBrandString in H. rewrite E in H.
    destruct (matchAppleM (trim out)); [destruct (geq _ _); discriminate|].
    destruct (includes _ "apple"); discriminate.
  - intros (out & msg & -> & H). simpl.
    apply classifyBrandString_cases. exact H.
Qed.

(** X2.  The generation determines what the brand string looked like:
    [intel] exactly when it contains [intel] (in any letter case);
    [unknown] exactly when it contains neither [intel] nor [apple];
    [m1] exactly when it has no [intel] and the number at the leftmost
    [Apple M<N>] is below 2 (so [Apple M0] is an M1 too);
    [m2_or_later] in the remaining cases, all of which contain [apple]. *)
Theorem generation_determines_brand_string (b : string) :
  let lower := toLowerCase b in
  (classifyBrandString b = intel <-> includes lower "intel" = true)
  /\ (classifyBrandString b = unknown
      <-> includes lower "intel" = false /\ includes lower "apple" = false)
  /\ (classifyBrandString b = m1
      <-> includes lower "intel" = false
          /\ exists ds n, LeftmostAppleM b ds /\ parseInt ds = Num n /\ 0 <= n < 2)
  /\ (classifyBrandString b = m2_or_later ->
      includes lower "intel" = false /\ includes lower "apple" = true).
Proof.
  intros lower. unfold classifyBrandString. fold lower.
  destruct (includes lower "intel") eqn:Hi.
  { split; [split; auto|]. split; [split; [discriminate | intros [H _]; discriminate H]|].
    split; [split; [discriminate | intros [H _]; discriminate H] | discriminate]. }
  destruct (matchAppleM b) as [ds|] eqn:Hm.
  - destruct (matchAppleM_digits _ _ Hm) as [Hne Hall].
    destruct (parseInt_digits ds Hne Hall) as [Hp Hpos].
    pose proof (matchAppleM_includes_apple _ _ Hm) as Ha. fold lower in Ha.
    rewrite Hp. simpl.
    destruct (Z.leb_spec 2 (digitsValue 0 ds)) as [Hge|Hlt].
    + split; [split; discriminate|].
      split; [split; [discriminate | intros [_ H]; congruence]|].
      split; [|intros _; split; [reflexivity | exact Ha]].
      split; [discriminate|].
      intros (_ & ds' & n & Hl & Hn & Hrange).
      apply matchAppleM_spec in Hl. rewrite Hm in Hl. injection Hl as <-.
      rewrite Hp in Hn. injection Hn as <-. lia.
    + split; [split; discriminate|].
      split; [split; [discriminate | intros [_ H]; congruence]|].
      split; [|discriminate].
      split; [|reflexivity].
      intros _. split; [reflexivity|].
      exists ds, (digitsValue 0 ds). split; [apply matchAppleM_spec; exact Hm|].
      split; [exact Hp | lia].
  - assert (Hnone : ~ exists ds n, LeftmostAppleM b ds /\ parseInt ds = Num n /\ 0 <= n < 2).
    { intros (ds & n & Hl & _). apply matchAppleM_spec in Hl. congruence. }
    destruct (includes lower "apple") eqn:Ha.
    + split; [split; discriminate|].
      split; [split; [discriminate | intros [_ H]; discriminate H]|].
      split; [split; [discriminate | intros [_ H]; contradiction]|].
      intros _. split; reflexivity.
    + split; [split; discriminate|].
      split; [split; [intros _; split; reflexivity | reflexivity]|].
      split; [split; [discriminate | intros [_ H]; contradiction] | discriminate].
Qed.

(** X3.  On macOS the second generation's platform validation fails only on
    positive evidence: its status is [failure] exactly when the sysctl call
    exited with status 0 and printed text that contains [intel] (in any
    letter case).  A failed call, or any other text, never blocks. *)
Theorem platform_failure_needs_intel_evidence (host : Host) (tr : list event) :
  platform host = "darwin" ->
  exists pv, Revised.validateHostPlatform host tr
             = (Returned pv, (tr ++ [Spawn sysctlV2])%list)
    /\ (pv !! "status" = Some (VStr "failure")
        <-> exists out msg, run host tr sysctlV2 = Exited 0 out msg
              /\ includes (toLowerCase (trim out)) "intel" = true).
Proof.
  intros Hos.
  destruct (validateHostPlatform_darwin host tr Hos) as (pv & Hpv & Hst & _).
  exists pv. split; [exact Hpv|].
  rewrite <- chipGenOf_intel, Hst.
  destruct (chipGenOf (run host tr sysctlV2)); split; congruence.
Qed.

Lemma platform_failure_needs_intel_evidence_witness :
  let host := macHost "Intel(R) Core(TM) i7-9750H CPU @ 2.60GHz" in
  platform host = "darwin"
  /\ exists pv tr', Revised.validateHostPlatform host [] = (Returned pv, tr')
       /\ pv !! "status" = Some (VStr "failure").
Proof.
  intros host. split; [reflexivity|].
  destruct (platform_failure_needs_intel_evidence host [] eq_refl) as (pv & Hpv & Hiff).
  exists pv. eexists. split; [exact Hpv|].
  apply Hiff. do 2 eexists. split; reflexivity.
Defined.

(** ** First generation: prerequisites *)

(** X4.  On Windows the first generation's [validatePrerequisites] runs no
    child process.  Without a path, or with an empty or blank one, it
    returns the [path not configured] message; with a path that does not
    exist it returns a message that ends with that path; with an existing
    path it returns [null]. *)
Theorem windows_prerequisites (host : Host) (path : option string) (tr : list event) :
  platform host = "win32" ->
  let blank p := (String.eqb p EmptyString || String.eqb (trim p) EmptyString)%bool in
  let notConfigured :=
    "ControlMyMonitor path not configured. "
    +:+ "Download from https://www.nirsoft.net/utils/controlmymonitor.zip "
    +:+ "and set the path in extension preferences." in
  exists r, Legacy.validatePrerequisites host path tr = (Returned r, tr)
    /\ (path = None -> r = Some notConfigured)
    /\ (forall p, path = Some p -> blank p = true -> r = Some notConfigured)
    /\ (forall p, path = Some p -> blank p = false -> existsSync host p = false ->
        r = Some ("ControlMyMonitor not found at: " +:+ p)
        /\ includes ("ControlMyMonitor not found at: " +:+ p) p = true)
    /\ (forall p, path = Some p -> blank p = false -> existsSync host p = true ->
        r = None).
Proof.
  intros Hos blank notConfigured.
  unfold Legacy.validatePrerequisites, bind.
  rewrite (Legacy_detectPlatform_win32 host tr Hos). simpl.
  destruct path as [p|].
  - unfold Legacy.isControlMyMonitorInstalled. fold (blank p).
    destruct (blank p) eqn:Hb.
    + eexists. split; [reflexivity|]. split; [discriminate|].
      split; [intros ? [= <-] _; reflexivity|].
      split; intros ? [= <-]; congruence.
    + destruct (existsSync host p) eqn:He; simpl.
      * eexists. split; [reflexivity|]. split; [discriminate|].
        split; [intros ? [= <-]; congruence|].
        split; intros ? [= <-] _; [congruence | reflexivity].
      * eexists. split; [reflexivity|]. split; [discriminate|].
        split; [intros ? [= <-]; congruence|].
        split; intros ? [= <-] _; [|congruence].
        intros _. split; [reflexivity|].
        exact (includes_app_self "ControlMyMonitor not found at: " p).
  - eexists. split; [reflexivity|]. split; [reflexivity|].
    split; [discriminate|]. split; discriminate.
Qed.

Lemma windows_prerequisites_witness :
  let host :=
    scriptedHost "win32" [] (NotCompleted "not scripted") ["D:/gone/ControlMyMonitor.exe"] in
  platform host = "win32"
  /\ existsSync host "D:/gone/ControlMyMonitor.exe" = false
  /\ Legacy.validatePrerequisites host (Some "D:/gone/ControlMyMonitor.exe") []
     = (Returned (Some "ControlMyMonitor not found at: D:/gone/ControlMyMonitor.exe"), [])
  /\ Legacy.validatePrerequisites host (Some "C:/Tools/ControlMyMonitor.exe") []
     = (Returned None, [])
  /\ exists msg, Legacy.validatePrerequisites host (Some "   ") [] = (Returned (Some msg), []).
Proof.
  intros host. split; [reflexivity|]. split; [reflexivity|].
  split; [|split].
  - destruct (windows_prerequisites host (Some "D:/gone/ControlMyMonitor.exe") [] eq_refl)
      as (r & Hr & _ & _ & Hgone & _).
    destruct (Hgone _ eq_refl eq_refl eq_refl) as [-> _]. exact Hr.
  - destruct (windows_prerequisites host (Some "C:/Tools/ControlMyMonitor.exe") [] eq_refl)
      as (r & Hr & _ & _ & _ & Hok).
    rewrite (Hok _ eq_refl eq_refl eq_refl) in Hr. exact Hr.
  - destruct (windows_prerequisites host (Some "   ") [] eq_refl)
      as (r & Hr & _ & Hblank & _).
    rewrite (Hblank _ eq_refl eq_refl) in Hr. eexists. exact Hr.
Defined.

(** X5.  On macOS the first generation's [validatePrerequisites] asks sysctl
    first.  On an Intel chip it returns the Apple Silicon message without
    looking for the tool.  Otherwise it runs [which m1ddc]: if that fails it
    returns the [not installed] message; if it succeeds it returns [null],
    and logs the built-in HDMI warning exactly when the chip is an M1.  The
    warning never blocks. *)
Theorem macos_prerequisites (host : Host) (path : option string) (tr : list event) :
  platform host = "darwin" ->
  let g := chipGenOf (run host tr sysctlV1) in
  let tr1 := (tr ++ [Spawn sysctlV1])%list in
  let tr2 := (tr1 ++ [Spawn "which m1ddc"])%list in
  let warning :=
    Warn ("Note: m1ddc does not support M1's built-in HDMI port. "
          +:+ "External displays via USB-C/Thunderbolt adapters should work.") in
  (g = intel ->
   Legacy.validatePrerequisites host path tr
   = (Returned (Some "m1ddc requires Apple Silicon (M1 or later). Intel Macs are not supported."),
      tr1))
  /\ (g <> intel -> (forall e, execFails host tr1 "which m1ddc" e ->
        Legacy.validatePrerequisites host path tr
        = (Returned (Some "m1ddc is not installed. Install via: brew install m1ddc"), tr2)))
  /\ (g = m1 -> exitedZero host tr1 "which m1ddc" ->
      Legacy.validatePrerequisites host path tr = (Returned None, (tr2 ++ [warning])%list))
  /\ (g <> intel -> g <> m1 -> exitedZero host tr1 "which m1ddc" ->
      Legacy.validatePrerequisites host path tr = (Returned None, tr2)).
Proof.
  intros Hos g tr1 tr2 warning.
  unfold Legacy.validatePrerequisites, bind.
  rewrite (Legacy_detectPlatform_darwin host tr Hos). fold g. fold tr1. simpl.
  unfold Legacy.isM1ddcInstalled, tryCatch, bind.
  split; [|split; [|split]].
  - intros ->. reflexivity.
  - intros Hg e He. rewrite (bool_decide_eq_false_2 _ Hg).
    rewrite (execSync_fails _ _ _ _ He). reflexivity.
  - intros Hg (out & msg & Hrun). rewrite Hg. simpl.
    rewrite (execSync_exitedZero _ _ _ _ _ Hrun). reflexivity.
  - intros Hg Hg' (out & msg & Hrun).
    rewrite (bool_decide_eq_false_2 _ Hg), (bool_decide_eq_false_2 _ Hg').
    rewrite (execSync_exitedZero _ _ _ _ _ Hrun). reflexivity.
Qed.

Lemma macos_prerequisites_witness :
  let warning :=
    Warn ("Note: m1ddc does not support M1's built-in HDMI port. "
          +:+ "External displays via USB-C/Thunderbolt adapters should work.") in
  let noTool :=
    scriptedHost "darwin"
      [ ("sysctl", Exited 0 "Apple M2" EmptyString);
        ("which", Exited 1 EmptyString "Command failed: which m1ddc") ]
      (NotCompleted "not scripted") [] in
  (platform (macHost "Apple M1") = "darwin"
   /\ chipGenOf (run (macHost "Apple M1") [] sysctlV1) = m1
   /\ exitedZero (macHost "Apple M1") [Spawn sysctlV1] "which m1ddc"
   /\ Legacy.validatePrerequisites (macHost "Apple M1") None []
      = (Returned None, [Spawn sysctlV1; Spawn "which m1ddc"; warning]))
  /\ (chipGenOf (run (macHost "Intel Core i5") [] sysctlV1) = intel
      /\ exists msg, Legacy.validatePrerequisites (macHost "Intel Core i5") None []
                     = (Returned (Some msg), [Spawn sysctlV1]))
  /\ (execFails noTool [Spawn sysctlV1] "which m1ddc" "Command failed: which m1ddc"
      /\ Legacy.validatePrerequisites noTool None []
         = (Returned (Some "m1ddc is not installed. Install via: brew install m1ddc"),
            [Spawn sysctlV1; Spawn "which m1ddc"]))
  /\ (exitedZero (macHost "Apple M2") [Spawn sysctlV1] "which m1ddc"
      /\ Legacy.validatePrerequisites (macHost "Apple M2") None []
         = (Returned None, [Spawn sysctlV1; Spawn "which m1ddc"])).
Proof.
  intros warning noTool.
  assert (Hw1 : exitedZero (macHost "Apple M1") [Spawn sysctlV1] "which m1ddc")
    by (do 2 eexists; reflexivity).
  assert (Hw2 : exitedZero (macHost "Apple M2") [Spawn sysctlV1] "which m1ddc")
    by (do 2 eexists; reflexivity).
  assert (He : execFails noTool [Spawn sysctlV1] "which m1ddc" "Command failed: which m1ddc")
    by exec_fails.
  split; [|split; [|split]].
  - split; [reflexivity|]. split; [reflexivity|]. split; [exact Hw1|].
    destruct (macos_prerequisites (macHost "Apple M1") None [] eq_refl) as (_ & _ & Hm1 & _).
    exact (Hm1 eq_refl Hw1).
  - split; [reflexivity|].
    destruct (macos_prerequisites (macHost "Intel Core i5") None [] eq_refl) as (Hintel & _).
    eexists. exact (Hintel eq_refl).
  - split; [exact He|].
    destruct (macos_prerequisites noTool None [] eq_refl) as (_ & Hfail & _).
    refine (Hfail _ _ He). vm_compute. discriminate.
  - split; [exact Hw2|].
    destruct (macos_prerequisites (macHost "Apple M2") None [] eq_refl) as (_ & _ & _ & Hok).
    refine (Hok _ _ Hw2); vm_compute; discriminate.
Defined.

Lemma Legacy_validatePrerequisites_win32 host path tr :
  platform host = "win32" ->
  exists r, Legacy.validatePrerequisites host path tr = (Returned r, tr)
    /\ (r = None
        <-> exists p, path = Some p
              /\ (String.eqb p EmptyString || String.eqb (trim p) EmptyString)%bool = false
              /\ existsSync host p = true).
Proof.
  intros Hos. unfold Legacy.validatePrerequisites, bind.
  rewrite (Legacy_detectPlatform_win32 host tr Hos). simpl.
  destruct path as [p|].
  - unfold Legacy.isControlMyMonitorInstalled.
    destruct (String.eqb p EmptyString || String.eqb (trim p) EmptyString)%bool eqn:Hb.
    + eexists. split; [reflexivity|]. split; [discriminate|].
      intros (p' & [= <-] & Hb' & _). congruence.
    + destruct (existsSync host p) eqn:He; simpl; eexists; (split; [reflexivity|]).
      * split; [intros _; exists p; auto | reflexivity].
      * split; [discriminate|]. intros (p' & [= <-] & _ & He'). congruence.
  - eexists. split; [reflexivity|]. split; [discriminate|].
    intros (p' & Hp & _). discriminate Hp.
Qed.

Lemma Legacy_validatePrerequisites_unsupported host path tr :
  platform host <> "win32" -> platform host <> "darwin" ->
  Legacy.validatePrerequisites host path tr
  = (Returned (Some "This extension only supports macOS and Windows."), tr).
Proof.
  intros Hw Hd. unfold Legacy.validatePrerequisites, bind.
  rewrite (Legacy_detectPlatform_unsupported host tr Hw Hd). reflexivity.
Qed.

Lemma validateHostPlatform_unsupported host tr :
  platform host <> "win32" -> platform host <> "darwin" ->
  exists pv, Revised.validateHostPlatform host tr = (Returned pv, tr)
    /\ pv !! "status" = Some (VStr "failure")
    /\ pv !! "title" = Some (VStr "This extension only supports macOS and Windows.")
    /\ pv !! "message" = Some (VStr EmptyString)
    /\ pv !! "os" = Some (VStr "unsupported")
    /\ pv !! "displayPortValue" = None.
Proof.
  intros Hw Hd. unfold Revised.validateHostPlatform, bind.
  rewrite (Revised_detectPlatform_unsupported host tr Hw Hd). simpl.
  eexists. split; [reflexivity|]. vm_compute. repeat split.
Qed.

(** X6.  On a platform that is neither macOS nor Windows every entry point
    refuses and no child process is run: both validators return the
    [only supports macOS and Windows] failure, the first generation's
    [switchInput] and [discoverInputs] return a failure with that message,
    and the toggle command shows it as a failure toast without closing the
    main window. *)
Theorem unsupported_platform_is_refused (host : Host) (v : number)
    (path : option string) (m : string) (prefs : Revised.Preferences) (tr : list event) :
  platform host <> "win32" -> platform host <> "darwin" ->
  let refusal := "This extension only supports macOS and Windows." in
  Legacy.validatePrerequisites host path tr = (Returned (Some refusal), tr)
  /\ Legacy.switchInput host v path m tr
     = (Returned {| Legacy.success := false; Legacy.message := refusal;
                    Legacy.rawOutput := None |}, tr)
  /\ Legacy.discoverInputs host path m tr
     = (Returned {| Legacy.d_success := false; Legacy.currentValue := None;
                    Legacy.availableInfo := None; Legacy.error := Some refusal |}, tr)
  /\ (exists pv, Revised.validateHostPlatform host tr = (Returned pv, tr)
        /\ Revised.validatePrerequisites host prefs tr = (Returned pv, tr)
        /\ pv !! "status" = Some (VStr "failure")
        /\ pv !! "title" = Some (VStr refusal)
        /\ pv !! "displayPortValue" = None)
  /\ Revised.Command host prefs tr
     = (Returned tt, (tr ++ [ShowToast StyleFailure refusal EmptyString])%list).
Proof.
  intros Hw Hd refusal.
  pose proof (Legacy_validatePrerequisites_unsupported host path tr Hw Hd) as Hv.
  destruct (validateHostPlatform_unsupported host tr Hw Hd)
    as (pv & Hpv & Hst & Htitle & Hmsg & _ & Hdp).
  assert (Hcv : Revised.validatePrerequisites host prefs tr = (Returned pv, tr)).
  { unfold Revised.validatePrerequisites, bind. rewrite Hpv, Hst. reflexivity. }
  split; [exact Hv|]. split; [|split; [|split]].
  - unfold Legacy.switchInput, bind. rewrite Hv. reflexivity.
  - unfold Legacy.discoverInputs, bind. rewrite Hv. reflexivity.
  - exists pv. repeat split; assumption.
  - unfold Revised.Command, bind. rewrite Hcv.
    rewrite (afterValidation_blocks host pv tr Hst), Htitle, Hmsg. reflexivity.
Qed.

Lemma unsupported_platform_is_refused_witness :
  let host := scriptedHost "linux" [] (Exited 0 EmptyString EmptyString) [] in
  (platform host <> "win32" /\ platform host <> "darwin")
  /\ Revised.Command host (macPrefs "15" "17") []
     = (Returned tt,
        [ShowToast StyleFailure "This extension only supports macOS and Windows." EmptyString])
  /\ spawned (snd (Legacy.switchInput host (Num 17) None "Primary" [])) = [].
Proof.
  intros host.
  assert (Hw : platform host <> "win32") by discriminate.
  assert (Hd : platform host <> "darwin") by discriminate.
  split; [split; assumption|].
  destruct (unsupported_platform_is_refused host (Num 17) None "Primary"
              (macPrefs "15" "17") [] Hw Hd) as (_ & Hswitch & _ & _ & Hcommand).
  split; [exact Hcommand|]. rewrite Hswitch. reflexivity.
Defined.

(** ** First generation: [switchInput] and [discoverInputs] as a whole *)

Lemma Legacy_validatePrerequisites_returns host path tr :
  exists r tr', Legacy.validatePrerequisites host path tr = (Returned r, tr').
Proof.
  destruct (platform_cases host) as [Hos|[Hos|[Hw Hd]]].
  - destruct (Legacy_validatePrerequisites_darwin host path tr Hos) as (r & tr' & H & _).
    eauto.
  - destruct (Legacy_validatePrerequisites_win32 host path tr Hos) as (r & H & _). eauto.
  - rewrite (Legacy_validatePrerequisites_unsupported host path tr Hw Hd). eauto.
Qed.

(** X7.  The first generation's [switchInput] never throws.  When
    [validatePrerequisites] returns a message, the result is a failure with
    exactly that message and nothing more is run.  A success is returned
    only on macOS or Windows, after a last command that is the [set input]
    or [/SetValue] command line and that exited with status 0; on Windows
    the path is then a configured, existing one. *)
Theorem switchInput_is_gated (host : Host) (v : number) (path : option string)
    (m : string) (tr : list event) :
  exists r tr', Legacy.switchInput host v path m tr = (Returned r, tr')
    /\ (forall msg tr1,
          Legacy.validatePrerequisites host path tr = (Returned (Some msg), tr1) ->
          r = {| Legacy.success := false; Legacy.message := msg;
                 Legacy.rawOutput := None |}
          /\ tr' = tr1)
    /\ (Legacy.success r = true ->
        exists tr0 c, tr' = (tr0 ++ [Spawn c])%list /\ exitedZero host tr0 c
          /\ ((platform host = "darwin"
               /\ c = "m1ddc set input " +:+ numberToString v)
              \/ (platform host = "win32"
                  /\ exists p, path = Some p /\ existsSync host p = true
                       /\ c = windowsSetValue p m v))).
Proof.
  destruct (Legacy_validatePrerequisites_returns host path tr) as (r0 & tr1 & Hv).
  unfold Legacy.switchInput, bind. rewrite Hv.
  destruct r0 as [msg|].
  { eexists. eexists. split; [reflexivity|]. split.
    - intros msg' tr1' [= <- <-]. split; reflexivity.
    - discriminate. }
  destruct (platform_cases host) as [Hos|[Hos|[Hw Hd]]].
  - rewrite (Legacy_detectPlatform_darwin host tr1 Hos). simpl.
    destruct (Legacy_mac_success host v (tr1 ++ [Spawn sysctlV1])%list) as (r & Hr & Hiff).
    rewrite Hr. exists r. eexists. split; [reflexivity|]. split; [discriminate|].
    intros Hs. eexists. eexists. split; [reflexivity|].
    split; [apply Hiff; exact Hs|]. left. split; [exact Hos | reflexivity].
  - rewrite (Legacy_detectPlatform_win32 host tr1 Hos). simpl.
    destruct (Legacy_validatePrerequisites_win32 host path tr Hos) as (r0 & Hv' & Hnone).
    rewrite Hv in Hv'. injection Hv' as <- _.
    destruct Hnone as [Hnone _]. destruct (Hnone eq_refl) as (p & -> & _ & Hex).
    simpl.
    destruct (Legacy_win_success host v m p tr1) as (r & Hr & Hiff).
    rewrite Hr. exists r. eexists. split; [reflexivity|]. split; [discriminate|].
    intros Hs. eexists. eexists. split; [reflexivity|].
    split; [apply Hiff; exact Hs|]. right. split; [exact Hos|].
    exists p. repeat split. exact Hex.
  - rewrite (Legacy_validatePrerequisites_unsupported host path tr Hw Hd) in Hv.
    discriminate Hv.
Qed.

Lemma switchInput_is_gated_witness :
  let host := scriptedHost "win32" [] (Exited 0 EmptyString EmptyString) [] in
  let exe := "C:/Tools/ControlMyMonitor.exe" in
  (exists r tr', Legacy.switchInput host (Num 17) (Some exe) "Primary" [] = (Returned r, tr')
     /\ Legacy.success r = true
     /\ exists tr0 c, tr' = (tr0 ++ [Spawn c])%list /\ exitedZero host tr0 c
          /\ c = windowsSetValue exe "Primary" (Num 17))
  /\ (exists r tr' msg,
        Legacy.switchInput host (Num 17) None "Primary" [] = (Returned r, tr')
        /\ Legacy.validatePrerequisites host None [] = (Returned (Some msg), [])
        /\ Legacy.success r = false /\ Legacy.message r = msg /\ tr' = []).
Proof.
  intros host exe. split.
  - destruct (switchInput_is_gated host (Num 17) (Some exe) "Primary" [])
      as (r & tr' & Hrun & _ & Hsucc).
    assert (Hs : Legacy.success r = true).
    { assert (H : fst (Legacy.switchInput host (Num 17) (Some exe) "Primary" [])
                  = Returned r) by (rewrite Hrun; reflexivity).
      vm_compute in H. injection H as <-. reflexivity. }
    exists r, tr'. split; [exact Hrun|]. split; [exact Hs|].
    destruct (Hsucc Hs) as (tr0 & c & Htr & Hz & [[Hos _]|(_ & p & [= <-] & _ & Hc)]).
    + discriminate Hos.
    + exists tr0, c. split; [exact Htr|]. split; [exact Hz | exact Hc].
  - destruct (switchInput_is_gated host (Num 17) None "Primary" [])
      as (r & tr' & Hrun & Hblocked & _).
    destruct (Hblocked _ [] eq_refl) as [-> ->].
    do 3 eexists. split; [exact Hrun|]. repeat split.
Defined.

(** ** Discovery as a whole *)

Lemma parsedValue_not_NaN (outcome : ProcOutcome) : parsedValue outcome <> Some NaN.
Proof.
  unfold parsedValue. destruct outcome as [status out msg|msg]; [|discriminate].
  destruct (status =? 0); [|discriminate].
  destruct (parseInt (trim out)); simpl; discriminate.
Qed.

Lemma execSync_run host command tr :
  execSync host command tr
  = (match run host tr command with
     | Exited status out msg => if status =? 0 then Returned out else Thrown msg
     | NotCompleted msg => Thrown msg
     end, (tr ++ [Spawn command])%list).
Proof.
  unfold execSync. destruct (run host tr command) as [status out msg|msg];
    [destruct (status =? 0)|]; reflexivity.
Qed.

(** The Windows discovery of both generations, once the monitor list has
    been read. *)
Lemma Legacy_discoverWindows_ok host exePath m tr out msg :
  let quoted := DQ +:+ exePath +:+ DQ in
  let smonitors := quoted +:+ " /smonitors" in
  let getValue := quoted +:+ " /GetValue " +:+ DQ +:+ m +:+ DQ +:+ " 60" in
  run host tr smonitors = Exited 0 out msg ->
  exists info,
    Legacy.discoverInputsWindows host exePath m tr
    = (Returned {| Legacy.d_success := true;
                   Legacy.currentValue :=
                     parsedValue (run host (tr ++ [Spawn smonitors])%list getValue);
                   Legacy.availableInfo := Some info;
                   Legacy.error := None |},
       ((tr ++ [Spawn smonitors]) ++ [Spawn getValue])%list)
    /\ includes info out = true
    /\ includes info
         match parsedValue (run host (tr ++ [Spawn smonitors])%list getValue) with
         | Some v => "Current Input Value (VCP 0x60): " +:+ numberToString v
         | None => "Current Input Value: (Could not read)"
         end = true.
Proof.
  intros quoted smonitors getValue H1.
  unfold Legacy.discoverInputsWindows, tryCatch, bind.
  fold quoted. fold smonitors. rewrite (execSync_exitedZero _ _ _ _ _ H1).
  change (_ +:+ " /GetValue " +:+ _) with getValue.
  rewrite execSync_run. unfold parsedValue.
  destruct (run host (tr ++ [Spawn smonitors])%list getValue) as [st out2 msg2|msg2];
    [destruct (st =? 0); [destruct (isNaN (parseInt (trim out2)))|]|];
    simpl; eexists; (split; [reflexivity|]); split; find_piece.
Qed.

Lemma Revised_discoverWindows_ok host exePath m tr out msg :
  let quoted := DQ +:+ exePath +:+ DQ in
  let smonitors := quoted +:+ " /smonitors" in
  let getValue := quoted +:+ " /GetValue " +:+ DQ +:+ m +:+ DQ +:+ " 60" in
  run host tr smonitors = Exited 0 out msg ->
  exists info,
    Revised.discoverInputsWindows host exePath m tr
    = (Returned {| Revised.d_success := true;
                   Revised.currentValue :=
                     parsedValue (run host (tr ++ [Spawn smonitors])%list getValue);
                   Revised.availableInfo := Some info;
                   Revised.error := None |},
       ((tr ++ [Spawn smonitors]) ++ [Spawn getValue])%list)
    /\ includes info out = true
    /\ includes info
         match parsedValue (run host (tr ++ [Spawn smonitors])%list getValue) with
         | Some v => "Current Input Value (VCP 0x60): " +:+ numberToString v
         | None => "Current Input Value: (Could not read)"
         end = true.
Proof.
  intros quoted smonitors getValue H1.
  unfold Revised.discoverInputsWindows, tryCatch, bind.
  fold quoted. fold smonitors. rewrite (execSync_exitedZero _ _ _ _ _ H1).
  change (_ +:+ " /GetValue " +:+ _) with getValue.
  rewrite execSync_run. unfold parsedValue.
  destruct (run host (tr ++ [Spawn smonitors])%list getValue) as [st out2 msg2|msg2];
    [destruct (st =? 0); [destruct (isNaN (parseInt (trim out2)))|]|];
    simpl; eexists; (split; [reflexivity|]); split; find_piece.
Qed.

(** The macOS discovery of both generations, once the current input has been
    read. *)
Lemma Legacy_discoverMacOS_ok host tr out msg :
  let getInput := "m1ddc get input" in
  let displayList := "m1ddc display list" in
  run host tr getInput = Exited 0 out msg ->
  exists info,
    Legacy.discoverInputsMacOS host tr
    = (Returned {| Legacy.d_success := true;
                   Legacy.currentValue := parsedValue (Exited 0 out msg);
                   Legacy.availableInfo := Some info;
                   Legacy.error := None |},
       ((tr ++ [Spawn getInput]) ++ [Spawn displayList])%list)
    /\ includes info (displayListText (run host (tr ++ [Spawn getInput])%list displayList))
       = true
    /\ includes info ("Current Input Value (VCP 0x60): "
                      +:+ numberToString (parseInt (trim out))) = true.
Proof.
  intros getInput displayList H1.
  unfold Legacy.discoverInputsMacOS, tryCatch, bind.
  fold getInput. rewrite (execSync_exitedZero _ _ _ _ _ H1).
  fold displayList. rewrite execSync_run. unfold displayListText, parsedValue.
  destruct (run host (tr ++ [Spawn getInput])%list displayList) as [st out2 msg2|msg2];
    [destruct (st =? 0)|];
    simpl; eexists; (split; [reflexivity|]); split; find_piece.
Qed.

Lemma Revised_discoverMacOS_ok host exePath tr out msg :
  let quoted := DQ +:+ exePath +:+ DQ in
  let getInput := quoted +:+ " get input" in
  let displayList := quoted +:+ " display list" in
  run host tr getInput = Exited 0 out msg ->
  exists info,
    Revised.discoverInputsMacOS host exePath tr
    = (Returned {| Revised.d_success := true;
                   Revised.currentValue := parsedValue (Exited 0 out msg);
                   Revised.availableInfo := Some info;
                   Revised.error := None |},
       ((tr ++ [Spawn getInput]) ++ [Spawn displayList])%list)
    /\ includes info (displayListText (run host (tr ++ [Spawn getInput])%list displayList))
       = true
    /\ includes info ("Current Input Value (VCP 0x60): "
                      +:+ numberToString (parseInt (trim out))) = true.
Proof.
  intros quoted getInput displayList H1.
  unfold Revised.discoverInputsMacOS, tryCatch, bind.
  fold quoted. fold getInput. rewrite (execSync_exitedZero _ _ _ _ _ H1).
  fold displayList. rewrite execSync_run. unfold displayListText, parsedValue.
  destruct (run host (tr ++ [Spawn getInput])%list displayList) as [st out2 msg2|msg2];
    [destruct (st =? 0)|];
    simpl; eexists; (split; [reflexivity|]); split; find_piece.
Qed.

(** When the first query fails, discovery stops there. *)
Lemma Legacy_discoverWindows_fail host exePath m tr e :
  let smonitors := (DQ +:+ exePath +:+ DQ) +:+ " /smonitors" in
  execFails host tr smonitors e ->
  Legacy.discoverInputsWindows host exePath m tr
  = (Returned {| Legacy.d_success := false; Legacy.currentValue := None;
                 Legacy.availableInfo := None;
                 Legacy.error := Some ("ControlMyMonitor error: " +:+ e) |},
     (tr ++ [Spawn smonitors])%list).
Proof.
  intros smonitors He. unfold Legacy.discoverInputsWindows, tryCatch, bind.
  fold smonitors. rewrite (execSync_fails _ _ _ _ He). reflexivity.
Qed.

Lemma Revised_discoverWindows_fail host exePath m tr e :
  let smonitors := (DQ +:+ exePath +:+ DQ) +:+ " /smonitors" in
  execFails host tr smonitors e ->
  Revised.discoverInputsWindows host exePath m tr
  = (Returned {| Revised.d_success := false; Revised.currentValue := None;
                 Revised.availableInfo := None;
                 Revised.error := Some ("ControlMyMonitor error: " +:+ e) |},
     (tr ++ [Spawn smonitors])%list).
Proof.
  intros smonitors He. unfold Revised.discoverInputsWindows, tryCatch, bind.
  fold smonitors. rewrite (execSync_fails _ _ _ _ He). reflexivity.
Qed.

Lemma Legacy_discoverMacOS_fail host tr e :
  execFails host tr "m1ddc get input" e ->
  Legacy.discoverInputsMacOS host tr
  = (Returned {| Legacy.d_success := false; Legacy.currentValue := None;
                 Legacy.availableInfo := None;
                 Legacy.error := Some ("m1ddc error: " +:+ e) |},
     (tr ++ [Spawn "m1ddc get input"])%list).
Proof.
  intros He. unfold Legacy.discoverInputsMacOS, tryCatch, bind.
  rewrite (execSync_fails _ _ _ _ He). reflexivity.
Qed.

Lemma Revised_discoverMacOS_fail host exePath tr e :
  let getInput := (DQ +:+ exePath +:+ DQ) +:+ " get input" in
  execFails host tr getInput e ->
  Revised.discoverInputsMacOS host exePath tr
  = (Returned {| Revised.d_success := false; Revised.currentValue := None;
                 Revised.availableInfo := None;
                 Revised.error := Some ("m1ddc error: " +:+ e) |},
     (tr ++ [Spawn getInput])%list).
Proof.
  intros getInput He. unfold Revised.discoverInputsMacOS, tryCatch, bind.
  fold getInput. rewrite (execSync_fails _ _ _ _ He). reflexivity.
Qed.

Lemma reportShape_ok host tr primary secondary out msg value info :
  run host tr primary = Exited 0 out msg -> value <> Some NaN ->
  reportShape host tr ((tr ++ [Spawn primary]) ++ [Spawn secondary])%list
    primary secondary true value (Some info) None.
Proof.
  intros Hrun Hv. unfold reportShape, exitedZero.
  split; [split; [intros _; eauto | reflexivity]|].
  split; [intros _; repeat split; eauto|].
  split; [discriminate | exact Hv].
Qed.

Lemma reportShape_fail host tr primary secondary e text :
  execFails host tr primary e ->
  reportShape host tr (tr ++ [Spawn primary])%list primary secondary
    false None None (Some text).
Proof.
  intros He. unfold reportShape.
  split; [split; [discriminate|]|].
  { intros Hz. exfalso. exact (exitedZero_not_fails _ _ _ _ Hz He). }
  split; [discriminate|]. split; [|discriminate].
  intros _. repeat split; eauto.
Qed.

(** X8.  Every discovery, on either platform and in either generation,
    returns a report (it never throws).  The report is a success exactly
    when the first query exited with status 0, and then it has text, no
    error, and both queries were run.  Otherwise it has an error, no text
    and no current value, and only the first query was run.  The current
    value is never [NaN]. *)
Theorem discovery_report_shape (host : Host) (exePath m : string) (tr : list event) :
  let quoted := DQ +:+ exePath +:+ DQ in
  (exists r tr', Legacy.discoverInputsMacOS host tr = (Returned r, tr')
     /\ reportShape host tr tr' "m1ddc get input" "m1ddc display list"
          (Legacy.d_success r) (Legacy.currentValue r)
          (Legacy.availableInfo r) (Legacy.error r))
  /\ (exists r tr', Legacy.discoverInputsWindows host exePath m tr = (Returned r, tr')
        /\ reportShape host tr tr' (quoted +:+ " /smonitors")
             (quoted +:+ " /GetValue " +:+ DQ +:+ m +:+ DQ +:+ " 60")
             (Legacy.d_success r) (Legacy.currentValue r)
             (Legacy.availableInfo r) (Legacy.error r))
  /\ (exists r tr', Revised.discoverInputsMacOS host exePath tr = (Returned r, tr')
        /\ reportShape host tr tr' (quoted +:+ " get input") (quoted +:+ " display list")
             (Revised.d_success r) (Revised.currentValue r)
             (Revised.availableInfo r) (Revised.error r))
  /\ (exists r tr', Revised.discoverInputsWindows host exePath m tr = (Returned r, tr')
        /\ reportShape host tr tr' (quoted +:+ " /smonitors")
             (quoted +:+ " /GetValue " +:+ DQ +:+ m +:+ DQ +:+ " 60")
             (Revised.d_success r) (Revised.currentValue r)
             (Revised.availableInfo r) (Revised.error r)).
Proof.
  intros quoted. split; [|split; [|split]].
  - destruct (exitedZero_or_fails host tr "m1ddc get input") as [(out & msg & H)|[e He]].
    + destruct (Legacy_discoverMacOS_ok host tr out msg H) as (info & -> & _).
      eexists. eexists. split; [reflexivity|]. simpl Legacy.d_success.
      eapply reportShape_ok; [exact H | apply parsedValue_not_NaN].
    + rewrite (Legacy_discoverMacOS_fail host tr e He).
      eexists. eexists. split; [reflexivity|]. apply (reportShape_fail _ _ _ _ e). exact He.
  - destruct (exitedZero_or_fails host tr (quoted +:+ " /smonitors"))
      as [(out & msg & H)|[e He]].
    + destruct (Legacy_discoverWindows_ok host exePath m tr out msg H) as (info & -> & _).
      eexists. eexists. split; [reflexivity|].
      eapply reportShape_ok; [exact H | apply parsedValue_not_NaN].
    + rewrite (Legacy_discoverWindows_fail host exePath m tr e He).
      eexists. eexists. split; [reflexivity|]. apply (reportShape_fail _ _ _ _ e). exact He.
  - destruct (exitedZero_or_fails host tr (quoted +:+ " get input"))
      as [(out & msg & H)|[e He]].
    + destruct (Revised_discoverMacOS_ok host exePath tr out msg H) as (info & -> & _).
      eexists. eexists. split; [reflexivity|].
      eapply reportShape_ok; [exact H | apply parsedValue_not_NaN].
    + rewrite (Revised_discoverMacOS_fail host exePath tr e He).
      eexists. eexists. split; [reflexivity|]. apply (reportShape_fail _ _ _ _ e). exact He.
  - destruct (exitedZero_or_fails host tr (quoted +:+ " /smonitors"))
      as [(out & msg & H)|[e He]].
    + destruct (Revised_discoverWindows_ok host exePath m tr out msg H) as (info & -> & _).
      eexists. eexists. split; [reflexivity|].
      eapply reportShape_ok; [exact H | apply parsedValue_not_NaN].
    + rewrite (Revised_discoverWindows_fail host exePath m tr e He).
      eexists. eexists. split; [reflexivity|]. apply (reportShape_fail _ _ _ _ e). exact He.
Qed.

(** X9.  When the first query of a discovery fails with error text [e], the
    report's error is [e] after the prefix [m1ddc error: ] on macOS and
    [ControlMyMonitor error: ] on Windows, in both generations; the second
    query is not attempted. *)
Theorem discovery_failure_text (host : Host) (exePath m : string) (tr : list event)
    (e : string) :
  let quoted := DQ +:+ exePath +:+ DQ in
  (execFails host tr "m1ddc get input" e ->
   exists r, Legacy.discoverInputsMacOS host tr
             = (Returned r, (tr ++ [Spawn "m1ddc get input"])%list)
     /\ Legacy.d_success r = false /\ Legacy.error r = Some ("m1ddc error: " +:+ e))
  /\ (execFails host tr (quoted +:+ " /smonitors") e ->
      exists r, Legacy.discoverInputsWindows host exePath m tr
                = (Returned r, (tr ++ [Spawn (quoted +:+ " /smonitors")])%list)
        /\ Legacy.d_success r = false
        /\ Legacy.error r = Some ("ControlMyMonitor error: " +:+ e))
  /\ (execFails host tr (quoted +:+ " get input") e ->
      exists r, Revised.discoverInputsMacOS host exePath tr
                = (Returned r, (tr ++ [Spawn (quoted +:+ " get input")])%list)
        /\ Revised.d_success r = false /\ Revised.error r = Some ("m1ddc error: " +:+ e))
  /\ (execFails host tr (quoted +:+ " /smonitors") e ->
      exists r, Revised.discoverInputsWindows host exePath m tr
                = (Returned r, (tr ++ [Spawn (quoted +:+ " /smonitors")])%list)
        /\ Revised.d_success r = false
        /\ Revised.error r = Some ("ControlMyMonitor error: " +:+ e)).
Proof.
  intros quoted. split; [|split; [|split]]; intros He.
  - rewrite (Legacy_discoverMacOS_fail host tr e He). eexists. repeat split.
  - rewrite (Legacy_discoverWindows_fail host exePath m tr e He). eexists. repeat split.
  - rewrite (Revised_discoverMacOS_fail host exePath tr e He). eexists. repeat split.
  - rewrite (Revised_discoverWindows_fail host exePath m tr e He). eexists. repeat split.
Qed.

Lemma discovery_failure_text_witness :
  let host := scriptedHost "darwin" [] (Exited 1 EmptyString "No displays found") [] in
  let exe := "/opt/homebrew/bin/m1ddc" in
  (execFails host [] "m1ddc get input" "No displays found"
   /\ exists r, Legacy.discoverInputsMacOS host [] = (Returned r, [Spawn "m1ddc get input"])
        /\ Legacy.error r = Some "m1ddc error: No displays found")
  /\ (execFails host [] ((DQ +:+ exe +:+ DQ) +:+ " /smonitors") "No displays found"
      /\ exists r, Legacy.discoverInputsWindows host exe "Primary" []
                   = (Returned r, [Spawn ((DQ +:+ exe +:+ DQ) +:+ " /smonitors")])
           /\ Legacy.error r = Some "ControlMyMonitor error: No displays found")
  /\ (execFails host [] ((DQ +:+ exe +:+ DQ) +:+ " get input") "No displays found"
      /\ exists r, Revised.discoverInputsMacOS host exe []
                   = (Returned r, [Spawn ((DQ +:+ exe +:+ DQ) +:+ " get input")])
           /\ Revised.error r = Some "m1ddc error: No displays found")
  /\ exists r, Revised.discoverInputsWindows host exe "Primary" []
               = (Returned r, [Spawn ((DQ +:+ exe +:+ DQ) +:+ " /smonitors")])
       /\ Revised.error r = Some "ControlMyMonitor error: No displays found".
Proof.
  intros host exe.
  assert (H1 : execFails host [] "m1ddc get input" "No displays found") by exec_fails.
  assert (H2 : execFails host [] ((DQ +:+ exe +:+ DQ) +:+ " /smonitors")
                 "No displays found") by exec_fails.
  assert (H3 : execFails host [] ((DQ +:+ exe +:+ DQ) +:+ " get input")
                 "No displays found") by exec_fails.
  destruct (discovery_failure_text host exe "Primary" [] "No displays found")
    as (Ha & Hb & Hc & Hd).
  split; [split; [exact H1|]|split; [split; [exact H2|]|split; [split; [exact H3|]|]]].
  - destruct (Ha H1) as (r & Hr & _ & He). exists r. split; assumption.
  - destruct (Hb H2) as (r & Hr & _ & He). exists r. split; assumption.
  - destruct (Hc H3) as (r & Hr & _ & He). exists r. split; assumption.
  - destruct (Hd H2) as (r & Hr & _ & He). exists r. split; assumption.
Defined.

(** X10.  The text of a successful report.  On Windows it contains the raw
    output of the [/smonitors] query, and the line
    [Current Input Value: (Could not read)] when the current value is unset,
    the line with the value otherwise.  On macOS it contains the raw output
    of the [display list] query when that one succeeded, and the line
    [Current Input Value (VCP 0x60): ] followed by what [parseInt] gave:
    when the output of [get input] does not parse the text shows [NaN]
    although the report's current value is unset. *)
Theorem discovery_report_text (host : Host) (exePath m : string) (tr : list event)
    (out msg : string) :
  let quoted := DQ +:+ exePath +:+ DQ in
  let smonitors := quoted +:+ " /smonitors" in
  (run host tr smonitors = Exited 0 out msg ->
   (exists r info, fst (Legacy.discoverInputsWindows host exePath m tr) = Returned r
      /\ Legacy.availableInfo r = Some info /\ includes info out = true
      /\ (Legacy.currentValue r = None ->
          includes info "Current Input Value: (Could not read)" = true)
      /\ (forall v, Legacy.currentValue r = Some v ->
          includes info ("Current Input Value (VCP 0x60): " +:+ numberToString v) = true))
   /\ (exists r info, fst (Revised.discoverInputsWindows host exePath m tr) = Returned r
         /\ Revised.availableInfo r = Some info /\ includes info out = true
         /\ (Revised.currentValue r = None ->
             includes info "Current Input Value: (Could not read)" = true)
         /\ (forall v, Revised.currentValue r = Some v ->
             includes info ("Current Input Value (VCP 0x60): " +:+ numberToString v)
             = true)))
  /\ (run host tr "m1ddc get input" = Exited 0 out msg ->
      exists r info, fst (Legacy.discoverInputsMacOS host tr) = Returned r
        /\ Legacy.availableInfo r = Some info
        /\ (parseInt (trim out) = NaN ->
            Legacy.currentValue r = None
            /\ includes info "Current Input Value (VCP 0x60): NaN" = true)
        /\ (forall n, parseInt (trim out) = Num n ->
            Legacy.currentValue r = Some (Num n)
            /\ includes info ("Current Input Value (VCP 0x60): "
                              +:+ numberToString (Num n)) = true)
        /\ (forall out2 msg2,
              run host (tr ++ [Spawn "m1ddc get input"])%list "m1ddc display list"
              = Exited 0 out2 msg2 ->
              includes info out2 = true))
  /\ (run host tr (quoted +:+ " get input") = Exited 0 out msg ->
      exists r info, fst (Revised.discoverInputsMacOS host exePath tr) = Returned r
        /\ Revised.availableInfo r = Some info
        /\ (parseInt (trim out) = NaN ->
            Revised.currentValue r = None
            /\ includes info "Current Input Value (VCP 0x60): NaN" = true)
        /\ (forall n, parseInt (trim out) = Num n ->
            Revised.currentValue r = Some (Num n)
            /\ includes info ("Current Input Value (VCP 0x60): "
                              +:+ numberToString (Num n)) = true)
        /\ (forall out2 msg2,
              run host (tr ++ [Spawn (quoted +:+ " get input")])%list
                (quoted +:+ " display list")
              = Exited 0 out2 msg2 ->
              includes info out2 = true)).
Proof.
  intros quoted smonitors. split; [|split].
  - intros H. split.
    + destruct (Legacy_discoverWindows_ok host exePath m tr out msg H)
        as (info & -> & Hout & Hline).
      eexists. exists info. split; [reflexivity|]. simpl.
      split; [reflexivity|]. split; [exact Hout|].
      split; [intros Hv; rewrite Hv in Hline; exact Hline|].
      intros v Hv. rewrite Hv in Hline. exact Hline.
    + destruct (Revised_discoverWindows_ok host exePath m tr out msg H)
        as (info & -> & Hout & Hline).
      eexists. exists info. split; [reflexivity|]. simpl.
      split; [reflexivity|]. split; [exact Hout|].
      split; [intros Hv; rewrite Hv in Hline; exact Hline|].
      intros v Hv. rewrite Hv in Hline. exact Hline.
  - intros H.
    destruct (Legacy_discoverMacOS_ok host tr out msg H) as (info & -> & Hlist & Hline).
    eexists. exists info. split; [reflexivity|]. simpl.
    split; [reflexivity|]. split; [|split].
    + intros Hn. rewrite Hn in Hline |- *. split; [reflexivity | exact Hline].
    + intros n Hn. rewrite Hn in Hline |- *. split; [reflexivity | exact Hline].
    + intros out2 msg2 H2. rewrite H2 in Hlist. exact Hlist.
  - intros H.
    destruct (Revised_discoverMacOS_ok host exePath tr out msg H)
      as (info & -> & Hlist & Hline).
    eexists. exists info. split; [reflexivity|]. simpl.
    split; [reflexivity|]. split; [|split].
    + intros Hn. rewrite Hn in Hline |- *. split; [reflexivity | exact Hline].
    + intros n Hn. rewrite Hn in Hline |- *. split; [reflexivity | exact Hline].
    + intros out2 msg2 H2. unfold quoted in H2. rewrite H2 in Hlist. exact Hlist.
Qed.

Lemma discovery_report_text_witness :
  let mac :=
    scriptedHost "darwin"
      [ ("get input", Exited 0 "unknown" EmptyString);
        ("display list", Exited 0 "DELL U2720Q" EmptyString) ]
      (NotCompleted "not scripted") [] in
  let win :=
    scriptedHost "win32"
      [ ("/smonitors", Exited 0 "Monitor 1: Primary" EmptyString);
        ("/GetValue", Exited 1 EmptyString "Command failed") ]
      (NotCompleted "not scripted") [] in
  let exe := "C:/Tools/ControlMyMonitor.exe" in
  (run mac [] "m1ddc get input" = Exited 0 "unknown" EmptyString
   /\ parseInt (trim "unknown") = NaN
   /\ exists r info, fst (Legacy.discoverInputsMacOS mac []) = Returned r
        /\ Legacy.availableInfo r = Some info
        /\ Legacy.currentValue r = None
        /\ includes info "Current Input Value (VCP 0x60): NaN" = true
        /\ includes info "DELL U2720Q" = true)
  /\ (run win [] ((DQ +:+ exe +:+ DQ) +:+ " /smonitors")
      = Exited 0 "Monitor 1: Primary" EmptyString
      /\ exists r info, fst (Legacy.discoverInputsWindows win exe "Primary" []) = Returned r
           /\ Legacy.availableInfo r = Some info
           /\ Legacy.currentValue r = None
           /\ includes info "Monitor 1: Primary" = true
           /\ includes info "Current Input Value: (Could not read)" = true).
Proof.
  intros mac win exe. split.
  - split; [reflexivity|]. split; [reflexivity|].
    destruct (discovery_report_text mac exe "Primary" [] "unknown" EmptyString)
      as (_ & Hmac & _).
    destruct (Hmac eq_refl) as (r & info & Hr & Hinfo & Hnan & _ & Hlist).
    destruct (Hnan eq_refl) as [Hv Hline].
    exists r, info. split; [exact Hr|]. split; [exact Hinfo|]. split; [exact Hv|].
    split; [exact Hline|]. exact (Hlist _ _ eq_refl).
  - split; [reflexivity|].
    destruct (discovery_report_text win exe "Primary" [] "Monitor 1: Primary" EmptyString)
      as (Hwin & _).
    destruct (Hwin eq_refl) as [(r & info & Hr & Hinfo & Hout & Hnone & _) _].
    assert (Hv : Legacy.currentValue r = None).
    { pose proof Hr as Hc. vm_compute in Hc. injection Hc as <-. reflexivity. }
    exists r, info. split; [exact Hr|]. split; [exact Hinfo|]. split; [exact Hv|].
    split; [exact Hout | exact (Hnone Hv)].
Defined.

Lemma Legacy_discoverMacOS_returns host tr :
  exists r tr', Legacy.discoverInputsMacOS host tr = (Returned r, tr')
    /\ (Legacy.d_success r = true -> exitedZero host tr "m1ddc get input").
Proof.
  destruct (exitedZero_or_fails host tr "m1ddc get input") as [(out & msg & H)|[e He]].
  - destruct (Legacy_discoverMacOS_ok host tr out msg H) as (info & -> & _).
    eexists. eexists. split; [reflexivity|]. intros _. exists out, msg. exact H.
  - rewrite (Legacy_discoverMacOS_fail host tr e He).
    eexists. eexists. split; [reflexivity|]. discriminate.
Qed.

Lemma Legacy_discoverWindows_returns host exePath m tr :
  exists r tr', Legacy.discoverInputsWindows host exePath m tr = (Returned r, tr')
    /\ (Legacy.d_success r = true ->
        exitedZero host tr ((DQ +:+ exePath +:+ DQ) +:+ " /smonitors")).
Proof.
  destruct (exitedZero_or_fails host tr ((DQ +:+ exePath +:+ DQ) +:+ " /smonitors"))
    as [(out & msg & H)|[e He]].
  - destruct (Legacy_discoverWindows_ok host exePath m tr out msg H) as (info & -> & _).
    eexists. eexists. split; [reflexivity|]. intros _. exists out, msg. exact H.
  - rewrite (Legacy_discoverWindows_fail host exePath m tr e He).
    eexists. eexists. split; [reflexivity|]. discriminate.
Qed.

(** X11.  The first generation's [discoverInputs] never throws.  When
    [validatePrerequisites] returns a message, the report is a failure
    whose error is exactly that message and no query is run.  A successful
    report is returned only on macOS or Windows, after a first query
    ([get input], or [/smonitors] with a configured, existing path) that
    exited with status 0. *)
Theorem discoverInputs_is_gated (host : Host) (path : option string) (m : string)
    (tr : list event) :
  exists r tr', Legacy.discoverInputs host path m tr = (Returned r, tr')
    /\ (forall msg tr1,
          Legacy.validatePrerequisites host path tr = (Returned (Some msg), tr1) ->
          r = {| Legacy.d_success := false; Legacy.currentValue := None;
                 Legacy.availableInfo := None; Legacy.error := Some msg |}
          /\ tr' = tr1)
    /\ (Legacy.d_success r = true ->
        exists tr0 c, exitedZero host tr0 c
          /\ ((platform host = "darwin" /\ c = "m1ddc get input")
              \/ (platform host = "win32"
                  /\ exists p, path = Some p /\ existsSync host p = true
                       /\ c = (DQ +:+ p +:+ DQ) +:+ " /smonitors"))).
Proof.
  destruct (Legacy_validatePrerequisites_returns host path tr) as (r0 & tr1 & Hv).
  unfold Legacy.discoverInputs, bind. rewrite Hv.
  destruct r0 as [msg|].
  { eexists. eexists. split; [reflexivity|]. split.
    - intros msg' tr1' [= <- <-]. split; reflexivity.
    - discriminate. }
  destruct (platform_cases host) as [Hos|[Hos|[Hw Hd]]].
  - rewrite (Legacy_detectPlatform_darwin host tr1 Hos). simpl.
    destruct (Legacy_discoverMacOS_returns host (tr1 ++ [Spawn sysctlV1])%list)
      as (r & tr' & Hr & Hs).
    rewrite Hr. exists r, tr'. split; [reflexivity|]. split; [discriminate|].
    intros Hok. eexists. eexists. split; [exact (Hs Hok)|].
    left. split; [exact Hos | reflexivity].
  - rewrite (Legacy_detectPlatform_win32 host tr1 Hos). simpl.
    destruct (Legacy_validatePrerequisites_win32 host path tr Hos) as (r0 & Hv' & Hnone).
    rewrite Hv in Hv'. injection Hv' as <- _.
    destruct Hnone as [Hnone _]. destruct (Hnone eq_refl) as (p & -> & _ & Hex).
    simpl.
    destruct (Legacy_discoverWindows_returns host p m tr1) as (r & tr' & Hr & Hs).
    rewrite Hr. exists r, tr'. split; [reflexivity|]. split; [discriminate|].
    intros Hok. eexists. eexists. split; [exact (Hs Hok)|].
    right. split; [exact Hos|]. exists p. repeat split. exact Hex.
  - rewrite (Legacy_validatePrerequisites_unsupported host path tr Hw Hd) in Hv.
    discriminate Hv.
Qed.

Lemma discoverInputs_is_gated_witness :
  let intelMac := macHost "Intel(R) Core(TM) i5" in
  let mac := macHost "Apple M2" in
  (exists r tr' msg,
     Legacy.discoverInputs intelMac None "Primary" [] = (Returned r, tr')
     /\ Legacy.validatePrerequisites intelMac None [] = (Returned (Some msg), [Spawn sysctlV1])
     /\ Legacy.error r = Some msg /\ tr' = [Spawn sysctlV1])
  /\ (exists r tr', Legacy.discoverInputs mac None "Primary" [] = (Returned r, tr')
        /\ Legacy.d_success r = true
        /\ exists tr0, exitedZero mac tr0 "m1ddc get input").
Proof.
  intros intelMac mac. split.
  - destruct (discoverInputs_is_gated intelMac None "Primary" [])
      as (r & tr' & Hrun & Hblocked & _).
    destruct (Hblocked _ [Spawn sysctlV1] eq_refl) as [-> ->].
    do 3 eexists. split; [exact Hrun|]. repeat split.
  - destruct (discoverInputs_is_gated mac None "Primary" [])
      as (r & tr' & Hrun & _ & Hsucc).
    assert (Hs : Legacy.d_success r = true).
    { assert (H : fst (Legacy.discoverInputs mac None "Primary" []) = Returned r)
        by (rewrite Hrun; reflexivity).
      vm_compute in H. injection H as <-. reflexivity. }
    exists r, tr'. split; [exact Hrun|]. split; [exact Hs|].
    destruct (Hsucc Hs) as (tr0 & c & Hz & [[_ ->]|[Hos _]]).
    + exists tr0. exact Hz.
    + discriminate Hos.
Defined.

(** ** First generation: the switch commands *)

Lemma switchInput_returns_aux host v path m tr :
  exists r tr', Legacy.switchInput host v path m tr = (Returned r, tr').
Proof.
  destruct (Legacy_validatePrerequisites_returns host path tr) as (r0 & tr1 & Hv).
  unfold Legacy.switchInput, bind. rewrite Hv.
  destruct r0 as [msg|]; [eauto|].
  destruct (platform_cases host) as [Hos|[Hos|[Hw Hd]]].
  - rewrite (Legacy_detectPlatform_darwin host tr1 Hos). simpl.
    destruct (Legacy_mac_success host v (tr1 ++ [Spawn sysctlV1])%list) as (r & Hr & _).
    rewrite Hr. eauto.
  - rewrite (Legacy_detectPlatform_win32 host tr1 Hos). simpl.
    destruct (Legacy_win_success host v m (default "undefined" path) tr1) as (r & Hr & _).
    rewrite Hr. eauto.
  - rewrite (Legacy_detectPlatform_unsupported host tr1 Hw Hd). simpl. eauto.
Qed.

Lemma Legacy_switchInput_win32 host v path m tr :
  platform host = "win32" ->
  let notConfigured :=
    "ControlMyMonitor path not configured. "
    +:+ "Download from https://www.nirsoft.net/utils/controlmymonitor.zip "
    +:+ "and set the path in extension preferences." in
  let refuse text :=
    (Returned {| Legacy.success := false; Legacy.message := text;
                 Legacy.rawOutput := None |}, tr) in
  Legacy.switchInput host v path m tr
  = match path with
    | None => refuse notConfigured
    | Some p =>
        if (String.eqb p EmptyString || String.eqb (trim p) EmptyString)%bool
        then refuse notConfigured
        else if existsSync host p then Legacy.switchInputWindows host v p m tr
             else refuse ("ControlMyMonitor not found at: " +:+ p)
    end.
Proof.
  intros Hos notConfigured refuse.
  unfold Legacy.switchInput, Legacy.validatePrerequisites, bind.
  rewrite (Legacy_detectPlatform_win32 host tr Hos). simpl.
  destruct path as [p|]; [|reflexivity].
  unfold Legacy.isControlMyMonitorInstalled.
  destruct (String.eqb p EmptyString || String.eqb (trim p) EmptyString)%bool;
    [reflexivity|].
  destruct (existsSync host p); simpl; [|reflexivity].
  rewrite (Legacy_detectPlatform_win32 host tr Hos). reflexivity.
Qed.

(** X12.  The switch-to-hdmi command on Windows, for an HDMI value that
    parses to [n].  It first closes the main window.  With an empty or blank
    tool path, or one that does not exist, it runs no child process and
    shows the failure toast [Switch Failed] with the validation message.
    Otherwise it runs exactly one child process, the [/SetValue] command
    line for the configured monitor ([Primary] when the identifier is
    empty), and then shows the HUD when that process exited with status 0,
    the failure toast with the error text after [ControlMyMonitor error: ]
    otherwise. *)
Theorem switch_to_hdmi_on_windows (host : Host) (prefs : Legacy.Preferences)
    (tr : list event) (n : Z) :
  platform host = "win32" ->
  parseInt (Legacy.hdmiValue prefs) = Num n ->
  let path := Legacy.controlMyMonitorPath prefs in
  let blank := (String.eqb path EmptyString || String.eqb (trim path) EmptyString)%bool in
  let monitor :=
    if String.eqb (Legacy.monitorId prefs) EmptyString
    then "Primary" else Legacy.monitorId prefs in
  let c := windowsSetValue path monitor (Num n) in
  let tr1 := (tr ++ [CloseMainWindow])%list in
  (blank = true ->
   Legacy.Command host prefs tr
   = (Returned tt,
      (tr1 ++ [ShowToast StyleFailure "Switch Failed"
                 ("ControlMyMonitor path not configured. "
                  +:+ "Download from https://www.nirsoft.net/utils/controlmymonitor.zip "
                  +:+ "and set the path in extension preferences.")])%list))
  /\ (blank = false -> existsSync host path = false ->
      Legacy.Command host prefs tr
      = (Returned tt,
         (tr1 ++ [ShowToast StyleFailure "Switch Failed"
                    ("ControlMyMonitor not found at: " +:+ path)])%list))
  /\ (blank = false -> existsSync host path = true ->
      (exitedZero host tr1 c ->
       Legacy.Command host prefs tr
       = (Returned tt,
          (tr1 ++ [Spawn c;
                   ShowHUD ("✓ Switched to HDMI (" +:+ numberToString (Num n)
                            +:+ ")")])%list))
      /\ (forall e, execFails host tr1 c e ->
          Legacy.Command host prefs tr
          = (Returned tt,
             (tr1 ++ [Spawn c;
                      ShowToast StyleFailure "Switch Failed"
                        ("ControlMyMonitor error: " +:+ e)])%list))).
Proof.
  intros Hos Hparse path blank monitor c tr1.
  assert (Hswitch :
    forall r tr2,
      Legacy.switchInput host (Num n) (Legacy.orUndefined path)
        (Legacy.orElse (Legacy.monitorId prefs) "Primary") tr1 = (Returned r, tr2) ->
      Legacy.Command host prefs tr
      = (Returned tt,
         (tr2 ++ [if Legacy.success r
                  then ShowHUD ("✓ Switched to HDMI (" +:+ numberToString (Num n) +:+ ")")
                  else ShowToast StyleFailure "Switch Failed" (Legacy.message r)])%list)).
  { intros r tr2 H. unfold Legacy.Command. rewrite Hparse.
    change (isNaN (Num n)) with false. unfold bind, emit. cbv beta iota.
    unfold path, tr1 in H. rewrite H.
    destruct (Legacy.success r); reflexivity. }
  assert (Hmon : Legacy.orElse (Legacy.monitorId prefs) "Primary" = monitor) by reflexivity.
  rewrite Hmon in Hswitch.
  pose proof (Legacy_switchInput_win32 host (Num n) (Legacy.orUndefined path) monitor tr1 Hos)
    as Hw. cbv zeta in Hw. unfold Legacy.orUndefined in Hw, Hswitch.
  destruct (String.eqb path EmptyString) eqn:He.
  { assert (Hb : blank = true) by reflexivity.
    split; [|split].
    - intros _. rewrite (Hswitch _ _ Hw). reflexivity.
    - intros Hb'. congruence.
    - intros Hb'. congruence. }
  rewrite He in Hw.
  change (false || String.eqb (trim path) EmptyString)%bool with blank in Hw.
  split; [|split].
  - intros Hb. rewrite Hb in Hw. rewrite (Hswitch _ _ Hw). reflexivity.
  - intros Hb Hex. rewrite Hb, Hex in Hw. rewrite (Hswitch _ _ Hw). reflexivity.
  - intros Hb Hex. rewrite Hb, Hex in Hw.
    unfold Legacy.switchInputWindows, tryCatch, bind in Hw.
    change ((DQ +:+ path +:+ DQ) +:+ " /SetValue " +:+ DQ +:+ monitor +:+ DQ +:+ " "
            +:+ numberToString Legacy.VCP_INPUT_SOURCE +:+ " " +:+ numberToString (Num n))
      with c in Hw.
    split.
    + intros (out & msg & Hrun). rewrite (execSync_exitedZero _ _ _ _ _ Hrun) in Hw.
      rewrite (Hswitch _ _ Hw). simpl. rewrite <- app_assoc. reflexivity.
    + intros e Hfail. rewrite (execSync_fails _ _ _ _ Hfail) in Hw.
      rewrite (Hswitch _ _ Hw). simpl. rewrite <- app_assoc. reflexivity.
Qed.

Lemma switch_to_hdmi_on_windows_witness :
  let host := scriptedHost "win32" [] (Exited 0 EmptyString EmptyString) [] in
  let broken := scriptedHost "win32" [] (Exited 1 EmptyString "Access is denied.") [] in
  let exe := "C:/Tools/ControlMyMonitor.exe" in
  let prefs :=
    {| Legacy.displayportValue := "15"; Legacy.hdmiValue := "17";
       Legacy.controlMyMonitorPath := exe; Legacy.monitorId := EmptyString |} in
  let c := windowsSetValue exe "Primary" (Num 17) in
  (platform host = "win32" /\ parseInt (Legacy.hdmiValue prefs) = Num 17
   /\ existsSync host exe = true /\ exitedZero host [CloseMainWindow] c
   /\ Legacy.Command host prefs []
      = (Returned tt, [CloseMainWindow; Spawn c; ShowHUD "✓ Switched to HDMI (17)"]))
  /\ (execFails broken [CloseMainWindow] c "Access is denied."
      /\ Legacy.Command broken prefs []
         = (Returned tt,
            [CloseMainWindow; Spawn c;
             ShowToast StyleFailure "Switch Failed"
               "ControlMyMonitor error: Access is denied."])).
Proof.
  intros host broken exe prefs c.
  assert (Hz : exitedZero host [CloseMainWindow] c) by (do 2 eexists; reflexivity).
  assert (Hf : execFails broken [CloseMainWindow] c "Access is denied.") by exec_fails.
  split.
  - split; [reflexivity|]. split; [reflexivity|]. split; [reflexivity|]. split; [exact Hz|].
    destruct (switch_to_hdmi_on_windows host prefs [] 17 eq_refl eq_refl) as (_ & _ & Hrun).
    destruct (Hrun eq_refl eq_refl) as [Hok _]. exact (Hok Hz).
  - split; [exact Hf|].
    destruct (switch_to_hdmi_on_windows broken prefs [] 17 eq_refl eq_refl) as (_ & _ & Hrun).
    destruct (Hrun eq_refl eq_refl) as [_ Hfail]. exact (Hfail _ Hf).
Defined.

(** X13.  The DisplayPort command is the HDMI command reading the other
    preference.  Run on the same host and from the same trace, the
    DisplayPort command with DisplayPort value [x] and the HDMI command with
    HDMI value [x] leave the same events up to the last one, and their last
    events are the same notification under the two names of the input.  If
    [x] does not parse, both show the invalid-value toast and nothing else.
    Otherwise both close the main window and make the same call of
    [switchInput]; on its success both show the HUD with the parsed value,
    on its failure both show the [Switch Failed] toast with its message. *)
Theorem displayport_command_mirrors_hdmi (host : Host) (prefs : Legacy.Preferences)
    (tr : list event) :
  let x := Legacy.displayportValue prefs in
  let mirrored :=
    {| Legacy.displayportValue := x;
       Legacy.hdmiValue := x;
       Legacy.controlMyMonitorPath := Legacy.controlMyMonitorPath prefs;
       Legacy.monitorId := Legacy.monitorId prefs |} in
  exists common outcome,
    SwitchToDisplayPort.Command host prefs tr
    = (Returned tt, (common ++ [switchNotice "DisplayPort" x outcome])%list)
    /\ Legacy.Command host mirrored tr
       = (Returned tt, (common ++ [switchNotice "HDMI" x outcome])%list)
    /\ (outcome = None <-> parseInt x = NaN)
    /\ (outcome = None -> common = tr)
    /\ (forall r, outcome = Some r ->
          Legacy.switchInput host (parseInt x)
            (Legacy.orUndefined (Legacy.controlMyMonitorPath prefs))
            (Legacy.orElse (Legacy.monitorId prefs) "Primary")
            (tr ++ [CloseMainWindow])%list
          = (Returned r, common)).
Proof.
  intros x mirrored. subst mirrored.
  unfold SwitchToDisplayPort.Command, Legacy.Command.
  cbn [Legacy.hdmiValue Legacy.controlMyMonitorPath Legacy.monitorId].
  fold x.
  destruct (parseInt x) as [|n] eqn:Hp.
  - change (isNaN NaN) with true. cbv iota. unfold emit.
    exists tr, None. split; [reflexivity|]. split; [reflexivity|].
    split; [split; reflexivity|]. split; [reflexivity | discriminate].
  - change (isNaN (Num n)) with false. cbv iota. unfold bind, emit.
    destruct (switchInput_returns_aux host (Num n)
                (Legacy.orUndefined (Legacy.controlMyMonitorPath prefs))
                (Legacy.orElse (Legacy.monitorId prefs) "Primary")
                (tr ++ [CloseMainWindow])%list) as (r & tr' & Hr).
    rewrite Hr. exists tr', (Some r).
    unfold switchNotice. rewrite Hp.
    destruct (Legacy.success r);
      (split; [reflexivity|]); (split; [reflexivity|]);
      (split; [split; discriminate|]); (split; [discriminate|]);
      intros r' [= <-]; reflexivity.
Qed.

(** ** Second generation: validation in full *)

(** The object that [validatePreferences] returns, case by case. *)
Lemma validatePreferences_cases host prefs (platform : object) tr :
  let onDarwin := bool_decide (platform !! "os" = Some (VStr "darwin")) in
  let name := if onDarwin then "m1ddc" else "ControlMyMonitor.exe" in
  let path :=
    if onDarwin then Revised.m1ddcPath prefs else Revised.controlMyMonitorPath prefs in
  let hint :=
    if onDarwin
    then "Install via: brew install m1ddc and set the path in extension preferences."
    else "Download from https://www.nirsoft.net/utils/controlmymonitor.zip and set the path in extension preferences." in
  let toast status title message :=
    literal [ Spread (Revised.prefsObject prefs); Field "status" (VStr status);
              Field "title" (VStr title); Field "message" (VStr message) ] in
  Revised.validatePreferences host prefs platform tr
  = (Returned
       (if (String.eqb path EmptyString || String.eqb (trim path) EmptyString)%bool
        then toast "failure" (name +:+ " path not configured")
               ("Path to " +:+ name +:+ " is empty/unset. " +:+ hint)
        else if existsSync host path
             then literal [ Spread (Revised.prefsObject prefs);
                            Spread Revised.GenericSuccess ]
             else toast "failure" (name +:+ " not found") ("Path: " +:+ path)),
     tr).
Proof.
  intros onDarwin name path hint toast.
  unfold Revised.validatePreferences.
  unfold bind at 1. rewrite forEach_pure.
  2:{ intros x tr0. destruct (isNaN (parseInt (toStr x.2))); eexists; reflexivity. }
  fold onDarwin. fold path. subst name hint toast.
  destruct (String.eqb path EmptyString || String.eqb (trim path) EmptyString)%bool.
  - destruct onDarwin; reflexivity.
  - destruct (existsSync host path); simpl; [reflexivity|].
    destruct onDarwin; reflexivity.
Qed.

(** The preference and toast properties of the object built around
    [prefsObject]; the platform properties are absent from it. *)
Lemma lookup_prefs_toast prefs status title message :
  let o := literal [ Spread (Revised.prefsObject prefs); Field "status" (VStr status);
                     Field "title" (VStr title); Field "message" (VStr message) ] in
  o !! "status" = Some (VStr status) /\ o !! "title" = Some (VStr title)
  /\ o !! "message" = Some (VStr message)
  /\ o !! "displayPortValue" = Some (VStr (Revised.displayPortValue prefs))
  /\ o !! "hdmiValue" = Some (VStr (Revised.hdmiValue prefs))
  /\ o !! "m1ddcPath" = Some (VStr (Revised.m1ddcPath prefs))
  /\ o !! "controlMyMonitorPath" = Some (VStr (Revised.controlMyMonitorPath prefs))
  /\ o !! "monitorId" = Some (VStr (Revised.monitorId prefs))
  /\ o !! "os" = None /\ o !! "appleChipGen" = None /\ o !! "isWin32" = None
  /\ o !! "isAppleSilicon" = None /\ o !! "m1ddcSupportsBuiltinHdmi" = None
  /\ o !! "hdmiPortValue" = None.
Proof. vm_compute. repeat split. Qed.

Lemma lookup_prefs_success prefs :
  let o := literal [ Spread (Revised.prefsObject prefs); Spread Revised.GenericSuccess ] in
  o !! "status" = Some (VStr "success") /\ o !! "title" = Some (VStr EmptyString)
  /\ o !! "message" = Some (VStr EmptyString)
  /\ o !! "displayPortValue" = Some (VStr (Revised.displayPortValue prefs))
  /\ o !! "hdmiValue" = Some (VStr (Revised.hdmiValue prefs))
  /\ o !! "m1ddcPath" = Some (VStr (Revised.m1ddcPath prefs))
  /\ o !! "controlMyMonitorPath" = Some (VStr (Revised.controlMyMonitorPath prefs))
  /\ o !! "monitorId" = Some (VStr (Revised.monitorId prefs))
  /\ o !! "os" = None /\ o !! "appleChipGen" = None /\ o !! "isWin32" = None
  /\ o !! "isAppleSilicon" = None /\ o !! "m1ddcSupportsBuiltinHdmi" = None
  /\ o !! "hdmiPortValue" = None.
Proof. vm_compute. repeat split. Qed.

(** What every object returned by [validateHostPlatform] has and has not. *)
Lemma validateHostPlatform_keys host tr :
  exists pv tr1, Revised.validateHostPlatform host tr = (Returned pv, tr1)
    /\ spawned tr1
       = (spawned tr ++ (if String.eqb (platform host) "darwin" then [sysctlV2] else []))%list
    /\ (is_Some (pv !! "status") /\ is_Some (pv !! "title") /\ is_Some (pv !! "message"))
    /\ (is_Some (pv !! "os") /\ is_Some (pv !! "appleChipGen") /\ is_Some (pv !! "isWin32")
        /\ is_Some (pv !! "isAppleSilicon") /\ is_Some (pv !! "m1ddcSupportsBuiltinHdmi"))
    /\ (pv !! "displayPortValue" = None /\ pv !! "hdmiValue" = None
        /\ pv !! "m1ddcPath" = None /\ pv !! "controlMyMonitorPath" = None
        /\ pv !! "monitorId" = None /\ pv !! "hdmiPortValue" = None).
Proof.
  unfold Revised.validateHostPlatform, bind.
  destruct (platform_cases host) as [Hos|[Hos|[Hw Hd]]].
  - rewrite (Revised_detectPlatform_darwin host tr Hos), Hos. simpl.
    destruct (chipGenOf (run host tr sysctlV2)); simpl;
      do 2 eexists; (split; [reflexivity|]);
      (split; [rewrite spawned_app; reflexivity|]);
      vm_compute; repeat split; eexists; reflexivity.
  - rewrite (Revised_detectPlatform_win32 host tr Hos), Hos. simpl.
    do 2 eexists. split; [reflexivity|]. split; [rewrite app_nil_r; reflexivity|].
    vm_compute; repeat split; eexists; reflexivity.
  - rewrite (Revised_detectPlatform_unsupported host tr Hw Hd). simpl.
    destruct (String.eqb_spec (platform host) "darwin"); [contradiction|].
    do 2 eexists. split; [reflexivity|]. split; [rewrite app_nil_r; reflexivity|].
    vm_compute; repeat split; eexists; reflexivity.
Qed.

(** What every object returned by [validatePreferences] has and has not. *)
Lemma validatePreferences_keys host prefs (platform : object) tr :
  exists o, Revised.validatePreferences host prefs platform tr = (Returned o, tr)
    /\ (is_Some (o !! "status") /\ is_Some (o !! "title") /\ is_Some (o !! "message"))
    /\ (o !! "displayPortValue" = Some (VStr (Revised.displayPortValue prefs))
        /\ o !! "hdmiValue" = Some (VStr (Revised.hdmiValue prefs))
        /\ o !! "m1ddcPath" = Some (VStr (Revised.m1ddcPath prefs))
        /\ o !! "controlMyMonitorPath" = Some (VStr (Revised.controlMyMonitorPath prefs))
        /\ o !! "monitorId" = Some (VStr (Revised.monitorId prefs)))
    /\ (o !! "os" = None /\ o !! "appleChipGen" = None /\ o !! "isWin32" = None
        /\ o !! "isAppleSilicon" = None /\ o !! "m1ddcSupportsBuiltinHdmi" = None
        /\ o !! "hdmiPortValue" = None).
Proof.
  rewrite validatePreferences_cases.
  eexists. split; [reflexivity|].
  destruct (_ || _)%bool; [|destruct (existsSync host _)].
  - destruct (lookup_prefs_toast prefs "failure"
                ((if bool_decide (platform !! "os" = Some (VStr "darwin"))
                  then "m1ddc" else "ControlMyMonitor.exe") +:+ " path not configured")
                ("Path to " +:+ (if bool_decide (platform !! "os" = Some (VStr "darwin"))
                                 then "m1ddc" else "ControlMyMonitor.exe")
                 +:+ " is empty/unset. "
                 +:+ (if bool_decide (platform !! "os" = Some (VStr "darwin"))
                      then "Install via: brew install m1ddc and set the path in extension preferences."
                      else "Download from https://www.nirsoft.net/utils/controlmymonitor.zip and set the path in extension preferences.")))
      as (-> & -> & -> & H). split; [repeat split; eexists; reflexivity|].
    repeat split; apply H.
  - destruct (lookup_prefs_success prefs) as (-> & -> & -> & H).
    split; [repeat split; eexists; reflexivity|]. repeat split; apply H.
  - destruct (lookup_prefs_toast prefs "failure"
                ((if bool_decide (platform !! "os" = Some (VStr "darwin"))
                  then "m1ddc" else "ControlMyMonitor.exe") +:+ " not found")
                ("Path: " +:+ (if bool_decide (platform !! "os" = Some (VStr "darwin"))
                               then Revised.m1ddcPath prefs
                               else Revised.controlMyMonitorPath prefs)))
      as (-> & -> & -> & H). split; [repeat split; eexists; reflexivity|].
    repeat split; apply H.
Qed.

(** X14.  The combined validation of common.ts, on every host and for all
    preferences.  It adds no event to those of the platform validation.  If
    the platform validation failed, its object is returned as it is, and it
    carries none of the five preference values.  Otherwise the result reads
    its status, title and message from the preference validation, its five
    preference values from the preferences, under the names of the
    manifest, and its five platform properties from the platform
    validation.  In no case has it a property [hdmiPortValue], the one the
    commands read for the HDMI input code. *)
Theorem combined_validation_fields (host : Host) (prefs : Revised.Preferences)
    (tr : list event) :
  exists pv tr1 cv,
    Revised.validateHostPlatform host tr = (Returned pv, tr1)
    /\ Revised.validatePrerequisites host prefs tr = (Returned cv, tr1)
    /\ cv !! "hdmiPortValue" = None
    /\ (pv !! "status" = Some (VStr "failure") ->
        cv = pv
        /\ cv !! "displayPortValue" = None /\ cv !! "hdmiValue" = None
        /\ cv !! "m1ddcPath" = None /\ cv !! "controlMyMonitorPath" = None
        /\ cv !! "monitorId" = None)
    /\ (pv !! "status" <> Some (VStr "failure") ->
        exists o, Revised.validatePreferences host prefs pv tr1 = (Returned o, tr1)
          /\ (cv !! "status" = o !! "status" /\ cv !! "title" = o !! "title"
              /\ cv !! "message" = o !! "message")
          /\ (cv !! "displayPortValue" = Some (VStr (Revised.displayPortValue prefs))
              /\ cv !! "hdmiValue" = Some (VStr (Revised.hdmiValue prefs))
              /\ cv !! "m1ddcPath" = Some (VStr (Revised.m1ddcPath prefs))
              /\ cv !! "controlMyMonitorPath"
                 = Some (VStr (Revised.controlMyMonitorPath prefs))
              /\ cv !! "monitorId" = Some (VStr (Revised.monitorId prefs)))
          /\ (cv !! "os" = pv !! "os" /\ cv !! "appleChipGen" = pv !! "appleChipGen"
              /\ cv !! "isWin32" = pv !! "isWin32"
              /\ cv !! "isAppleSilicon" = pv !! "isAppleSilicon"
              /\ cv !! "m1ddcSupportsBuiltinHdmi" = pv !! "m1ddcSupportsBuiltinHdmi")).
Proof.
  destruct (validateHostPlatform_keys host tr)
    as (pv & tr1 & Hpv & _ & _ & _ & (Hn1 & Hn2 & Hn3 & Hn4 & Hn5 & Hn6)).
  destruct (validatePreferences_keys host prefs pv tr1)
    as (o & Ho & ([s Hs] & [t Ht] & [m Hm]) & (Hp1 & Hp2 & Hp3 & Hp4 & Hp5)
        & (Ho1 & Ho2 & Ho3 & Ho4 & Ho5 & Ho6)).
  unfold Revised.validatePrerequisites, bind. rewrite Hpv.
  destruct (bool_decide (pv !! "status" = Some (VStr "failure"))) eqn:Hd; simpl.
  - exists pv, tr1, pv. split; [reflexivity|]. split; [reflexivity|].
    split; [exact Hn6|].
    split; [intros _; repeat split; assumption|].
    intros Hnf. apply bool_decide_eq_true_1 in Hd. contradiction.
  - rewrite Ho. do 3 eexists. split; [reflexivity|]. split; [reflexivity|].
    split; [rewrite lookup_spread_spread, Ho6; exact Hn6|].
    split; [intros Hf; apply bool_decide_eq_false_1 in Hd; contradiction|].
    intros _. exists o. split; [exact Ho|].
    rewrite !lookup_spread_spread.
    rewrite Hs, Ht, Hm, Hp1, Hp2, Hp3, Hp4, Hp5, Ho1, Ho2, Ho3, Ho4, Ho5.
    repeat split.
Qed.

(** ** The toggle command, end to end *)

(** A failed platform validation is shown as it is. *)
Lemma Command_refuses_on_platform host prefs tr (pv : object) tr1 :
  Revised.validateHostPlatform host tr = (Returned pv, tr1) ->
  pv !! "status" = Some (VStr "failure") ->
  Revised.Command host prefs tr
  = (Returned tt,
     (tr1 ++ [ShowToast StyleFailure (toStr (pv !! "title")) (toStr (pv !! "message"))])%list).
Proof.
  intros Hpv Hst. unfold Revised.Command, Revised.validatePrerequisites, bind.
  rewrite Hpv, (bool_decide_eq_true_2 _ Hst). simpl.
  apply afterValidation_blocks. exact Hst.
Qed.

(** A failed preference validation is shown with its own title and
    message, not with those of the platform validation. *)
Lemma Command_refuses_on_preferences host prefs tr (pv : object) tr1 :
  Revised.validateHostPlatform host tr = (Returned pv, tr1) ->
  pv !! "status" <> Some (VStr "failure") ->
  let onDarwin := bool_decide (pv !! "os" = Some (VStr "darwin")) in
  let name := if onDarwin then "m1ddc" else "ControlMyMonitor.exe" in
  let path :=
    if onDarwin then Revised.m1ddcPath prefs else Revised.controlMyMonitorPath prefs in
  let hint :=
    if onDarwin
    then "Install via: brew install m1ddc and set the path in extension preferences."
    else "Download from https://www.nirsoft.net/utils/controlmymonitor.zip and set the path in extension preferences." in
  let refused title message :=
    Revised.Command host prefs tr
    = (Returned tt, (tr1 ++ [ShowToast StyleFailure title message])%list) in
  ((String.eqb path EmptyString || String.eqb (trim path) EmptyString)%bool = true ->
   refused (name +:+ " path not configured")
     ("Path to " +:+ name +:+ " is empty/unset. " +:+ hint))
  /\ ((String.eqb path EmptyString || String.eqb (trim path) EmptyString)%bool = false ->
      existsSync host path = false ->
      refused (name +:+ " not found") ("Path: " +:+ path)).
Proof.
  intros Hpv Hst onDarwin name path hint refused. subst refused.
  unfold Revised.Command, Revised.validatePrerequisites, bind.
  rewrite Hpv, (bool_decide_eq_false_2 _ Hst).
  change (negb false) with true. cbv beta iota.
  rewrite validatePreferences_cases. cbv zeta.
  fold onDarwin. fold name. fold path. fold hint.
  split.
  - intros Hb. rewrite Hb. unfold ret. cbv beta iota.
    destruct (lookup_prefs_toast prefs "failure" (name +:+ " path not configured")
                ("Path to " +:+ name +:+ " is empty/unset. " +:+ hint))
      as (Hs & Ht & Hm & _).
    rewrite afterValidation_blocks
      by (rewrite lookup_spread_spread; cbv zeta in Hs; rewrite Hs; reflexivity).
    rewrite !lookup_spread_spread. cbv zeta in Ht, Hm. rewrite Ht, Hm. reflexivity.
  - intros Hb He. rewrite Hb, He. unfold ret. cbv beta iota.
    destruct (lookup_prefs_toast prefs "failure" (name +:+ " not found")
                ("Path: " +:+ path)) as (Hs & Ht & Hm & _).
    rewrite afterValidation_blocks
      by (rewrite lookup_spread_spread; cbv zeta in Hs; rewrite Hs; reflexivity).
    rewrite !lookup_spread_spread. cbv zeta in Ht, Hm. rewrite Ht, Hm. reflexivity.
Qed.

(** The platform validation on macOS with a chip classified as Intel. *)
Lemma validateHostPlatform_intel host tr :
  platform host = "darwin" ->
  chipGenOf (run host tr sysctlV2) = intel ->
  exists pv, Revised.validateHostPlatform host tr
             = (Returned pv, (tr ++ [Spawn sysctlV2])%list)
    /\ pv !! "status" = Some (VStr "failure")
    /\ pv !! "title" = Some (VStr "m1ddc requires Apple Silicon (M1 or later)")
    /\ pv !! "message"
       = Some (VStr "M1 is partially supported, Intel Macs are not supported.").
Proof.
  intros Hos Hg. unfold Revised.validateHostPlatform, bind.
  rewrite (Revised_detectPlatform_darwin host tr Hos), Hg. simpl.
  eexists. split; [reflexivity|]. vm_compute. repeat split.
Qed.

(** X15.  When the toggle command refuses on macOS or Windows, it shows one
    failure toast and does nothing else: it does not close the main
    window, sleep or run the DDC tool.  An Intel Mac is refused before the
    preferences are looked at; otherwise a tool path that is empty or only
    white space is reported as not configured, and a path at which no file
    exists is reported as not found, under the name of the platform's tool
    ([m1ddc] on macOS, [ControlMyMonitor.exe] on Windows). *)
Theorem toggle_command_refusals (host : Host) (prefs : Revised.Preferences)
    (tr : list event) :
  let onDarwin := String.eqb (platform host) "darwin" in
  let probe := if onDarwin then [Spawn sysctlV2] else [] in
  let name := if onDarwin then "m1ddc" else "ControlMyMonitor.exe" in
  let path :=
    if onDarwin then Revised.m1ddcPath prefs else Revised.controlMyMonitorPath prefs in
  let hint :=
    if onDarwin
    then "Install via: brew install m1ddc and set the path in extension preferences."
    else "Download from https://www.nirsoft.net/utils/controlmymonitor.zip and set the path in extension preferences." in
  let blank := (String.eqb path EmptyString || String.eqb (trim path) EmptyString)%bool in
  let platformOk :=
    platform host = "win32"
    \/ (platform host = "darwin" /\ chipGenOf (run host tr sysctlV2) <> intel) in
  let refused title message :=
    Revised.Command host prefs tr
    = (Returned tt, (tr ++ probe ++ [ShowToast StyleFailure title message])%list) in
  (platform host = "darwin" -> chipGenOf (run host tr sysctlV2) = intel ->
   refused "m1ddc requires Apple Silicon (M1 or later)"
     "M1 is partially supported, Intel Macs are not supported.")
  /\ (platformOk -> blank = true ->
      refused (name +:+ " path not configured")
        ("Path to " +:+ name +:+ " is empty/unset. " +:+ hint))
  /\ (platformOk -> blank = false -> existsSync host path = false ->
      refused (name +:+ " not found") ("Path: " +:+ path)).
Proof.
  intros onDarwin probe name path hint blank platformOk refused.
  assert (Hprefs : platformOk ->
            (blank = true ->
             refused (name +:+ " path not configured")
               ("Path to " +:+ name +:+ " is empty/unset. " +:+ hint))
            /\ (blank = false -> existsSync host path = false ->
                refused (name +:+ " not found") ("Path: " +:+ path))).
  { intros [Hos|[Hos Hg]].
    - assert (Hnd : platform host <> "darwin") by (rewrite Hos; discriminate).
      destruct (validateHostPlatform_other host tr Hnd) as (pv & Hpv & Hst & Hpos).
      rewrite Hos in Hst, Hpos. simpl in Hst, Hpos.
      assert (Hnf : pv !! "status" <> Some (VStr "failure")) by (rewrite Hst; discriminate).
      pose proof (Command_refuses_on_preferences host prefs tr pv tr Hpv Hnf) as H.
      cbv zeta in H. rewrite Hpos in H.
      rewrite (bool_decide_eq_false_2 (Some (VStr "win32") = Some (VStr "darwin")))
        in H by discriminate.
      subst refused blank hint path name probe onDarwin. rewrite Hos. simpl. exact H.
    - destruct (validateHostPlatform_darwin host tr Hos) as (pv & Hpv & Hst & Hpos & _).
      assert (Hnf : pv !! "status" <> Some (VStr "failure")).
      { rewrite Hst. destruct (chipGenOf (run host tr sysctlV2));
          first [discriminate | contradiction]. }
      pose proof (Command_refuses_on_preferences host prefs tr pv _ Hpv Hnf) as H.
      cbv zeta in H. rewrite Hpos in H.
      rewrite (bool_decide_eq_true_2 (Some (VStr "darwin") = Some (VStr "darwin")))
        in H by reflexivity.
      subst refused blank hint path name probe onDarwin. rewrite Hos. simpl.
      rewrite <- !app_assoc in H. exact H. }
  split; [|split].
  - intros Hos Hg.
    destruct (validateHostPlatform_intel host tr Hos Hg) as (pv & Hpv & Hst & Ht & Hm).
    subst refused probe onDarwin. cbv beta. rewrite Hos. simpl.
    rewrite (Command_refuses_on_platform host prefs tr pv _ Hpv Hst), Ht, Hm.
    rewrite <- app_assoc. reflexivity.
  - intros Hok. apply (Hprefs Hok).
  - intros Hok. apply (Hprefs Hok).
Qed.

Lemma toggle_command_refusals_witness :
  let host := scriptedHost "win32" [] (Exited 0 EmptyString EmptyString)
                ["C:\Tools\ControlMyMonitor.exe"] in
  let prefs :=
    {| Revised.displayPortValue := "15"; Revised.hdmiValue := "17";
       Revised.m1ddcPath := "/opt/homebrew/bin/m1ddc";
       Revised.controlMyMonitorPath := "C:\Tools\ControlMyMonitor.exe";
       Revised.monitorId := EmptyString |} in
  Revised.Command host prefs []
  = (Returned tt,
     [ShowToast StyleFailure "ControlMyMonitor.exe not found"
        "Path: C:\Tools\ControlMyMonitor.exe"]).
Proof.
  intros host prefs.
  destruct (toggle_command_refusals host prefs []) as (_ & _ & Hmissing).
  apply Hmissing; [left; reflexivity | reflexivity | reflexivity].
Defined.

(** The [ToastResult] of the second generation's [switchInput], in full. *)
Lemma Revised_switchInput_object host platformOs v m exePath tr :
  let onDarwin := bool_decide (platformOs = Some (VStr "darwin")) in
  let c := if onDarwin
           then (DQ +:+ exePath +:+ DQ) +:+ " set input " +:+ numberToString v
           else windowsSetValue exePath m v in
  (exitedZero host tr c ->
   Revised.switchInput host platformOs v m exePath tr
   = (Returned Revised.GenericSuccess, (tr ++ [Spawn c])%list))
  /\ (forall e, execFails host tr c e ->
        Revised.switchInput host platformOs v m exePath tr
        = (Returned
             (literal
                [ Field "status" (VStr "failure");
                  Field "title"
                    (VStr ("Failed to switch to input " +:+ numberToString v
                           +:+ " via " +:+ exePath));
                  Field "message" (VStr (dispatchFailureText onDarwin e +:+ " :: ")) ]),
           (tr ++ [Spawn c])%list)).
Proof.
  intros onDarwin c. unfold Revised.switchInput, bind. fold onDarwin.
  split.
  - intros (out & msg & Hrun). subst c. destruct onDarwin.
    + unfold Revised.switchInputMacToWindows, tryCatch, bind.
      rewrite (execSync_exitedZero _ _ _ _ _ Hrun). reflexivity.
    + unfold Revised.switchInputWindowsToMac, tryCatch, bind.
      change (_ +:+ " /SetValue " +:+ _) with (windowsSetValue exePath m v).
      rewrite (execSync_exitedZero _ _ _ _ _ Hrun). reflexivity.
  - intros e Hf. subst c. destruct onDarwin.
    + unfold Revised.switchInputMacToWindows, tryCatch, bind.
      rewrite (execSync_fails _ _ _ _ Hf). unfold dispatchFailureText.
      destruct (includes e "No displays found");
        [|destruct (includes e "DDC communication failed")]; reflexivity.
    + unfold Revised.switchInputWindowsToMac, tryCatch, bind.
      change (_ +:+ " /SetValue " +:+ _) with (windowsSetValue exePath m v).
      rewrite (execSync_fails _ _ _ _ Hf). reflexivity.
Qed.

(** Reading the three properties of a toast literal. *)
Lemma lookup_toast_fields (status title message : value) :
  let o := literal [ Field "status" status; Field "title" title;
                     Field "message" message ] in
  o !! "status" = Some status /\ o !! "title" = Some title
  /\ o !! "message" = Some message.
Proof. vm_compute. repeat split. Qed.

(** The whole trace of the command once validation has let it through. *)
Lemma afterValidation_trace host (cv : object) tr :
  cv !! "status" <> Some (VStr "failure") ->
  let onDarwin := bool_decide (cv !! "os" = Some (VStr "darwin")) in
  let exePath :=
    toStr (if onDarwin then cv !! "m1ddcPath" else cv !! "controlMyMonitorPath") in
  let input :=
    parseInt (toStr (if onDarwin then cv !! "displayPortValue"
                     else cv !! "hdmiPortValue")) in
  let monitor :=
    if truthy (cv !! "monitorId") then toStr (cv !! "monitorId") else "Primary" in
  let c := if onDarwin
           then (DQ +:+ exePath +:+ DQ) +:+ " set input " +:+ numberToString input
           else windowsSetValue exePath monitor input in
  let before :=
    (tr ++ [ CloseMainWindow;
             ShowToast StyleAnimated "Switching!"
               ("To input " +:+ numberToString input +:+ " via " +:+ exePath);
             Sleep 3000 ])%list in
  (exitedZero host before c ->
   Revised.afterValidation host cv tr
   = (Returned tt,
      (before ++ [ Spawn c;
                   UpdateToast StyleSuccess
                     ("✓ Switched to input (" +:+ numberToString input +:+ ")")
                     EmptyString ])%list))
  /\ (forall e, execFails host before c e ->
        Revised.afterValidation host cv tr
        = (Returned tt,
           (before ++ [ Spawn c;
                        UpdateToast StyleFailure
                          ("Failed to switch to input " +:+ numberToString input
                           +:+ " via " +:+ exePath)
                          (dispatchFailureText onDarwin e +:+ " :: ") ])%list)).
Proof.
  intros Hst onDarwin exePath input monitor c before.
  unfold Revised.afterValidation.
  rewrite (bool_decide_eq_false_2 _ Hst).
  fold onDarwin.
  replace (toStr (if onDarwin then cv !! "m1ddcPath" else cv !! "controlMyMonitorPath"))
    with exePath by reflexivity.
  replace (if onDarwin
           then parseInt (toStr (cv !! "displayPortValue"))
           else parseInt (toStr (cv !! "hdmiPortValue")))
    with input by (unfold input; destruct onDarwin; reflexivity).
  fold monitor.
  unfold bind, emit.
  assert (Hbefore :
            (((tr ++ [CloseMainWindow]) ++
              [ShowToast StyleAnimated "Switching!"
                 ("To input " +:+ numberToString input +:+ " via " +:+ exePath)]) ++
             [Sleep 3000])%list = before).
  { unfold before. rewrite <- !app_assoc. reflexivity. }
  rewrite Hbefore.
  destruct (Revised_switchInput_object host (cv !! "os") input monitor exePath before)
    as (Hok & Hfail).
  fold onDarwin in Hok, Hfail. fold c in Hok, Hfail.
  split.
  - intros Hz. rewrite (Hok Hz).
    rewrite (bool_decide_eq_true_2
               (Revised.GenericSuccess !! "status" = Some (VStr "success")))
      by (vm_compute; reflexivity).
    rewrite <- !app_assoc. reflexivity.
  - intros e Hf. rewrite (Hfail e Hf).
    destruct (lookup_toast_fields (VStr "failure")
                (VStr ("Failed to switch to input " +:+ numberToString input
                       +:+ " via " +:+ exePath))
                (VStr (dispatchFailureText onDarwin e +:+ " :: ")))
      as (Hs & Ht & Hm).
    cbv zeta in Hs, Ht, Hm. rewrite Hs, Ht, Hm.
    rewrite (bool_decide_eq_false_2 (Some (VStr "failure") = Some (VStr "success")))
      by discriminate.
    rewrite <- !app_assoc. reflexivity.
Qed.

(** The platform validation on Windows. *)
Lemma validateHostPlatform_win32 host tr :
  platform host = "win32" ->
  exists pv, Revised.validateHostPlatform host tr = (Returned pv, tr)
    /\ pv !! "status" = Some (VStr "success")
    /\ pv !! "os" = Some (VStr "win32")
    /\ pv !! "isAppleSilicon" = Some (VBool false)
    /\ pv !! "hdmiPortValue" = None.
Proof.
  intros Hos. unfold Revised.validateHostPlatform, bind.
  rewrite (Revised_detectPlatform_win32 host tr Hos). simpl.
  eexists. split; [reflexivity|]. vm_compute. repeat split.
Qed.

(** On Windows, with an existing, non-blank tool path, the combined
    validation succeeds without running anything. *)
Lemma validatePrerequisites_win32_ready host prefs tr :
  platform host = "win32" ->
  (String.eqb (Revised.controlMyMonitorPath prefs) EmptyString
   || String.eqb (trim (Revised.controlMyMonitorPath prefs)) EmptyString)%bool = false ->
  existsSync host (Revised.controlMyMonitorPath prefs) = true ->
  exists cv, Revised.validatePrerequisites host prefs tr = (Returned cv, tr)
    /\ cv !! "status" = Some (VStr "success")
    /\ cv !! "os" = Some (VStr "win32")
    /\ cv !! "controlMyMonitorPath" = Some (VStr (Revised.controlMyMonitorPath prefs))
    /\ cv !! "hdmiPortValue" = None
    /\ cv !! "monitorId" = Some (VStr (Revised.monitorId prefs)).
Proof.
  intros Hos Hblank Hexists.
  destruct (validateHostPlatform_win32 host tr Hos) as (pv & Hpv & Hst & Hpos & _ & Hno).
  destruct (validatePreferences_result host prefs pv tr) as (o & Ho & _ & Hshape).
  rewrite Hpos in Hshape.
  rewrite (bool_decide_eq_false_2 (Some (VStr "win32") = Some (VStr "darwin")))
    in Hshape by discriminate.
  simpl in Hshape. rewrite Hblank, Hexists in Hshape.
  specialize (Hshape eq_refl). subst o.
  unfold Revised.validatePrerequisites, bind. rewrite Hpv, Hst.
  rewrite (bool_decide_eq_false_2 (Some (VStr "success") = Some (VStr "failure")))
    by discriminate.
  simpl. rewrite Ho.
  eexists. split; [reflexivity|].
  rewrite !lookup_spread_spread, Hpos, Hno. vm_compute. repeat split.
Qed.

(** X16.  A run of the toggle command that passes validation, on macOS
    (chip not classified as Intel) or on Windows, with a tool path that is
    not blank and exists.  The command closes the main window, shows the
    animated toast, sleeps 3000 ms and hands one command line to
    [execSync].  On macOS it sends the configured DisplayPort value through
    m1ddc.  On Windows it goes through ControlMyMonitor for the configured
    monitor, or [Primary] when none is configured, and the value it sends
    is always [NaN]: the command reads the property [hdmiPortValue], which
    the preferences do not have, so the HDMI value that is configured is
    never used.  If the child exits with status 0 the toast becomes the
    success toast; otherwise it becomes a failure toast whose message is the
    failure text followed by [ :: ] and nothing else, because a failed
    dispatch never carries raw output. *)
Theorem toggle_command_run (host : Host) (prefs : Revised.Preferences)
    (tr : list event) :
  let onDarwin := String.eqb (platform host) "darwin" in
  let probe := if onDarwin then [Spawn sysctlV2] else [] in
  let path :=
    if onDarwin then Revised.m1ddcPath prefs else Revised.controlMyMonitorPath prefs in
  let input := if onDarwin then parseInt (Revised.displayPortValue prefs) else NaN in
  let monitor :=
    if String.eqb (Revised.monitorId prefs) EmptyString then "Primary"
    else Revised.monitorId prefs in
  let c := if onDarwin
           then (DQ +:+ path +:+ DQ) +:+ " set input " +:+ numberToString input
           else windowsSetValue path monitor input in
  let before :=
    (tr ++ probe
        ++ [ CloseMainWindow;
             ShowToast StyleAnimated "Switching!"
               ("To input " +:+ numberToString input +:+ " via " +:+ path);
             Sleep 3000 ])%list in
  platform host = "win32"
  \/ (platform host = "darwin" /\ chipGenOf (run host tr sysctlV2) <> intel) ->
  (String.eqb path EmptyString || String.eqb (trim path) EmptyString)%bool = false ->
  existsSync host path = true ->
  (exitedZero host before c ->
   Revised.Command host prefs tr
   = (Returned tt,
      (before ++ [ Spawn c;
                   UpdateToast StyleSuccess
                     ("✓ Switched to input (" +:+ numberToString input +:+ ")")
                     EmptyString ])%list))
  /\ (forall e, execFails host before c e ->
        Revised.Command host prefs tr
        = (Returned tt,
           (before ++ [ Spawn c;
                        UpdateToast StyleFailure
                          ("Failed to switch to input " +:+ numberToString input
                           +:+ " via " +:+ path)
                          (dispatchFailureText onDarwin e +:+ " :: ") ])%list)).
Proof.
  intros onDarwin probe path input monitor c before [Hos|[Hos Hg]] Hblank Hexists.
  - subst before c monitor input path probe onDarwin.
    rewrite Hos in *. simpl in Hblank, Hexists. simpl.
    destruct (validatePrerequisites_win32_ready host prefs tr Hos Hblank Hexists)
      as (cv & Hcv & Hst & Hcos & Hpath & Hhdmi & Hmon).
    assert (Hnf : cv !! "status" <> Some (VStr "failure")) by (rewrite Hst; discriminate).
    pose proof (afterValidation_trace host cv tr Hnf) as H.
    cbv zeta in H. rewrite Hcos, Hpath, Hhdmi, Hmon in H.
    rewrite (bool_decide_eq_false_2 (Some (VStr "win32") = Some (VStr "darwin")))
      in H by discriminate.
    unfold Revised.Command, bind. rewrite Hcv.
    unfold truthy, toStr in H.
    destruct (String.eqb (Revised.monitorId prefs) EmptyString); exact H.
  - subst before c monitor input path probe onDarwin.
    rewrite Hos in *. simpl in Hblank, Hexists. simpl.
    destruct (validatePrerequisites_darwin_ready host prefs tr Hos Hg Hblank Hexists)
      as (cv & Hcv & Hst & Hcos & Hpath & Hdp & Hmon).
    assert (Hnf : cv !! "status" <> Some (VStr "failure")) by (rewrite Hst; discriminate).
    pose proof (afterValidation_trace host cv (tr ++ [Spawn sysctlV2])%list Hnf) as H.
    cbv zeta in H. rewrite Hcos, Hpath, Hdp in H.
    rewrite (bool_decide_eq_true_2 (Some (VStr "darwin") = Some (VStr "darwin")))
      in H by reflexivity.
    unfold Revised.Command, bind. rewrite Hcv.
    unfold toStr in H. rewrite <- !(app_assoc tr [Spawn sysctlV2]) in H. exact H.
Qed.

Lemma toggle_command_run_witness :
  let host :=
    scriptedHost "win32" [("/SetValue", Exited 1 EmptyString "Command failed")]
      (Exited 0 EmptyString EmptyString) [] in
  let prefs :=
    {| Revised.displayPortValue := "15"; Revised.hdmiValue := "17";
       Revised.m1ddcPath := EmptyString;
       Revised.controlMyMonitorPath := "C:\Tools\ControlMyMonitor.exe";
       Revised.monitorId := EmptyString |} in
  let c := windowsSetValue "C:\Tools\ControlMyMonitor.exe" "Primary" NaN in
  Revised.Command host prefs []
  = (Returned tt,
     [ CloseMainWindow;
       ShowToast StyleAnimated "Switching!"
         "To input NaN via C:\Tools\ControlMyMonitor.exe";
       Sleep 3000;
       Spawn c;
       UpdateToast StyleFailure
         "Failed to switch to input NaN via C:\Tools\ControlMyMonitor.exe"
         "ControlMyMonitor error: Command failed :: " ]).
Proof.
  intros host prefs c.
  destruct (toggle_command_run host prefs [] (or_introl eq_refl) eq_refl eq_refl)
    as (_ & Hfail).
  apply (Hfail "Command failed").
  left. exists 1, EmptyString. split; [discriminate | reflexivity].
Defined.

(** ** The discovery command (second generation) *)

(** Whenever the platform validation does not fail, the combined validation
    carries the platform's [os] and [isAppleSilicon] and the preferences. *)
Lemma validatePrerequisites_passes_platform host prefs tr (pv : object) tr1 :
  Revised.validateHostPlatform host tr = (Returned pv, tr1) ->
  pv !! "status" <> Some (VStr "failure") ->
  exists cv, Revised.validatePrerequisites host prefs tr = (Returned cv, tr1)
    /\ cv !! "os" = pv !! "os"
    /\ cv !! "isAppleSilicon" = pv !! "isAppleSilicon"
    /\ cv !! "displayPortValue" = Some (VStr (Revised.displayPortValue prefs))
    /\ cv !! "m1ddcPath" = Some (VStr (Revised.m1ddcPath prefs))
    /\ cv !! "controlMyMonitorPath" = Some (VStr (Revised.controlMyMonitorPath prefs))
    /\ cv !! "monitorId" = Some (VStr (Revised.monitorId prefs)).
Proof.
  intros Hpv Hnf.
  destruct (validatePreferences_keys host prefs pv tr1)
    as (o & Ho & _ & (Hp1 & _ & Hp3 & Hp4 & Hp5) & (Ho1 & _ & _ & Ho4 & _)).
  unfold Revised.validatePrerequisites, bind.
  rewrite Hpv, (bool_decide_eq_false_2 _ Hnf). simpl. rewrite Ho.
  eexists. split; [reflexivity|].
  rewrite !lookup_spread_spread, Hp1, Hp3, Hp4, Hp5, Ho1, Ho4. repeat split.
Qed.

(** [discoverInputs] always returns, after running its first query. *)
Lemma Revised_discoverInputs_returns host platformOs m exePath tr :
  let onDarwin := bool_decide (platformOs = Some (VStr "darwin")) in
  let primary :=
    (DQ +:+ exePath +:+ DQ) +:+ (if onDarwin then " get input" else " /smonitors") in
  exists r tr', Revised.discoverInputs host platformOs m exePath tr = (Returned r, tr')
    /\ (exists rest, tr' = (tr ++ Spawn primary :: rest)%list)
    /\ (forall e, execFails host tr primary e ->
          tr' = (tr ++ [Spawn primary])%list
          /\ Revised.d_success r = false
          /\ Revised.error r
             = Some ((if onDarwin then "m1ddc error: " else "ControlMyMonitor error: ")
                     +:+ e)).
Proof.
  intros onDarwin primary. unfold Revised.discoverInputs. fold onDarwin.
  subst primary. destruct onDarwin.
  - destruct (exitedZero_or_fails host tr ((DQ +:+ exePath +:+ DQ) +:+ " get input"))
      as [(out & msg & H)|[e He]].
    + destruct (Revised_discoverMacOS_ok host exePath tr out msg H) as (info & -> & _).
      do 2 eexists. split; [reflexivity|]. split.
      * eexists. rewrite <- app_assoc. reflexivity.
      * intros e He. exfalso.
        refine (exitedZero_not_fails host tr _ e _ He). exists out, msg. exact H.
    + rewrite (Revised_discoverMacOS_fail host exePath tr e He).
      do 2 eexists. split; [reflexivity|]. split.
      * exists []. reflexivity.
      * intros e' He'. split; [reflexivity|]. split; [reflexivity|].
        simpl. do 2 f_equal.
        destruct He as [(s1 & o1 & _ & H1)|H1], He' as [(s2 & o2 & _ & H2)|H2];
          rewrite H1 in H2; congruence.
  - destruct (exitedZero_or_fails host tr ((DQ +:+ exePath +:+ DQ) +:+ " /smonitors"))
      as [(out & msg & H)|[e He]].
    + destruct (Revised_discoverWindows_ok host exePath m tr out msg H) as (info & -> & _).
      do 2 eexists. split; [reflexivity|]. split.
      * eexists. rewrite <- app_assoc. reflexivity.
      * intros e He. exfalso.
        refine (exitedZero_not_fails host tr _ e _ He). exists out, msg. exact H.
    + rewrite (Revised_discoverWindows_fail host exePath m tr e He).
      do 2 eexists. split; [reflexivity|]. split.
      * exists []. reflexivity.
      * intros e' He'. split; [reflexivity|]. split; [reflexivity|].
        simpl. do 2 f_equal.
        destruct He as [(s1 & o1 & _ & H1)|H1], He' as [(s2 & o2 & _ & H2)|H2];
          rewrite H1 in H2; congruence.
Qed.

(** What one of the joined parts contains, the joined text contains. *)
Lemma includes_join (sep : string) (parts : list string) (x n : string) :
  In x parts -> includes x n = true -> includes (join sep parts) n = true.
Proof.
  induction parts as [|p rest IH]; [intros []|].
  intros [->|Hin] Hn.
  - destruct rest; [exact Hn | apply includes_app_l; exact Hn].
  - destruct rest as [|q rest']; [destruct Hin|].
    change (join sep (p :: q :: rest')) with (p +:+ sep +:+ join sep (q :: rest')).
    apply includes_app_r, includes_app_r, IH; assumption.
Qed.

(** X17.  The discovery command stops before any discovery in two cases.
    On a platform that is neither macOS nor Windows it returns and logs the
    text [Nothing could be retrieved] and runs nothing.  On a Mac whose chip
    is classified as Intel it returns and logs the platform information
    alone, without the configuration, the discovery results or the manual
    instructions, and the only process it has run is the sysctl query. *)
Theorem discover_command_stops_early (host : Host) (prefs : Revised.Preferences)
    (tr : list event) :
  let title := "# DDC/CI Input Discovery" in
  (platform host <> "win32" -> platform host <> "darwin" ->
   DiscoverInputs.Command host prefs tr
   = (Returned {| DiscoverInputs.markdown := "### Nothing could be retrieved!";
                  DiscoverInputs.navigationTitle := Some title;
                  DiscoverInputs.logged := Some "### Nothing could be retrieved!" |},
      tr))
  /\ (platform host = "darwin" -> chipGenOf (run host tr sysctlV2) = intel ->
      let platformInfo :=
        join LF [ EmptyString; "## Platform Information"; EmptyString;
                  "- **OS**: darwin"; "- **Apple Silicon**: No";
                  "- **Chip Generation**: intel";
                  "- **Built-in HDMI Supported**: No (M1 or Intel)"; EmptyString ] in
      let markdown := LF +:+ "      " +:+ platformInfo +:+ LF +:+ "      " in
      DiscoverInputs.Command host prefs tr
      = (Returned {| DiscoverInputs.markdown := markdown;
                     DiscoverInputs.navigationTitle := Some title;
                     DiscoverInputs.logged := Some markdown |},
         (tr ++ [Spawn sysctlV2])%list)).
Proof.
  intros title. split.
  - intros Hw Hd.
    destruct (validateHostPlatform_unsupported host tr Hw Hd)
      as (pv & Hpv & Hst & _ & _ & Hpos & _).
    unfold DiscoverInputs.Command, Revised.validatePrerequisites, bind.
    rewrite Hpv, (bool_decide_eq_true_2 _ Hst).
    change (negb true) with false. unfold ret. cbv beta iota.
    rewrite (bool_decide_eq_true_2 _ Hpos). reflexivity.
  - intros Hos Hg platformInfo markdown.
    unfold DiscoverInputs.Command, Revised.validatePrerequisites,
      Revised.validateHostPlatform, bind.
    rewrite (Revised_detectPlatform_darwin host tr Hos), Hg.
    generalize (tr ++ [Spawn sysctlV2])%list. intros tr1.
    vm_compute. reflexivity.
Qed.

Lemma discover_command_stops_early_witness :
  let host := macHost "Intel(R) Core(TM) i7-9750H CPU @ 2.60GHz" in
  exists d, DiscoverInputs.Command host (macPrefs "15" "17") []
            = (Returned d, [Spawn sysctlV2])
    /\ DiscoverInputs.logged d = Some (DiscoverInputs.markdown d)
    /\ includes (DiscoverInputs.markdown d) "- **Chip Generation**: intel" = true
    /\ includes (DiscoverInputs.markdown d) "## Current Configuration" = false.
Proof.
  intros host.
  destruct (discover_command_stops_early host (macPrefs "15" "17") []) as (_ & Hintel).
  eexists. split; [apply Hintel; reflexivity|].
  split; [reflexivity|]. split; reflexivity.
Defined.

(** X18.  On Windows, and on a Mac whose chip is not classified as Intel,
    the discovery command runs the first discovery query whatever the
    preference validation said: the status of the validation is never
    looked at, so a blank or missing tool path is queried as it is.  The
    command then neither logs nor sets a navigation title.  When that query
    fails, nothing else is run and the markdown carries the error text. *)
Theorem discover_command_runs_discovery (host : Host) (prefs : Revised.Preferences)
    (tr : list event) :
  let onDarwin := String.eqb (platform host) "darwin" in
  let probe := if onDarwin then [Spawn sysctlV2] else [] in
  let path :=
    if onDarwin then Revised.m1ddcPath prefs else Revised.controlMyMonitorPath prefs in
  let primary :=
    (DQ +:+ path +:+ DQ) +:+ (if onDarwin then " get input" else " /smonitors") in
  platform host = "win32"
  \/ (platform host = "darwin" /\ chipGenOf (run host tr sysctlV2) <> intel) ->
  exists d tr', DiscoverInputs.Command host prefs tr = (Returned d, tr')
    /\ (exists rest, tr' = (tr ++ probe ++ Spawn primary :: rest)%list)
    /\ DiscoverInputs.navigationTitle d = None
    /\ DiscoverInputs.logged d = None
    /\ (forall e, execFails host (tr ++ probe)%list primary e ->
          tr' = (tr ++ probe ++ [Spawn primary])%list
          /\ includes (DiscoverInputs.markdown d)
               ("**Error**: "
                +:+ (if onDarwin then "m1ddc error: " else "ControlMyMonitor error: ")
                +:+ e) = true).
Proof.
  intros onDarwin probe path primary Hok.
  assert (Hcv : exists cv,
             Revised.validatePrerequisites host prefs tr = (Returned cv, (tr ++ probe)%list)
             /\ cv !! "os" = Some (VStr (if onDarwin then "darwin" else "win32"))
             /\ cv !! "isAppleSilicon" = Some (VBool onDarwin)
             /\ cv !! "displayPortValue" = Some (VStr (Revised.displayPortValue prefs))
             /\ cv !! "m1ddcPath" = Some (VStr (Revised.m1ddcPath prefs))
             /\ cv !! "controlMyMonitorPath"
                = Some (VStr (Revised.controlMyMonitorPath prefs))
             /\ cv !! "monitorId" = Some (VStr (Revised.monitorId prefs))).
  { subst probe onDarwin. destruct Hok as [Hos|[Hos Hg]]; rewrite Hos; simpl.
    - destruct (validateHostPlatform_win32 host tr Hos)
        as (pv & Hpv & Hst & Hpos & Hsil & _).
      assert (Hnf : pv !! "status" <> Some (VStr "failure")) by (rewrite Hst; discriminate).
      destruct (validatePrerequisites_passes_platform host prefs tr pv tr Hpv Hnf)
        as (cv & Hcv & H1 & H2 & H3).
      exists cv. rewrite app_nil_r, H1, H2. repeat split; try assumption; apply H3.
    - destruct (validateHostPlatform_darwin host tr Hos)
        as (pv & Hpv & Hst & Hpos & _ & Hsil).
      assert (Hnf : pv !! "status" <> Some (VStr "failure")).
      { rewrite Hst. destruct (chipGenOf (run host tr sysctlV2));
          first [discriminate | contradiction]. }
      rewrite (bool_decide_eq_false_2 _ Hg) in Hsil.
      destruct (validatePrerequisites_passes_platform host prefs tr pv _ Hpv Hnf)
        as (cv & Hcv & H1 & H2 & H3).
      exists cv. rewrite H1, H2. repeat split; try assumption; apply H3. }
  destruct Hcv as (cv & Hcv & Hcos & Hsil & Hdp & Hm1 & Hcmm & Hmon).
  assert (Hexe : toStr (if truthy (cv !! "isAppleSilicon")
                        then cv !! "m1ddcPath" else cv !! "controlMyMonitorPath") = path).
  { rewrite Hsil, Hm1, Hcmm. subst path. destruct onDarwin; reflexivity. }
  assert (Hdarwin : bool_decide (cv !! "os" = Some (VStr "darwin")) = onDarwin).
  { rewrite Hcos. destruct onDarwin; reflexivity. }
  destruct (Revised_discoverInputs_returns host (cv !! "os")
              (DiscoverInputs.orText (cv !! "monitorId") "Primary") path
              (tr ++ probe)%list) as (r & tr' & Hd & [rest Hrest] & Hfail).
  rewrite Hdarwin in Hrest, Hfail. fold primary in Hrest, Hfail.
  unfold DiscoverInputs.Command, bind. rewrite Hcv. cbv beta iota.
  rewrite (bool_decide_eq_false_2 (cv !! "os" = Some (VStr "unsupported")))
    by (rewrite Hcos; destruct onDarwin; discriminate).
  rewrite (bool_decide_eq_true_2 (is_Some (cv !! "displayPortValue")))
    by (rewrite Hdp; eauto).
  change (negb true) with false. cbv beta iota. rewrite Hexe, Hd. unfold ret.
  do 2 eexists. split; [reflexivity|].
  split; [exists rest; rewrite Hrest, <- app_assoc; reflexivity|].
  split; [reflexivity|]. split; [reflexivity|].
  intros e He. destruct (Hfail e He) as (Htr & Hs & Herr).
  split; [rewrite Htr, <- app_assoc; reflexivity|].
  cbn [DiscoverInputs.markdown]. rewrite Hs, Herr, Hdarwin.
  eapply includes_join; [do 4 right; left; reflexivity|].
  eapply includes_join; [do 2 right; left; reflexivity|].
  apply includes_refl.
Qed.

Lemma discover_command_runs_discovery_witness :
  let host :=
    scriptedHost "win32" [("/smonitors", Exited 1 EmptyString "The system cannot find the path specified.")]
      (Exited 0 EmptyString EmptyString) [] in
  let prefs :=
    {| Revised.displayPortValue := "15"; Revised.hdmiValue := "17";
       Revised.m1ddcPath := EmptyString; Revised.controlMyMonitorPath := EmptyString;
       Revised.monitorId := EmptyString |} in
  let primary := DQ +:+ DQ +:+ " /smonitors" in
  exists d, DiscoverInputs.Command host prefs [] = (Returned d, [Spawn primary])
    /\ includes (DiscoverInputs.markdown d)
         "**Error**: ControlMyMonitor error: The system cannot find the path specified."
       = true.
Proof.
  intros host prefs primary.
  destruct (discover_command_runs_discovery host prefs [] (or_introl eq_refl))
    as (d & tr' & Hcmd & _ & _ & _ & Hfail).
  destruct (Hfail "The system cannot find the path specified.") as [Htr Hmd].
  { left. exists 1, EmptyString. split; [discriminate | reflexivity]. }
  exists d. split; [|exact Hmd].
  rewrite Hcmd, Htr. reflexivity.
Defined.

(** ** The discovery command (first generation) *)

(** [filter(Boolean)] keeps every non-empty string. *)
Lemma In_filterBoolean (x : string) (array : list string) :
  In x array -> x <> EmptyString -> In x (DiscoverInputs.filterBoolean array).
Proof.
  intros Hin Hne. unfold DiscoverInputs.filterBoolean.
  apply list_elem_of_In, list_elem_of_filter. split; [|apply list_elem_of_In; exact Hin].
  destruct (String.eqb_spec x EmptyString); [contradiction | exact I].
Qed.

(** The first generation's [discoverInputs] on macOS: what it runs. *)
Lemma Legacy_discoverInputs_darwin host path m tr :
  platform host = "darwin" ->
  exists r tr' rest, Legacy.discoverInputs host path m tr = (Returned r, tr')
    /\ spawned tr' = (spawned tr ++ sysctlV1 :: rest)%list
    /\ (Legacy.d_success r = true ->
        rest = ["which m1ddc"; sysctlV1; "m1ddc get input"; "m1ddc display list"])
    /\ (Legacy.d_success r = false -> is_Some (Legacy.error r)).
Proof.
  intros Hos.
  destruct (Legacy_validatePrerequisites_darwin host path tr Hos)
    as (r0 & tr1 & Hv & Hintel & Hother).
  cbv zeta in Hintel, Hother.
  unfold Legacy.discoverInputs, bind. rewrite Hv.
  destruct (decide (chipGenOf (run host tr sysctlV1) = intel)) as [Hg|Hg].
  - destruct (Hintel Hg) as [Hsome ->].
    destruct r0 as [msg|]; [|contradiction].
    do 2 eexists. exists []. split; [reflexivity|].
    split; [rewrite spawned_app; reflexivity|].
    split; [discriminate | intros _; simpl; eauto].
  - destruct (Hother Hg) as [_ Hsp].
    destruct r0 as [msg|].
    + do 3 eexists. split; [reflexivity|]. split; [exact Hsp|].
      split; [discriminate | intros _; simpl; eauto].
    + rewrite (Legacy_detectPlatform_darwin host tr1 Hos). simpl.
      destruct (exitedZero_or_fails host (tr1 ++ [Spawn sysctlV1])%list "m1ddc get input")
        as [(out & msg & H)|[e He]].
      * destruct (Legacy_discoverMacOS_ok host _ out msg H) as (info & -> & _).
        do 3 eexists. split; [reflexivity|].
        split; [rewrite !spawned_app, Hsp, <- !app_assoc; reflexivity|].
        split; [reflexivity | discriminate].
      * rewrite (Legacy_discoverMacOS_fail host _ e He).
        do 3 eexists. split; [reflexivity|].
        split; [rewrite !spawned_app, Hsp, <- !app_assoc; reflexivity|].
        split; [discriminate | intros _; simpl; eauto].
Qed.

(** A failed report of the first generation's [discoverInputs] always
    carries an error text. *)
Lemma Legacy_discoverInputs_returns host path m tr :
  exists r tr', Legacy.discoverInputs host path m tr = (Returned r, tr')
    /\ (Legacy.d_success r = false -> is_Some (Legacy.error r)).
Proof.
  destruct (platform_cases host) as [Hos|[Hos|[Hw Hd]]].
  - destruct (Legacy_discoverInputs_darwin host path m tr Hos)
      as (r & tr' & rest & Hr & _ & _ & Herr).
    exists r, tr'. split; assumption.
  - destruct (Legacy_validatePrerequisites_win32 host path tr Hos) as (r0 & Hv & _).
    unfold Legacy.discoverInputs, bind. rewrite Hv.
    destruct r0 as [msg|].
    + do 2 eexists. split; [reflexivity|]. intros _. simpl. eauto.
    + rewrite (Legacy_detectPlatform_win32 host tr Hos). simpl.
      destruct (exitedZero_or_fails host tr
                  ((DQ +:+ default "undefined" path +:+ DQ) +:+ " /smonitors"))
        as [(out & msg & H)|[e He]].
      * destruct (Legacy_discoverWindows_ok host _ m tr out msg H) as (info & -> & _).
        do 2 eexists. split; [reflexivity | discriminate].
      * rewrite (Legacy_discoverWindows_fail host _ m tr e He).
        do 2 eexists. split; [reflexivity|]. intros _. simpl. eauto.
  - unfold Legacy.discoverInputs, bind.
    rewrite (Legacy_validatePrerequisites_unsupported host path tr Hw Hd).
    do 2 eexists. split; [reflexivity|]. intros _. simpl. eauto.
Qed.

(** X19.  The first generation's discovery command, on every host.  It
    detects the platform itself and then runs [discoverInputs], which
    detects it again: on macOS the trace starts with two sysctl queries,
    and a run whose discovery succeeds has spawned, in this order, sysctl,
    sysctl, [which m1ddc], sysctl, [m1ddc get input] and
    [m1ddc display list].  The markdown it returns shows the error text of a
    failed discovery, and the current value of a successful one whenever
    the report has one. *)
Theorem legacy_discover_command (host : Host) (prefs : Legacy.Preferences)
    (tr : list event) :
  exists info tr0 r tr' md,
    Legacy.detectPlatform host tr = (Returned info, tr0)
    /\ Legacy.discoverInputs host
         (Legacy.orUndefined (Legacy.controlMyMonitorPath prefs))
         (Legacy.orElse (Legacy.monitorId prefs) "Primary") tr0
       = (Returned r, tr')
    /\ LegacyDiscoverInputs.Command host prefs tr = (Returned md, tr')
    /\ (Legacy.d_success r = false ->
        exists e, Legacy.error r = Some e
          /\ includes md ("**Error**: " +:+ e) = true)
    /\ (Legacy.d_success r = true ->
        forall v, Legacy.currentValue r = Some v ->
          includes md ("**Current Input Value**: `" +:+ numberToString v +:+ "`") = true)
    /\ (platform host = "darwin" ->
        exists rest,
          spawned tr' = (spawned tr ++ sysctlV1 :: sysctlV1 :: rest)%list
          /\ (Legacy.d_success r = true ->
              rest = ["which m1ddc"; sysctlV1; "m1ddc get input"; "m1ddc display list"])).
Proof.
  assert (Hdetect : exists info tr0,
             Legacy.detectPlatform host tr = (Returned info, tr0)
             /\ (platform host = "darwin" -> tr0 = (tr ++ [Spawn sysctlV1])%list)).
  { destruct (platform_cases host) as [Hos|[Hos|[Hw Hd]]].
    - rewrite (Legacy_detectPlatform_darwin host tr Hos). eauto.
    - rewrite (Legacy_detectPlatform_win32 host tr Hos).
      do 2 eexists. split; [reflexivity|]. rewrite Hos. discriminate.
    - rewrite (Legacy_detectPlatform_unsupported host tr Hw Hd).
      do 2 eexists. split; [reflexivity|]. intros Hos. contradiction. }
  destruct Hdetect as (info & tr0 & Hinfo & Htr0).
  destruct (Legacy_discoverInputs_returns host
              (Legacy.orUndefined (Legacy.controlMyMonitorPath prefs))
              (Legacy.orElse (Legacy.monitorId prefs) "Primary") tr0)
    as (r & tr' & Hr & Herr).
  exists info, tr0, r, tr'.
  unfold LegacyDiscoverInputs.Command, bind. rewrite Hinfo, Hr. unfold ret.
  eexists. split; [reflexivity|]. split; [reflexivity|]. split; [reflexivity|].
  split; [|split].
  - intros Hs. destruct (Herr Hs) as [e He]. exists e. split; [exact He|].
    rewrite Hs, He.
    eapply includes_join; [do 4 right; left; reflexivity|].
    eapply includes_join; [do 2 right; left; reflexivity|].
    apply includes_refl.
  - intros Hs v Hv. rewrite Hs, Hv.
    eapply includes_join; [do 4 right; left; reflexivity|].
    eapply includes_join; [|apply includes_refl].
    apply In_filterBoolean; [do 2 right; left; reflexivity | discriminate].
  - intros Hos. rewrite (Htr0 Hos) in Hr.
    destruct (Legacy_discoverInputs_darwin host
                (Legacy.orUndefined (Legacy.controlMyMonitorPath prefs))
                (Legacy.orElse (Legacy.monitorId prefs) "Primary")
                (tr ++ [Spawn sysctlV1])%list Hos)
      as (r2 & tr2 & rest & Hr2 & Hsp & Hok & _).
    rewrite Hr in Hr2. injection Hr2 as <- <-.
    exists rest. split; [|exact Hok].
    rewrite Hsp, spawned_app, <- app_assoc. reflexivity.
Qed.

Lemma legacy_discover_command_witness :
  let host := macHost "Apple M2" in
  let prefs :=
    {| Legacy.displayportValue := "15"; Legacy.hdmiValue := "17";
       Legacy.controlMyMonitorPath := EmptyString; Legacy.monitorId := EmptyString |} in
  spawned (snd (LegacyDiscoverInputs.Command host prefs []))
  = [ sysctlV1; sysctlV1; "which m1ddc"; sysctlV1; "m1ddc get input";
      "m1ddc display list" ].
Proof.
  intros host prefs.
  destruct (legacy_discover_command host prefs [])
    as (info & tr0 & r & tr' & md & Hi & Hr & Hc & _ & _ & Hd).
  destruct (Hd eq_refl) as (rest & Hsp & Hrest).
  rewrite Hc. simpl snd. rewrite Hsp.
  assert (Htr0 : tr0 = [Spawn sysctlV1]).
  { assert (H : snd (Legacy.detectPlatform host []) = tr0) by (rewrite Hi; reflexivity).
    rewrite <- H. reflexivity. }
  subst tr0.
  assert (Hs : Legacy.d_success r = true).
  { assert (H : fst (Legacy.discoverInputs host
                       (Legacy.orUndefined (Legacy.controlMyMonitorPath prefs))
                       (Legacy.orElse (Legacy.monitorId prefs) "Primary")
                       [Spawn sysctlV1]) = Returned r) by (rewrite Hr; reflexivity).
    vm_compute in H. injection H as <-. reflexivity. }
  rewrite (Hrest Hs). reflexivity.
Defined.

(** ** Input codes *)

(** [parseInt] reads the leading digits and ignores what follows them. *)
Lemma parseInt_app (ds rest : string) :
  ds <> EmptyString -> allDigits ds = true -> takeDigits rest = EmptyString ->
  parseInt (ds +:+ rest) = Num (digitsValue 0 ds).
Proof.
  intros Hne Hall Hrest.
  destruct ds as [|c ds]; [contradiction|].
  simpl in Hall. apply andb_true_iff in Hall as [Hc Hds].
  unfold parseInt.
  change (String c ds +:+ rest) with (String c (ds +:+ rest)).
  rewrite (trimStart_digit c (ds +:+ rest) Hc).
  destruct c as [[] [] [] [] [] [] [] []];
    (vm_compute in Hc; first [discriminate Hc | clear Hc]);
    cbv beta iota zeta;
    simpl takeDigits; rewrite (takeDigits_app ds rest Hds Hrest); reflexivity.
Qed.

(** X20.  The switch commands of the first generation check an input code
    with [parseInt] and [isNaN] only, so text after the leading digits is
    neither rejected nor used: with the code [ds] followed by any text that
    does not start with a digit, both commands behave exactly as with the
    code [ds] alone. *)
Theorem trailing_text_in_input_code_is_ignored (host : Host)
    (ds rest path monitor : string) (tr : list event) :
  ds <> EmptyString -> allDigits ds = true -> takeDigits rest = EmptyString ->
  let prefsOf code :=
    {| Legacy.displayportValue := code; Legacy.hdmiValue := code;
       Legacy.controlMyMonitorPath := path; Legacy.monitorId := monitor |} in
  Legacy.Command host (prefsOf (ds +:+ rest)) tr = Legacy.Command host (prefsOf ds) tr
  /\ SwitchToDisplayPort.Command host (prefsOf (ds +:+ rest)) tr
     = SwitchToDisplayPort.Command host (prefsOf ds) tr.
Proof.
  intros Hne Hall Hrest prefsOf.
  destruct (parseInt_digits ds Hne Hall) as [Hp _].
  unfold Legacy.Command, SwitchToDisplayPort.Command, prefsOf.
  cbn [Legacy.hdmiValue Legacy.displayportValue Legacy.controlMyMonitorPath
       Legacy.monitorId].
  rewrite (parseInt_app ds rest Hne Hall Hrest), Hp.
  split; reflexivity.
Qed.

Lemma trailing_text_in_input_code_is_ignored_witness :
  let host := scriptedHost "win32" [] (Exited 0 EmptyString EmptyString) [] in
  let prefs :=
    {| Legacy.displayportValue := "17 (HDMI-1)"; Legacy.hdmiValue := "17 (HDMI-1)";
       Legacy.controlMyMonitorPath := "C:/Tools/ControlMyMonitor.exe";
       Legacy.monitorId := EmptyString |} in
  spawned (snd (Legacy.Command host prefs []))
  = [ windowsSetValue "C:/Tools/ControlMyMonitor.exe" "Primary" (Num 17) ].
Proof.
  intros host prefs.
  destruct (trailing_text_in_input_code_is_ignored host "17" " (HDMI-1)"
              "C:/Tools/ControlMyMonitor.exe" EmptyString [])
    as [Hhdmi _]; [discriminate | reflexivity | reflexivity |].
  assert (H : Legacy.Command host prefs []
              = Legacy.Command host
                  {| Legacy.displayportValue := "17"; Legacy.hdmiValue := "17";
                     Legacy.controlMyMonitorPath := "C:/Tools/ControlMyMonitor.exe";
                     Legacy.monitorId := EmptyString |} []) by exact Hhdmi.
  rewrite H. vm_compute. reflexivity.
Defined.
